(** * RemotePSpy: the reassembly and dispatch pipeline

    A shallow embedding of [remotepspy/psrp.py] and [remotepspy/winrm.py]:
    the PSRP message parser, the PSRP fragment defragmenter, the WS-Man
    dispatcher with its XPRESS stream framing, and the SOAP chunk
    defragmenter; and of the PowerShell trace parser of
    [remotepspy/etw.py].  Python dictionaries are finite maps, Python exceptions
    are the [Raise] outcome of a state-and-exception monad (a raised
    exception keeps every mutation made before it), and the objects of
    external libraries (ElementTree documents, base64, libwim, the logging
    sinks) appear as parsed records or as function parameters. *)

From Stdlib Require Import ZArith List String Ascii Lia DecimalString.
From stdpp Require Import base gmap strings list fin_maps.

Import ListNotations.
Local Open Scope Z_scope.

(** ** Python values and control flow *)

(** An identifier that Python may also hold as [None]. *)
Abbreviation Ident := (option string).

Abbreviation bytes := (list Byte.byte).

Module Py.

(** The exception classes the modelled code can raise. *)
Inductive exn : Type :=
| KeyError
| StructError
| ValueError
| AttributeError
| UnicodeDecodeError
| ParseError
| LibwimUnavailable            (* Exception('Cannot decompress as libwim not initialized ...') *)
| SoapDefragmenterException
| CallbackError (code : Z).    (* whatever a downstream callback raised *)

Inductive outcome (A : Type) : Type :=
| Ok (a : A)
| Raise (e : exn).
Arguments Ok {A} a.
Arguments Raise {A} e.

(** A method body: it transforms the object's state and either returns
    a value or raises; the state reached when it raises is kept. *)
Definition M (S A : Type) : Type := S -> S * outcome A.

Definition ret {S A} (a : A) : M S A := fun s => (s, Ok a).

Definition bind {S A B} (c : M S A) (k : A -> M S B) : M S B :=
  fun s => match c s with
           | (s', Ok a) => k a s'
           | (s', Raise e) => (s', Raise e)
           end.

Definition raise {S A} (e : exn) : M S A := fun s => (s, Raise e).
Definition get {S} : M S S := fun s => (s, Ok s).
Definition gets {S A} (f : S -> A) : M S A := fun s => (s, Ok (f s)).
Definition modify {S} (f : S -> S) : M S unit := fun s => (f s, Ok tt).

(** [try: c except Exception: h] *)
Definition try_except {S A} (c : M S A) (h : exn -> M S A) : M S A :=
  fun s => match c s with
           | (s', Ok a) => (s', Ok a)
           | (s', Raise e) => h e s'
           end.

(** Run a method of a component held in a field of the enclosing object. *)
Definition zoom {S T A} (proj : S -> T) (upd : T -> S -> S) (c : M T A) : M S A :=
  fun s => match c (proj s) with
           | (t', r) => (upd t' s, r)
           end.

(** [for x in l: body x] *)
Fixpoint for_each {S A} (l : list A) (body : A -> M S unit) : M S unit :=
  match l with
  | [] => ret tt
  | x :: l' => bind (body x) (fun _ => for_each l' body)
  end.

(** [k in d] *)
Definition contains `{Countable K} {V} (d : gmap K V) (k : K) : bool :=
  match d !! k with Some _ => true | None => false end.

(** [d[k]], a [KeyError] when the key is missing. *)
Definition getitem `{Countable K} {S V} (d : gmap K V) (k : K) : M S V :=
  match d !! k with Some v => ret v | None => raise KeyError end.

(** [s[a:b]] for [0 <= a <= b]; indices past the end are clamped. *)
Definition slice {A} (a b : nat) (s : list A) : list A := take (b - a) (drop a s).

End Py.

Export Py.

Declare Scope py_scope.
Delimit Scope py_scope with py.
Notation "'let*' x ':=' c 'in' k" := (Py.bind c (fun x => k))
  (at level 10, x pattern, c at level 100, k at level 200) : py_scope.
Notation "c ;;; k" := (Py.bind c (fun _ => k))
  (at level 100, k at level 200, right associativity) : py_scope.
Local Open Scope py_scope.

(** ** [struct.unpack] *)

Module Struct.

Definition byte_val (b : Byte.byte) : Z := Z.of_N (Byte.to_N b).

(** Big-endian and little-endian unsigned readings of a byte string. *)
Definition be_unsigned (bs : bytes) : Z :=
  fold_left (fun acc b => acc * 256 + byte_val b) bs 0.

Fixpoint le_unsigned (bs : bytes) : Z :=
  match bs with
  | [] => 0
  | b :: bs' => byte_val b + 256 * le_unsigned bs'
  end.

(** Two's complement reading of an unsigned value of [n] bytes. *)
Definition to_signed (n : nat) (u : Z) : Z :=
  if u <? 2 ^ (8 * Z.of_nat n - 1) then u else u - 2 ^ (8 * Z.of_nat n).

(** The four fields of the format ['>qqbI']: two signed 64-bit
    integers, a signed byte and an unsigned 32-bit integer, big-endian. *)
Definition fields_qqbI (s : bytes) : Z * Z * Z * Z :=
  (to_signed 8 (be_unsigned (slice 0 8 s)),
   to_signed 8 (be_unsigned (slice 8 16 s)),
   to_signed 1 (be_unsigned (slice 16 17 s)),
   be_unsigned (slice 17 21 s)).

(** [struct.unpack('>qqbI', s)]: [struct.error] unless [len(s) == 21]. *)
Definition unpack_qqbI {S} (s : bytes) : M S (Z * Z * Z * Z) :=
  if (length s =? 21)%nat then ret (fields_qqbI s) else raise StructError.

(** [struct.unpack('<II', s)]: [struct.error] unless [len(s) == 8]. *)
Definition unpack_II {S} (s : bytes) : M S (Z * Z) :=
  if (length s =? 8)%nat then
    ret (le_unsigned (slice 0 4 s), le_unsigned (slice 4 8 s))
  else raise StructError.

(** [struct.unpack('<HH', s)]: [struct.error] unless [len(s) == 4]. *)
Definition unpack_HH {S} (s : bytes) : M S (Z * Z) :=
  if (length s =? 4)%nat then
    ret (le_unsigned (slice 0 2 s), le_unsigned (slice 2 4 s))
  else raise StructError.

End Struct.

(** ** [psrp.py] *)

Module PSRP.

Import Struct.

(** *** PSRPParser *)

(** [PSRPParser.MSG_TYPES], in the order of the source. *)
Definition MSG_TYPES : list (Z * string) :=
  [ (0x00010002, "SESSION_CAPABILITY"%string);
    (0x00010004, "INIT_RUNSPACEPOOL"%string);
    (0x00010005, "PUBLIC_KEY"%string);
    (0x00010006, "ENCRYPTED_SESSION_KEY"%string);
    (0x00010007, "PUBLIC_KEY_REQUEST"%string);
    (0x00021002, "SET_MAX_RUNSPACES"%string);
    (0x00021003, "SET_MIN_RUNSPACES"%string);
    (0x00021004, "RUNSPACE_AVAILABILITY"%string);
    (0x00021005, "RUNSPACEPOOL_STATE"%string);
    (0x00021006, "CREATE_PIPELINE"%string);
    (0x00021007, "GET_AVAILABLE_RUNSPACES"%string);
    (0x00021008, "USER_EVENT"%string);
    (0x00021009, "APPLICATION_PRIVATE_DATA"%string);
    (0x0002100A, "GET_COMMAND_METADATA"%string);
    (0x00021100, "RUNSPACEPOOL_HOST_CALL"%string);
    (0x00021101, "RUNSPACEPOOL_HOST_RESPONSE"%string);
    (0x00041002, "PIPELINE_INPUT"%string);
    (0x00041003, "END_OF_PIPELINE_INPUT"%string);
    (0x00041004, "PIPELINE_OUTPUT"%string);
    (0x00041005, "ERROR_RECORD"%string);
    (0x00041006, "PIPELINE_STATE"%string);
    (0x00041007, "DEBUG_RECORD"%string);
    (0x00041008, "VERBOSE_RECORD"%string);
    (0x00041009, "WARNING_RECORD"%string);
    (0x00041010, "PROGRESS_RECORD"%string);
    (0x00041011, "INFORMATION_RECORD"%string);
    (0x00041100, "PIPELINE_HOST_CALL"%string);
    (0x00041101, "PIPELINE_HOST_RESPONSE"%string);
    (0x00010008, "CONNECT_RUNSPACEPOOL"%string);
    (0x0002100B, "RUNSPACEPOOL_INIT_DATA"%string);
    (0x0002100C, "RESET_RUNSPACE_STATE"%string) ].

(** [PSRPParser.MSG_TYPES[msg_type]] as a lookup. *)
Fixpoint msg_types_lookup (tbl : list (Z * string)) (msg_type : Z) : option string :=
  match tbl with
  | [] => None
  | (code, name) :: tbl' => if code =? msg_type then Some name else msg_types_lookup tbl' msg_type
  end.

(** [PSRPParser._msg_type_name(msg_type, unknown=None)]. *)
Definition _msg_type_name {S} (msg_type : Z) (unknown : option string) : M S string :=
  match msg_types_lookup MSG_TYPES msg_type with
  | Some name => ret name
  | None => match unknown with
            | None => raise KeyError
            | Some u => ret u
            end
  end.

(** What [new_psrp_message] hands to its callback. *)
Record PSRPMessage : Type := {
  destination : Z;
  message_type : Z;
  rpid : bytes;          (* the 16 bytes given to UUID(bytes_le=...) *)
  pipeline_id : bytes;
  data : string
}.

(** [UUID(bytes_le=b)]: [ValueError] unless [b] has 16 bytes. *)
Definition uuid_bytes_le {S} (b : bytes) : M S bytes :=
  if (length b =? 16)%nat then ret b else raise ValueError.

(** The parser's observable state: the calls made to [self.callback],
    oldest first. *)
Definition ParserLog : Type := list PSRPMessage.

(** Calling [self.callback(...)]: the call is recorded, and it raises
    what the callback raises. *)
Definition call_callback (callback : PSRPMessage -> option exn) (m : PSRPMessage)
  : M ParserLog unit :=
  modify (fun log => log ++ [m]) ;;;
  match callback m with
  | None => ret tt
  | Some e => raise e
  end.

(** [PSRPParser.new_psrp_message].  [decode_utf8_sig] is
    [bytes.decode('utf-8-sig')], [None] for a [UnicodeDecodeError]. *)
Definition new_psrp_message
    (decode_utf8_sig : bytes -> option string)
    (callback : PSRPMessage -> option exn)
    (shell_id : Ident) (object_id : Z) (message : bytes) (command_id : Ident)
  : M ParserLog unit :=
  let* (destination, message_type) := unpack_II (slice 0 8 message) in
  let* rpid := uuid_bytes_le (slice 8 24 message) in
  let* pipeline_id := uuid_bytes_le (slice 24 40 message) in
  let* data := match decode_utf8_sig (drop 40%nat message) with
               | Some d => ret d
               | None => raise UnicodeDecodeError
               end in
  (* the arguments of logger.debug(...) are evaluated before the call *)
  let* _name := _msg_type_name message_type None in
  call_callback callback
    {| destination := destination; message_type := message_type; rpid := rpid;
       pipeline_id := pipeline_id; data := data |}.

(** [PSRPParser.deserialize_string].  A Python [str] is a sequence of
    code points. *)
Definition ustr : Type := list Z.

(** The class [[0-9A-Fa-f]] of the pattern, and the value of a digit. *)
Definition is_hex_digit (c : Z) : bool :=
  ((48 <=? c) && (c <=? 57)) || ((65 <=? c) && (c <=? 70)) || ((97 <=? c) && (c <=? 102)).

Definition hex_digit_value (c : Z) : Z :=
  if c <=? 57 then c - 48 else if c <=? 70 then c - 55 else c - 87.

(** [bytes.fromhex(h1 h2 h3 h4)]: the two bytes, big-endian. *)
Definition fromhex4 (h1 h2 h3 h4 : Z) : Z :=
  ((hex_digit_value h1 * 16 + hex_digit_value h2) * 16 + hex_digit_value h3) * 16
  + hex_digit_value h4.

(** [.decode('utf-16be')] of one 16-bit unit: a surrogate alone cannot
    be decoded. *)
Definition decode_utf16be_unit (u : Z) : option Z :=
  if (0xD800 <=? u) && (u <=? 0xDFFF) then None else Some u.

(** Whether [_x([0-9A-Fa-f]{4})_] matches the seven characters. *)
Definition escape_matches (c0 c1 h1 h2 h3 h4 c6 : Z) : bool :=
  (c0 =? 95) && (c1 =? 120) && is_hex_digit h1 && is_hex_digit h2 && is_hex_digit h3
  && is_hex_digit h4 && (c6 =? 95).

Definition cons_outcome (c : Z) (r : outcome ustr) : outcome ustr :=
  match r with
  | Ok s => Ok (c :: s)
  | Raise e => Raise e
  end.

(** [re.sub(r'_x([0-9A-Fa-f]{4})_', re_replacer, serialized)]: the
    leftmost matches, not overlapping, are replaced; an exception of the
    replacer leaves the call. *)
Fixpoint re_sub_escapes (serialized : ustr) : outcome ustr :=
  match serialized with
  | [] => Ok []
  | c0 :: t =>
      match t with
      | c1 :: h1 :: h2 :: h3 :: h4 :: c6 :: rest =>
          if escape_matches c0 c1 h1 h2 h3 h4 c6 then
            match decode_utf16be_unit (fromhex4 h1 h2 h3 h4) with
            | Some ch => cons_outcome ch (re_sub_escapes rest)
            | None => Raise UnicodeDecodeError
            end
          else cons_outcome c0 (re_sub_escapes t)
      | _ => cons_outcome c0 (re_sub_escapes t)
      end
  end.

(** [PSRPParser.deserialize_string(serialized, htmldecode)];
    [html_unescape] is [html.unescape]. *)
Definition deserialize_string (html_unescape : ustr -> ustr) (serialized : ustr)
    (htmldecode : bool) : outcome ustr :=
  match re_sub_escapes serialized with
  | Ok deserialized => Ok (if htmldecode then html_unescape deserialized else deserialized)
  | Raise e => Raise e
  end.

(** *** PSRPDefragmenter *)

Definition FRAG_HEADER_LEN : nat := 21.
Definition END_MASK : Z := 2.
Definition START_MASK : Z := 1.

(** One entry of [bufs[identifier]]: the dictionary
    [{'last_fragment_id': .., 'buffer': .., 'command_id': ..}]. *)
Record ObjBuf : Type := {
  last_fragment_id : Z;
  buffer : bytes;
  command_id : Ident
}.

(** The arguments of one call of a completion callback. *)
Record Delivery : Type := {
  d_shell : Ident;
  d_object_id : Z;
  d_message : bytes;
  d_command_id : Ident
}.

(** The fields of a [PSRPDefragmenter], and [delivered]: the calls made
    to [self.completed_psrp_callback], oldest first. *)
Record PSRPDefragmenter : Type := {
  shell_bufs : gmap Ident (gmap Z ObjBuf);
  pending_shell_bufs : gmap Ident (gmap Z ObjBuf);
  pending_shell_completed_messages : gmap Ident (list (Z * bytes * Ident));
  delivered : list Delivery
}.

(** [PSRPDefragmenter.__init__] *)
Definition init : PSRPDefragmenter :=
  {| shell_bufs := ∅; pending_shell_bufs := ∅;
     pending_shell_completed_messages := ∅; delivered := [] |}.

Definition set_shell_bufs (m : gmap Ident (gmap Z ObjBuf)) (st : PSRPDefragmenter) :=
  {| shell_bufs := m; pending_shell_bufs := pending_shell_bufs st;
     pending_shell_completed_messages := pending_shell_completed_messages st;
     delivered := delivered st |}.

Definition set_pending_shell_bufs (m : gmap Ident (gmap Z ObjBuf)) (st : PSRPDefragmenter) :=
  {| shell_bufs := shell_bufs st; pending_shell_bufs := m;
     pending_shell_completed_messages := pending_shell_completed_messages st;
     delivered := delivered st |}.

Definition set_completed (m : gmap Ident (list (Z * bytes * Ident))) (st : PSRPDefragmenter) :=
  {| shell_bufs := shell_bufs st; pending_shell_bufs := pending_shell_bufs st;
     pending_shell_completed_messages := m;
     delivered := delivered st |}.

(** The [bufs] argument of the private methods is one of the two
    dictionaries of the object, passed by reference. *)
Inductive BufSel : Type := ShellBufs | PendingShellBufs.

Definition bufs_of (bufs : BufSel) (st : PSRPDefragmenter) : gmap Ident (gmap Z ObjBuf) :=
  match bufs with
  | ShellBufs => shell_bufs st
  | PendingShellBufs => pending_shell_bufs st
  end.

Definition set_bufs (bufs : BufSel) (m : gmap Ident (gmap Z ObjBuf)) (st : PSRPDefragmenter) :=
  match bufs with
  | ShellBufs => set_shell_bufs m st
  | PendingShellBufs => set_pending_shell_bufs m st
  end.

(** The completion callback given to the constructor: it sees the
    deliveries made before and the current one, and returns normally
    ([None]) or raises. *)
Definition Callback : Type := list Delivery -> Delivery -> option exn.

(** [self.completed_psrp_callback(shell_id, object_id, message, command_id)] *)
Definition completed_psrp_callback (cb : Callback)
    (shell_id : Ident) (object_id : Z) (message : bytes) (command_id : Ident)
  : M PSRPDefragmenter unit :=
  let d := {| d_shell := shell_id; d_object_id := object_id;
              d_message := message; d_command_id := command_id |} in
  let* before := gets delivered in
  modify (fun st =>
    {| shell_bufs := shell_bufs st; pending_shell_bufs := pending_shell_bufs st;
       pending_shell_completed_messages := pending_shell_completed_messages st;
       delivered := delivered st ++ [d] |}) ;;;
  match cb before d with
  | None => ret tt
  | Some e => raise e
  end.

(** [pending_shell_message_callback] *)
Definition pending_shell_message_callback
    (message_id : Ident) (object_id : Z) (message : bytes) (command_id : Ident)
  : M PSRPDefragmenter unit :=
  modify (fun st =>
    let stash := pending_shell_completed_messages st in
    let stash1 := if contains stash message_id then stash else <[message_id := []]> stash in
    set_completed
      (<[message_id := default [] (stash1 !! message_id) ++ [(object_id, message, command_id)]]> stash1)
      st).

Definition has_shell (shell_id : Ident) : M PSRPDefragmenter bool :=
  gets (fun st => contains (shell_bufs st) shell_id).

Definition has_pending_shell (shell_id : Ident) : M PSRPDefragmenter bool :=
  gets (fun st => contains (pending_shell_bufs st) shell_id).

Definition new_shell (shell_id : Ident) : M PSRPDefragmenter unit :=
  match shell_id with
  | None => ret tt                                   (* logs an error *)
  | Some _ =>
      modify (fun st =>
        if contains (shell_bufs st) shell_id then st  (* logs a warning *)
        else set_shell_bufs (<[shell_id := ∅]> (shell_bufs st)) st)
  end.

Definition new_pending_shell (message_id : Ident) : M PSRPDefragmenter unit :=
  match message_id with
  | None => ret tt
  | Some _ =>
      modify (fun st =>
        if contains (pending_shell_bufs st) message_id then st
        else set_pending_shell_bufs (<[message_id := ∅]> (pending_shell_bufs st)) st)
  end.

Definition _end_bit_set (e_s : Z) : bool := Z.land e_s END_MASK >? 0.
Definition _start_bit_set (e_s : Z) : bool := Z.land e_s START_MASK >? 0.

(** [bufs[identifier]] *)
Definition bufs_getitem (bufs : BufSel) (identifier : Ident) : M PSRPDefragmenter (gmap Z ObjBuf) :=
  let* st := get in getitem (bufs_of bufs st) identifier.

(** [bufs[identifier][object_id] = ob], with [bufs[identifier]] read first. *)
Definition bufs_setitem (bufs : BufSel) (identifier : Ident) (object_id : Z) (ob : ObjBuf)
  : M PSRPDefragmenter unit :=
  let* objs := bufs_getitem bufs identifier in
  modify (fun st => set_bufs bufs (<[identifier := <[object_id := ob]> objs]> (bufs_of bufs st)) st).

(** [bufs[identifier][object_id]] *)
Definition bufs_getobj (bufs : BufSel) (identifier : Ident) (object_id : Z)
  : M PSRPDefragmenter ObjBuf :=
  let* objs := bufs_getitem bufs identifier in getitem objs object_id.

(** [bufs[identifier].pop(object_id)] *)
Definition bufs_popobj (bufs : BufSel) (identifier : Ident) (object_id : Z)
  : M PSRPDefragmenter unit :=
  let* objs := bufs_getitem bufs identifier in
  let* _ob := getitem objs object_id in
  modify (fun st => set_bufs bufs (<[identifier := delete object_id objs]> (bufs_of bufs st)) st).

(** [PSRPDefragmenter._append_frag_data] *)
Definition _append_frag_data
    (object_id fragment_id : Z) (s_flag e_flag : bool) (frag_data : bytes)
    (identifier : Ident)
    (has_identifier_func : Ident -> M PSRPDefragmenter bool)
    (new_ident_func : Ident -> M PSRPDefragmenter unit)
    (bufs : BufSel)
    (message_complete_callback : Ident -> Z -> bytes -> Ident -> M PSRPDefragmenter unit)
    (command_id : Ident)
  : M PSRPDefragmenter unit :=
  (* Check we are tracking the shell_id *)
  let* tracked := has_identifier_func identifier in
  (if negb tracked then new_ident_func identifier else ret tt) ;;;
  (* Check we have a buffer for the object_id *)
  let* objs := bufs_getitem bufs identifier in
  (if negb (contains objs object_id)
   then bufs_setitem bufs identifier object_id
          {| last_fragment_id := -1; buffer := []; command_id := None |}
   else ret tt) ;;;
  let* ob := bufs_getobj bufs identifier object_id in
  bufs_setitem bufs identifier object_id
    {| last_fragment_id := last_fragment_id ob; buffer := buffer ob; command_id := command_id |} ;;;
  (* Check the fragment is the one we were expecting next *)
  let* ob := bufs_getobj bufs identifier object_id in
  let expected_frag_id := last_fragment_id ob + 1 in
  if negb (expected_frag_id =? fragment_id) then ret tt   (* logs the error, returns *)
  else
    (* Append to appropriate buffer *)
    bufs_setitem bufs identifier object_id
      {| last_fragment_id := last_fragment_id ob; buffer := buffer ob ++ frag_data;
         command_id := PSRP.command_id ob |} ;;;
    if e_flag then
      let* ob := bufs_getobj bufs identifier object_id in
      message_complete_callback identifier object_id (buffer ob) (PSRP.command_id ob) ;;;
      (* Remove ref to completed buffer *)
      bufs_popobj bufs identifier object_id
    else ret tt.

(** The loop of [_new_fragment_data].  Every iteration advances
    [frag_offset] by at least the header length, so [fuel] = the number
    of bytes of [fragment_data] is never exhausted while the loop
    condition holds (lemma [new_fragment_data_loop_fuel] below). *)
Fixpoint _new_fragment_data_loop (fuel : nat) (frag_offset : nat)
    (identifier : Ident)
    (has_identifier_func : Ident -> M PSRPDefragmenter bool)
    (new_ident_func : Ident -> M PSRPDefragmenter unit)
    (bufs : BufSel)
    (message_complete_callback : Ident -> Z -> bytes -> Ident -> M PSRPDefragmenter unit)
    (fragment_data : bytes) (command_id : Ident)
  : M PSRPDefragmenter unit :=
  if (frag_offset <? length fragment_data)%nat then
    match fuel with
    | O => ret tt
    | S fuel' =>
        (* Decode fragment header *)
        let frag_header_end := (frag_offset + FRAG_HEADER_LEN)%nat in
        let* (object_id, fragment_id, e_s, frag_len) :=
          unpack_qqbI (slice frag_offset frag_header_end fragment_data) in
        (* Grab the fragment payload (partial PSRP data) *)
        let data_start := (frag_offset + FRAG_HEADER_LEN)%nat in
        let data_end := (frag_offset + FRAG_HEADER_LEN + Z.to_nat frag_len)%nat in
        let frag_data := slice data_start data_end fragment_data in
        let s_flag := _start_bit_set e_s in
        let e_flag := _end_bit_set e_s in
        (* Store the fragment to the appropriate buffer *)
        _append_frag_data object_id fragment_id s_flag e_flag frag_data identifier
          has_identifier_func new_ident_func bufs message_complete_callback command_id ;;;
        (* Advance to next fragment *)
        _new_fragment_data_loop fuel' (frag_offset + FRAG_HEADER_LEN + Z.to_nat frag_len)%nat
          identifier has_identifier_func new_ident_func bufs message_complete_callback
          fragment_data command_id
    end
  else ret tt.

(** [PSRPDefragmenter._new_fragment_data] *)
Definition _new_fragment_data
    (identifier : Ident)
    (has_identifier_func : Ident -> M PSRPDefragmenter bool)
    (new_ident_func : Ident -> M PSRPDefragmenter unit)
    (bufs : BufSel)
    (message_complete_callback : Ident -> Z -> bytes -> Ident -> M PSRPDefragmenter unit)
    (fragment_data : bytes) (command_id : Ident)
  : M PSRPDefragmenter unit :=
  _new_fragment_data_loop (length fragment_data) 0 identifier has_identifier_func
    new_ident_func bufs message_complete_callback fragment_data command_id.

(** [PSRPDefragmenter.new_fragment]: a fragment whose header was already
    parsed (it passes no [command_id], which defaults to [None]). *)
Definition new_fragment (cb : Callback)
    (shell_id : Ident) (object_id fragment_id : Z) (s_flag e_flag : bool)
    (frag_len : Z) (frag_data : bytes)
  : M PSRPDefragmenter unit :=
  _append_frag_data object_id fragment_id s_flag e_flag frag_data shell_id
    has_shell new_shell ShellBufs (completed_psrp_callback cb) None.

(** [PSRPDefragmenter.new_fragment_data] *)
Definition new_fragment_data (cb : Callback)
    (shell_id : Ident) (fragment_data : bytes) (command_id : Ident)
  : M PSRPDefragmenter unit :=
  _new_fragment_data shell_id has_shell new_shell ShellBufs (completed_psrp_callback cb)
    fragment_data command_id.

(** [PSRPDefragmenter.new_fragment_data_pending_shell] *)
Definition new_fragment_data_pending_shell
    (message_id : Ident) (fragment_data : bytes) (command_id : Ident)
  : M PSRPDefragmenter unit :=
  _new_fragment_data message_id has_pending_shell new_pending_shell PendingShellBufs
    pending_shell_message_callback fragment_data command_id.

(** [PSRPDefragmenter.set_pending_shell_id] (the spec's [promote_pending]) *)
Definition set_pending_shell_id (cb : Callback) (message_id shell_id : Ident)
  : M PSRPDefragmenter unit :=
  let* st := get in
  match pending_shell_bufs st !! message_id with
  | None =>
      (* Pending shell not found, track the shell_id anyway *)
      new_shell shell_id
  | Some bufs =>
      (* Move message buffers over *)
      modify (set_pending_shell_bufs (delete message_id (pending_shell_bufs st))) ;;;
      modify (fun st =>
        if contains (shell_bufs st) shell_id then st        (* pass  ### TODO *)
        else set_shell_bufs (<[shell_id := bufs]> (shell_bufs st)) st) ;;;
      (* Send on any completed messages *)
      let* stash := gets pending_shell_completed_messages in
      (if contains stash message_id then
         for_each (default [] (stash !! message_id))
           (fun '(object_id, message, command_id) =>
              completed_psrp_callback cb shell_id object_id message command_id)
       else ret tt) ;;;
      (* Remove messages from stash: dict.pop without a default *)
      let* stash := gets pending_shell_completed_messages in
      let* _msgs := getitem stash message_id in
      modify (set_completed (delete message_id stash))
  end.

(** [PSRPDefragmenter.delete_shell] *)
Definition delete_shell (shell_id : Ident) : M PSRPDefragmenter unit :=
  modify (fun st =>
    if contains (shell_bufs st) shell_id
    then set_shell_bufs (delete shell_id (shell_bufs st)) st
    else st).

End PSRP.

(** ** [winrm.py] *)

Module WinRM.

Import Struct PSRP.

Definition PS_RESOURCE_URI : string :=
  "http://schemas.microsoft.com/powershell/Microsoft.PowerShell".

Definition CMD_STATE_DONE : string :=
  "http://schemas.microsoft.com/wbem/wsman/1/windows/shell/CommandState/Done".

(** *** The parts of a parsed SOAP document that the dispatcher reads

    Each field is what the corresponding [find]/[findall]/[get] of the
    source yields; for the text of an element, [None] stands for a
    missing element as well as for an element without text (the source
    treats both alike). *)

(** [w:SelectorSet/w:Selector]: the [Name] attribute and the text. *)
Record Selector : Type := { sel_Name : Ident; sel_text : Ident }.

(** [s:Header] *)
Record Header : Type := {
  h_Action : Ident;
  h_ResourceURI : Ident;
  h_To : Ident;
  h_MessageID : Ident;
  h_RelatesTo : Ident;
  h_Selectors : list Selector
}.

(** [a:ReferenceParameters] *)
Record ReferenceParameters : Type := {
  rp_ResourceURI : Ident;
  rp_Selectors : list Selector
}.

(** [s:Body/x:ResourceCreated] *)
Record ResourceCreated : Type := {
  rc_Address : Ident;
  rc_ReferenceParameters : option ReferenceParameters
}.

(** [s:Body/rsp:Shell]: the text of [ps:creationXml]. *)
Record Shell : Type := { sh_creationXml : Ident }.

(** [rsp:CommandState]: attributes and the text of [rsp:ExitCode]. *)
Record CommandState : Type := {
  cs_CommandId : Ident;
  cs_ExitCode : Ident;
  cs_State : Ident
}.

(** [rsp:Stream] *)
Record Stream : Type := {
  st_Name : Ident;
  st_CommandId : Ident;
  st_text : Ident
}.

Record Envelope : Type := {
  e_Header : option Header;
  e_ResourceCreated : option ResourceCreated;        (* s:Body/x:ResourceCreated *)
  e_Shell : option Shell;                            (* s:Body/rsp:Shell *)
  e_Arguments : Ident;                               (* s:Body/rsp:CommandLine/rsp:Arguments *)
  e_CommandId : Ident;                               (* s:Body/rsp:CommandResponse/rsp:CommandId *)
  e_CommandStates : list CommandState;               (* s:Body/rsp:ReceiveResponse/rsp:CommandState *)
  e_Streams : list Stream;                           (* s:Body/rsp:ReceiveResponse/rsp:Stream *)
  e_DesiredStreams : list Ident                      (* CommandId of each s:Body/rsp:Receive/rsp:DesiredStream *)
}.

(** *** External collaborators of [WSManPS] *)
Record Extern : Type := {
  (** [ET.fromstring], [None] for a [ParseError] *)
  ET_fromstring : string -> option Envelope;
  (** [base64.b64decode(text.encode('utf-8'))], [None] for a
      [ValueError] or [binascii.Error] *)
  b64decode : string -> option bytes;
  (** [self.libwim], [None] when the library could not be loaded; the
      function is [wimlib_decompress] on the block, the compressed size
      and the uncompressed size, giving the return code and the [raw]
      content of the output buffer *)
  libwim : option (bytes -> Z -> Z -> Z * bytes);
  (** [psrp_parser.new_psrp_message], the completion callback given to
      the defragmenter *)
  psrp_callback : Callback
}.

(** *** WSManPS *)

(** The handlers of [self.ps_actions]. *)
Inductive Handler : Type :=
| action_create_response
| action_delete_response
| action_create
| action_delete
| action_fault
| action_command_response
| action_receive_response
| action_command
| action_receive
| action_signal.

Definition ps_actions_table : list (string * Handler) :=
  [ ("http://schemas.xmlsoap.org/ws/2004/09/transfer/CreateResponse"%string, action_create_response);
    ("http://schemas.xmlsoap.org/ws/2004/09/transfer/DeleteResponse"%string, action_delete_response);
    ("http://schemas.xmlsoap.org/ws/2004/09/transfer/Create"%string, action_create);
    ("http://schemas.xmlsoap.org/ws/2004/09/transfer/Delete"%string, action_delete);
    ("http://schemas.dmtf.org/wbem/wsman/1/wsman/fault"%string, action_fault);
    ("http://schemas.microsoft.com/wbem/wsman/1/windows/shell/CommandResponse"%string, action_command_response);
    ("http://schemas.microsoft.com/wbem/wsman/1/windows/shell/ReceiveResponse"%string, action_receive_response);
    ("http://schemas.microsoft.com/wbem/wsman/1/windows/shell/Command"%string, action_command);
    ("http://schemas.microsoft.com/wbem/wsman/1/windows/shell/Receive"%string, action_receive);
    ("http://schemas.microsoft.com/wbem/wsman/1/windows/shell/Signal"%string, action_signal) ].

(** [self.ps_actions.get(action)] *)
Fixpoint ps_actions_lookup (tbl : list (string * Handler)) (action : string) : option Handler :=
  match tbl with
  | [] => None
  | (uri, h) :: tbl' => if String.eqb uri action then Some h else ps_actions_lookup tbl' action
  end.

Definition ps_actions (action : string) : option Handler :=
  ps_actions_lookup ps_actions_table action.

(** The fields of a [WSManPS], and [logged_errors]: the exceptions
    reported with [logger.error] by the [except] clause of [new_soap]. *)
Record WSManPS : Type := {
  psrp_defrag : PSRPDefragmenter;
  receive_msgs : gmap Ident string;
  command_msgs : gmap Ident string;
  delete_msgs : gmap Ident string;
  create_msgs : list Ident;
  commands : gmap string string;
  logged_errors : list exn
}.

(** [WSManPS.__init__] *)
Definition init : WSManPS :=
  {| psrp_defrag := PSRP.init; receive_msgs := ∅; command_msgs := ∅; delete_msgs := ∅;
     create_msgs := []; commands := ∅; logged_errors := [] |}.

Definition set_psrp_defrag (d : PSRPDefragmenter) (st : WSManPS) : WSManPS :=
  {| psrp_defrag := d; receive_msgs := receive_msgs st; command_msgs := command_msgs st;
     delete_msgs := delete_msgs st; create_msgs := create_msgs st; commands := commands st;
     logged_errors := logged_errors st |}.

Definition set_receive_msgs (m : gmap Ident string) (st : WSManPS) : WSManPS :=
  {| psrp_defrag := psrp_defrag st; receive_msgs := m; command_msgs := command_msgs st;
     delete_msgs := delete_msgs st; create_msgs := create_msgs st; commands := commands st;
     logged_errors := logged_errors st |}.

Definition set_command_msgs (m : gmap Ident string) (st : WSManPS) : WSManPS :=
  {| psrp_defrag := psrp_defrag st; receive_msgs := receive_msgs st; command_msgs := m;
     delete_msgs := delete_msgs st; create_msgs := create_msgs st; commands := commands st;
     logged_errors := logged_errors st |}.

Definition set_delete_msgs (m : gmap Ident string) (st : WSManPS) : WSManPS :=
  {| psrp_defrag := psrp_defrag st; receive_msgs := receive_msgs st; command_msgs := command_msgs st;
     delete_msgs := m; create_msgs := create_msgs st; commands := commands st;
     logged_errors := logged_errors st |}.

Definition set_create_msgs (l : list Ident) (st : WSManPS) : WSManPS :=
  {| psrp_defrag := psrp_defrag st; receive_msgs := receive_msgs st; command_msgs := command_msgs st;
     delete_msgs := delete_msgs st; create_msgs := l; commands := commands st;
     logged_errors := logged_errors st |}.

Definition set_commands (m : gmap string string) (st : WSManPS) : WSManPS :=
  {| psrp_defrag := psrp_defrag st; receive_msgs := receive_msgs st; command_msgs := command_msgs st;
     delete_msgs := delete_msgs st; create_msgs := create_msgs st; commands := m;
     logged_errors := logged_errors st |}.

Definition log_error (e : exn) (st : WSManPS) : WSManPS :=
  {| psrp_defrag := psrp_defrag st; receive_msgs := receive_msgs st; command_msgs := command_msgs st;
     delete_msgs := delete_msgs st; create_msgs := create_msgs st; commands := commands st;
     logged_errors := logged_errors st ++ [e] |}.

(** A call of a method of [self.psrp_defrag]. *)
Definition defrag {A} (c : M PSRPDefragmenter A) : M WSManPS A :=
  zoom psrp_defrag set_psrp_defrag c.

(** The tracking dictionary handed to [_track_shell_id]. *)
Inductive TrackSel : Type := ReceiveMsgs | DeleteMsgs | CommandMsgs.

Definition tracking_of (t : TrackSel) (st : WSManPS) : gmap Ident string :=
  match t with
  | ReceiveMsgs => receive_msgs st
  | DeleteMsgs => delete_msgs st
  | CommandMsgs => command_msgs st
  end.

Definition set_tracking (t : TrackSel) (m : gmap Ident string) (st : WSManPS) : WSManPS :=
  match t with
  | ReceiveMsgs => set_receive_msgs m st
  | DeleteMsgs => set_delete_msgs m st
  | CommandMsgs => set_command_msgs m st
  end.

(** The first selector named [ShellId] decides ([break]). *)
Fixpoint first_shell_id (selectors : list Selector) : Ident :=
  match selectors with
  | [] => None
  | sel :: rest =>
      if bool_decide (sel_Name sel = Some "ShellId"%string) then sel_text sel
      else first_shell_id rest
  end.

(** [WSManPS._get_shell_id] *)
Definition _get_shell_id (header : Header) : Ident := first_shell_id (h_Selectors header).

(** [WSManPS._known_shell_id_or_resource_uri] *)
Definition _known_shell_id_or_resource_uri
    (header : Header) (resource_uri : Ident) (shell_id : Ident) : M WSManPS bool :=
  let shell_id := match shell_id with None => _get_shell_id header | Some _ => shell_id end in
  let* known := defrag (has_shell shell_id) in
  if known then ret true
  else if bool_decide (resource_uri = Some PS_RESOURCE_URI) then
    (match shell_id with
     | Some _ => defrag (new_shell shell_id)
     | None => ret tt
     end) ;;;
    ret true
  else ret false.

(** [WSManPS._track_shell_id]: every selector named [ShellId] with a
    non-empty text is recorded, the last one wins. *)
Definition _track_shell_id (header : Header) (key : Ident) (tracking_dict : TrackSel)
  : M WSManPS unit :=
  for_each (h_Selectors header) (fun selector =>
    if bool_decide (sel_Name selector = Some "ShellId"%string) then
      match sel_text selector with
      | Some shell_id =>
          if negb (bool_decide (shell_id = ""%string)) then
            modify (fun st => set_tracking tracking_dict (<[key := shell_id]> (tracking_of tracking_dict st)) st)
          else ret tt
      | None => ret tt
      end
    else ret tt).

Definition _track_receive (message_id : Ident) (header : Header) : M WSManPS unit :=
  _track_shell_id header message_id ReceiveMsgs.

Definition _track_delete (message_id : Ident) (header : Header) : M WSManPS unit :=
  _track_shell_id header message_id DeleteMsgs.

Definition _track_command (message_id : Ident) (header : Header) : M WSManPS unit :=
  _track_shell_id header message_id CommandMsgs.

(** [WSManPS._track_command_by_id].  The warning branch tests
    [shell_id in self.commands] and then formats
    [self.commands[command_id]]. *)
Definition _track_command_by_id (command_id : string) (shell_id : Ident) : M WSManPS unit :=
  match shell_id with
  | Some sid =>
      if negb (bool_decide (sid = ""%string)) then
        let* cmds := gets commands in
        (if contains cmds sid then
           let* _was := getitem cmds command_id in ret tt
         else ret tt) ;;;
        modify (fun st => set_commands (<[command_id := sid]> (commands st)) st)
      else ret tt
  | None => ret tt
  end.

(** [WSManPS._track_create] *)
Definition _track_create (message_id : Ident) : M WSManPS unit :=
  modify (fun st =>
    if bool_decide (message_id ∈ create_msgs st) then st
    else set_create_msgs (create_msgs st ++ [message_id]) st).

(** [list.remove(x)]: the first occurrence. *)
Fixpoint list_remove (x : Ident) (l : list Ident) : list Ident :=
  match l with
  | [] => []
  | y :: l' => if bool_decide (y = x) then l' else y :: list_remove x l'
  end.

(** The loop of [_decompress_stream_data]: every iteration strips the
    4-byte header, so [fuel] = the number of bytes of the stream is never
    exhausted while the stream is not empty. *)
Fixpoint _decompress_stream_data_loop {S} (fuel : nat)
    (wimlib_decompress : bytes -> Z -> Z -> Z * bytes)
    (stream_blob : bytes) (fully_decompressed : bytes) : M S bytes :=
  match stream_blob with
  | [] => ret fully_decompressed
  | _ :: _ =>
      match fuel with
      | O => ret fully_decompressed
      | S fuel' =>
          (* Decode the compression header *)
          let* (uncompressed_size, compressed_size) := unpack_HH (slice 0 4 stream_blob) in
          (* Correct for the out-by-one *)
          let uncompressed_size := uncompressed_size + 1 in
          let compressed_size := compressed_size + 1 in
          (* Strip the compression header from the buffer *)
          let stream_blob := drop 4%nat stream_blob in
          (* Grab the block data for this compression block *)
          let compressed_block := slice 0 (Z.to_nat compressed_size) stream_blob in
          let final_block_data :=
            if negb (uncompressed_size =? compressed_size)
            then snd (wimlib_decompress compressed_block compressed_size uncompressed_size)
            else compressed_block in
          (* Append data and advance to next compression block *)
          _decompress_stream_data_loop fuel' wimlib_decompress
            (drop (Z.to_nat compressed_size) stream_blob)
            (fully_decompressed ++ final_block_data)
      end
  end.

(** [WSManPS._decompress_stream_data] *)
Definition _decompress_stream_data {S} (ext : Extern) (stream_blob : bytes) : M S bytes :=
  match libwim ext with
  | None => raise LibwimUnavailable
  | Some wimlib_decompress =>
      _decompress_stream_data_loop (length stream_blob) wimlib_decompress stream_blob []
  end.

(** The handlers.  Their arguments [activity_id], [pid], [tid], [action]
    and [to] only reach log messages and are left out. *)

(** [WSManPS._action_create_response] *)
Definition _action_create_response (ext : Extern)
    (doc : Envelope) (header : Header) (message_id resource_uri : Ident) : M WSManPS unit :=
  (* See if there is a match in create_msgs *)
  let relates_to := h_RelatesTo header in
  let* created := gets create_msgs in
  let pending_match :=
    match relates_to with
    | Some _ => bool_decide (relates_to ∈ created)
    | None => false
    end in
  (if pending_match then modify (set_create_msgs (list_remove relates_to created)) else ret tt) ;;;
  match e_ResourceCreated doc with
  | None => ret tt
  | Some resource_created =>
      match rc_ReferenceParameters resource_created with
      | None => ret tt
      | Some res_params =>
          let body_resource_uri := rp_ResourceURI res_params in
          if negb pending_match && negb (bool_decide (body_resource_uri = Some PS_RESOURCE_URI))
          then ret tt
          else
            match first_shell_id (rp_Selectors res_params) with
            | None => ret tt
            | Some shell_id =>
                defrag (set_pending_shell_id (psrp_callback ext) relates_to (Some shell_id))
            end
      end
  end.

(** [WSManPS._action_delete_response] *)
Definition _action_delete_response
    (doc : Envelope) (header : Header) (message_id resource_uri : Ident) : M WSManPS unit :=
  let relates_to := h_RelatesTo header in
  let* deletes := gets delete_msgs in
  match relates_to with
  | None => ret tt
  | Some _ =>
      match deletes !! relates_to with
      | None => ret tt
      | Some shell_id =>
          modify (set_delete_msgs (delete relates_to deletes)) ;;;
          (* Remove shell from tracking in the PSRPDefragmenter *)
          let* tracked := defrag (has_shell (Some shell_id)) in
          if tracked then defrag (delete_shell (Some shell_id)) else ret tt
      end
  end.

(** [WSManPS._action_create] *)
Definition _action_create (ext : Extern)
    (doc : Envelope) (header : Header) (message_id resource_uri : Ident) : M WSManPS unit :=
  if negb (bool_decide (resource_uri = Some PS_RESOURCE_URI)) then ret tt
  else
    match e_Shell doc with
    | None => ret tt
    | Some shell =>
        _track_create message_id ;;;
        match sh_creationXml shell with
        | None => raise AttributeError          (* None.encode('utf-8') *)
        | Some creation_xml =>
            match b64decode ext creation_xml with
            | None => ret tt                    (* except (ValueError, binascii.Error) *)
            | Some creation_xml =>
                defrag (new_pending_shell message_id) ;;;
                defrag (new_fragment_data_pending_shell message_id creation_xml None)
            end
        end
    end.

(** [WSManPS._action_delete] *)
Definition _action_delete
    (doc : Envelope) (header : Header) (message_id resource_uri : Ident) : M WSManPS unit :=
  let* known := _known_shell_id_or_resource_uri header resource_uri None in
  if negb known then ret tt
  else _track_delete message_id header.

(** [WSManPS._action_fault] and [WSManPS._action_signal]: [pass]. *)
Definition _action_fault
    (doc : Envelope) (header : Header) (message_id resource_uri : Ident) : M WSManPS unit :=
  ret tt.

Definition _action_signal
    (doc : Envelope) (header : Header) (message_id resource_uri : Ident) : M WSManPS unit :=
  ret tt.

(** [WSManPS._action_command_response] *)
Definition _action_command_response
    (doc : Envelope) (header : Header) (message_id resource_uri : Ident) : M WSManPS unit :=
  let relates_to := h_RelatesTo header in
  let* cmd_msgs := gets command_msgs in
  match relates_to with
  | None => ret tt
  | Some _ =>
      match cmd_msgs !! relates_to with
      | None => ret tt
      | Some shell_id =>
          (* Get the command ID *)
          match e_CommandId doc with
          | None => ret tt
          | Some command_id =>
              modify (set_command_msgs (delete relates_to cmd_msgs)) ;;;
              _track_command_by_id command_id (Some shell_id)
          end
      end
  end.

(** The keys of [commands_finished] in insertion order: assigning to a
    key that is already there keeps its place. *)
Fixpoint finished_keys (command_states : list CommandState) (acc : list string) : list string :=
  match command_states with
  | [] => acc
  | cs_elem :: rest =>
      let acc' :=
        match cs_CommandId cs_elem with
        | Some command_id =>
            if bool_decide (cs_State cs_elem = Some CMD_STATE_DONE)
               || match cs_ExitCode cs_elem with Some _ => true | None => false end
            then (if bool_decide (command_id ∈ acc) then acc else acc ++ [command_id])
            else acc
        | None => acc
        end in
      finished_keys rest acc'
  end.

(** [WSManPS._action_receive_response] *)
Definition _action_receive_response (ext : Extern)
    (doc : Envelope) (header : Header) (message_id resource_uri : Ident) : M WSManPS unit :=
  let relates_to := h_RelatesTo header in
  let* receives := gets receive_msgs in
  match relates_to with
  | None => ret tt
  | Some _ =>
      match receives !! relates_to with
      | None => ret tt
      | Some shell_id =>
          (* Remove from receive tracking, capturing shell_id at the same time *)
          modify (set_receive_msgs (delete relates_to receives)) ;;;
          (* Identify any commands which are finished executing *)
          let commands_finished := finished_keys (e_CommandStates doc) [] in
          (* Parse out streams and pass to PSRP defragmenter *)
          for_each (e_Streams doc) (fun stream_element =>
            let command_id := st_CommandId stream_element in
            let* stream_blob :=
              match st_text stream_element with
              | None => raise AttributeError      (* None.encode('utf-8') *)
              | Some text => ret (b64decode ext text)
              end in
            match stream_blob with
            | Some stream_blob =>
                (* Decompress the stream data as necessary *)
                let* decompressed_data := _decompress_stream_data ext stream_blob in
                defrag (new_fragment_data (psrp_callback ext) (Some shell_id)
                          decompressed_data command_id)
            | None => ret tt
            end) ;;;
          (* Remove tracking for finished commands: dict.pop without a default *)
          for_each commands_finished (fun command_id =>
            let* cmds := gets commands in
            let* _shell := getitem cmds command_id in
            modify (set_commands (delete command_id cmds)))
      end
  end.

(** [WSManPS._action_command] *)
Definition _action_command (ext : Extern)
    (doc : Envelope) (header : Header) (message_id resource_uri : Ident) : M WSManPS unit :=
  let shell_id := _get_shell_id header in
  let* known := _known_shell_id_or_resource_uri header resource_uri shell_id in
  if negb known then ret tt
  else
    match e_Arguments doc with
    | None => ret tt
    | Some arguments =>
        (match b64decode ext arguments with
         | Some cmd_blob => defrag (new_fragment_data (psrp_callback ext) shell_id cmd_blob None)
         | None => ret tt
         end) ;;;
        (* Track by MessageID to match corresponding CommandResponse *)
        _track_command message_id header
    end.

(** [WSManPS._action_receive] *)
Definition _action_receive
    (doc : Envelope) (header : Header) (message_id resource_uri : Ident) : M WSManPS unit :=
  let shell_id := _get_shell_id header in
  let* known := _known_shell_id_or_resource_uri header resource_uri shell_id in
  if negb known then ret tt
  else
    _track_receive message_id header ;;;
    for_each (e_DesiredStreams doc) (fun desired_stream =>
      match desired_stream with
      | Some command_id =>
          let* cmds := gets commands in
          if negb (contains cmds command_id) then _track_command_by_id command_id shell_id
          else ret tt
      | None => ret tt
      end).

(** [self.ps_actions[action](...)] *)
Definition run_handler (ext : Extern) (h : Handler)
    (doc : Envelope) (header : Header) (message_id resource_uri : Ident) : M WSManPS unit :=
  match h with
  | action_create_response => _action_create_response ext doc header message_id resource_uri
  | action_delete_response => _action_delete_response doc header message_id resource_uri
  | action_create => _action_create ext doc header message_id resource_uri
  | action_delete => _action_delete doc header message_id resource_uri
  | action_fault => _action_fault doc header message_id resource_uri
  | action_command_response => _action_command_response doc header message_id resource_uri
  | action_receive_response => _action_receive_response ext doc header message_id resource_uri
  | action_command => _action_command ext doc header message_id resource_uri
  | action_receive => _action_receive doc header message_id resource_uri
  | action_signal => _action_signal doc header message_id resource_uri
  end.

(** What [new_soap] decides before it calls a handler. *)
Inductive Routing : Type :=
| NoHeader
| NoAction
| UnrecognisedAction
| UnrecognisedResourceURI
| Routed (h : Handler).

(** The checks of [new_soap] up to the call of the handler. *)
Definition routing (doc : Envelope) : Routing :=
  match e_Header doc with
  | None => NoHeader
  | Some header =>
      match h_Action header with
      | None => NoAction
      | Some action =>
          match ps_actions action with
          | None => UnrecognisedAction
          | Some h =>
              let resource_uri := h_ResourceURI header in
              match resource_uri with
              | Some uri =>
                  if negb (bool_decide (uri = PS_RESOURCE_URI)) then UnrecognisedResourceURI
                  else Routed h
              | None => Routed h
              end
          end
      end
  end.

(** [WSManPS.new_soap]: every exception is caught and logged. *)
Definition new_soap (ext : Extern) (soap : string) : M WSManPS unit :=
  try_except
    (match ET_fromstring ext soap with
     | None => raise ParseError
     | Some doc =>
         match routing doc, e_Header doc with
         | Routed h, Some header =>
             run_handler ext h doc header (h_MessageID header) (h_ResourceURI header)
         | _, _ => ret tt
         end
     end)
    (fun e => modify (log_error e)).

(** *** SoapDefragmenter *)

(** The fields of a WinRM trace event that [new_event] reads; [None] is
    a missing key, or for the numbers a value [int()] rejects. *)
Record Event : Type := {
  ev_ActivityId : Ident;
  ev_ProcessId : Z;
  ev_ThreadId : option Z;
  ev_totalChunks : option Z;
  ev_index : option Z;
  ev_SoapDocument : Ident
}.

(** One entry of [partial_messages]. *)
Record SoapAssembly : Type := {
  total_chunks : Z;
  last_chunk : Z;
  sa_pid : Z;
  sa_tid : Z;
  soap : string
}.

(** The arguments of one call of [completed_soap_callback];
    [activity_id] is [None] for the fall-back value -1. *)
Record SoapDelivery : Type := {
  sd_activity_id : Ident;
  sd_pid : Z;
  sd_tid : Z;
  sd_soap : string
}.

(** The fields of a [SoapDefragmenter], and [completed]: the calls made
    to [self.completed_soap_callback], oldest first. *)
Record SoapDefragmenter : Type := {
  partial_messages : gmap string SoapAssembly;
  completed : list SoapDelivery
}.

Definition set_partial_messages (m : gmap string SoapAssembly) (st : SoapDefragmenter) :=
  {| partial_messages := m; completed := completed st |}.

(** [str(n)] for an integer. *)
Definition str_of_int (n : Z) : string := NilZero.string_of_int (Z.to_int n).

(** ['{}_{}_{}'.format(activity_id, pid, tid)] *)
Definition format_mkey (activity_id : Ident) (pid tid : Z) : string :=
  (default "-1" activity_id ++ "_" ++ str_of_int pid ++ "_" ++ str_of_int tid)%string.

(** [self.completed_soap_callback(activity_id, pid, tid, soap)] *)
Definition completed_soap_callback (cb : SoapDelivery -> option exn)
    (activity_id : Ident) (pid tid : Z) (soap : string) : M SoapDefragmenter unit :=
  let d := {| sd_activity_id := activity_id; sd_pid := pid; sd_tid := tid; sd_soap := soap |} in
  modify (fun st => {| partial_messages := partial_messages st; completed := completed st ++ [d] |}) ;;;
  match cb d with
  | None => ret tt
  | Some e => raise e
  end.

Definition of_option {S A} (e : exn) (o : option A) : M S A :=
  match o with Some a => ret a | None => raise e end.

(** [SoapDefragmenter.new_event] (the lock is held throughout). *)
Definition new_event (cb : SoapDelivery -> option exn) (event : Event) : M SoapDefragmenter unit :=
  let activity_id := ev_ActivityId event in
  let pid := ev_ProcessId event in
  match ev_ThreadId event with
  | None => ret tt       (* KeyError before mkey is set: logged, nothing to drop *)
  | Some tid =>
      let mkey := format_mkey activity_id pid tid in
      try_except
        ((* Add a new partial_messages record if not seen before *)
         let* partial := gets partial_messages in
         (if negb (contains partial mkey) then
            let* total := of_option ValueError (ev_totalChunks event) in
            modify (set_partial_messages
                      (<[mkey := {| total_chunks := total; last_chunk := 0; sa_pid := pid;
                                    sa_tid := tid; soap := "" |}]> partial))
          else ret tt) ;;;
         (* Check the chunk index is what we expect *)
         let* chunk_index := of_option ValueError (ev_index event) in
         let* partial := gets partial_messages in
         let* pm := getitem partial mkey in
         if negb (chunk_index =? last_chunk pm + 1) then raise SoapDefragmenterException
         else
           let pm1 := {| total_chunks := total_chunks pm; last_chunk := last_chunk pm + 1;
                         sa_pid := sa_pid pm; sa_tid := sa_tid pm; soap := soap pm |} in
           modify (set_partial_messages (<[mkey := pm1]> partial)) ;;;
           let* doc := of_option KeyError (ev_SoapDocument event) in
           let pm2 := {| total_chunks := total_chunks pm1; last_chunk := last_chunk pm1;
                         sa_pid := sa_pid pm1; sa_tid := sa_tid pm1;
                         soap := (soap pm1 ++ doc)%string |} in
           modify (set_partial_messages (<[mkey := pm2]> (<[mkey := pm1]> partial))) ;;;
           (* Check if we have the last chunk *)
           if chunk_index =? total_chunks pm2 then
             completed_soap_callback cb activity_id pid tid (soap pm2) ;;;
             let* partial := gets partial_messages in
             let* _pm := getitem partial mkey in
             modify (set_partial_messages (delete mkey partial))
           else ret tt)
        (fun _ =>
           (* Drop any data for this SOAP message *)
           modify (fun st =>
             if contains (partial_messages st) mkey
             then set_partial_messages (delete mkey (partial_messages st)) st
             else st))
  end.

End WinRM.

(** ** [etw.py] *)

Module ETW.

(** [event['EventHeader']['EventDescriptor']] and [event['EventHeader']]
    as far as the parser reads them; [None] is a missing key. *)
Record EventDescriptor : Type := {
  Keyword : option Z;
  Level : option Z
}.

Record EventHeader : Type := {
  Descriptor : option EventDescriptor;
  ActivityId : Ident;
  ProcessId : option Z;
  ThreadId : option Z
}.

(** What is logged with [logger.error]. *)
Inductive LogEntry : Type :=
| ExceptionLogged (e : exn)     (* the [except Exception] clause of [new_event] *)
| NoShellContext.               (* 'Unable to identify Shell context for PSRP fragment' *)

(** [needle in hay] for two strings. *)
Fixpoint substring_in (needle hay : string) : bool :=
  if String.prefix needle hay then true
  else match hay with
       | EmptyString => false
       | String _ hay' => substring_in needle hay'
       end.

(** [s[n:]] for a string. *)
Fixpoint string_drop (n : nat) (s : string) : string :=
  match n, s with
  | O, _ => s
  | S n', String _ s' => string_drop n' s'
  | S _, EmptyString => EmptyString
  end.

(** [event[key]] *)
Definition item {S A} (o : option A) : M S A :=
  match o with Some a => ret a | None => raise KeyError end.

Section Parser.

(** [V] is the type of the payload values as the trace library hands
    them over, [CS] the state of the object behind [completed_callback]. *)
Context {V CS : Type}.

(** A Microsoft-Windows-PowerShell trace event; [None] is a missing key. *)
Record Event : Type := {
  Header : option EventHeader;
  ObjectId : option V;
  FragmentId : option V;
  sFlag : option V;
  eFlag : option V;
  FragmentLength : option V;
  FragmentPayload : option string;
  Description : option string;
  param1 : option string;
  param2 : option string
}.

(** The arguments of one call of [completed_callback]. *)
Record FragmentCall : Type := {
  fc_shell_id : string;
  fc_object_id : V;
  fc_fragment_id : Z;
  fc_s_flag : V;
  fc_e_flag : V;
  fc_frag_len : V;
  fc_frag_data : bytes
}.

(** What the parser calls outside itself. *)
Record Extern : Type := {
  (** [int(v)], [None] when it raises *)
  py_int : V -> option Z;
  (** [bytes.fromhex(s)], [None] for a [ValueError] *)
  bytes_fromhex : string -> option bytes;
  (** [self.completed_callback] *)
  completed_callback : FragmentCall -> M CS unit
}.

(** The fields of a [PowerShellETWParser] (the lock is held by
    [new_event] throughout), what it logged as errors and the object
    behind its callback. *)
Record PowerShellETWParser : Type := {
  shells : list string;
  activity_shell_contexts : gmap string string;
  errors : list LogEntry;
  callback_state : CS
}.

(** [PowerShellETWParser.__init__] *)
Definition init (cs : CS) : PowerShellETWParser :=
  {| shells := []; activity_shell_contexts := ∅; errors := []; callback_state := cs |}.

Definition set_shells (l : list string) (st : PowerShellETWParser) : PowerShellETWParser :=
  {| shells := l; activity_shell_contexts := activity_shell_contexts st; errors := errors st;
     callback_state := callback_state st |}.

Definition set_contexts (m : gmap string string) (st : PowerShellETWParser)
  : PowerShellETWParser :=
  {| shells := shells st; activity_shell_contexts := m; errors := errors st;
     callback_state := callback_state st |}.

Definition set_callback_state (cs : CS) (st : PowerShellETWParser) : PowerShellETWParser :=
  {| shells := shells st; activity_shell_contexts := activity_shell_contexts st;
     errors := errors st; callback_state := cs |}.

Definition log_error (entry : LogEntry) (st : PowerShellETWParser) : PowerShellETWParser :=
  {| shells := shells st; activity_shell_contexts := activity_shell_contexts st;
     errors := errors st ++ [entry]; callback_state := callback_state st |}.

(** [if shell_id not in self.shells: self.shells.append(shell_id)] *)
Definition track_shell (shell_id : string) : M PowerShellETWParser unit :=
  modify (fun st =>
    if bool_decide (shell_id ∈ shells st) then st
    else set_shells (shells st ++ [shell_id]) st).

(** [PowerShellETWParser._psrp_frag_event] *)
Definition _psrp_frag_event (ext : Extern) (event : Event) : M PowerShellETWParser unit :=
  (* Get some useful header details *)
  let* header := item (Header event) in
  let activity_id := ActivityId header in
  let* pid := item (ProcessId header) in
  let* tid := item (ThreadId header) in
  (* Get relevant payload data *)
  let* object_id := item (ObjectId event) in
  let* fragment_id := item (FragmentId event) in
  let* fragment_id := match py_int ext fragment_id with
                      | Some n => ret n
                      | None => raise ValueError
                      end in
  let* s_flag := item (sFlag event) in
  let* e_flag := item (eFlag event) in
  let* frag_len := item (FragmentLength event) in
  let* frag_data := item (FragmentPayload event) in
  let* frag_data := match bytes_fromhex ext (string_drop 2 frag_data) with
                    | Some b => ret b
                    | None => raise ValueError
                    end in
  (* Identify the Shell context of this PSRP fragment *)
  let* contexts := gets activity_shell_contexts in
  match activity_id ≫= (fun a => contexts !! a) with
  | None => modify (log_error NoShellContext)
  | Some shell_id =>
      zoom callback_state set_callback_state
        (completed_callback ext
           {| fc_shell_id := shell_id; fc_object_id := object_id; fc_fragment_id := fragment_id;
              fc_s_flag := s_flag; fc_e_flag := e_flag; fc_frag_len := frag_len;
              fc_frag_data := frag_data |})
  end.

(** [PowerShellETWParser._shell_context_event] *)
Definition _shell_context_event (event : Event) : M PowerShellETWParser unit :=
  let* header := item (Header event) in
  match ActivityId header with
  | None => ret tt      (* Cannot add shell context if there is no ActivityID to go on *)
  | Some activity_id =>
      let* description := item (Description event) in
      if substring_in "Request %1. Creating a server remote session." description then
        (* Context for a newly created shell *)
        let* shell_id := item (param1 event) in
        let* _username := item (param2 event) in
        track_shell shell_id ;;;
        modify (fun st => set_contexts (<[activity_id := shell_id]> (activity_shell_contexts st)) st)
      else if substring_in "Shell Context %1. Request Id %2" description then
        (* Identify shell context for an existing shell *)
        let* shell_id := item (param1 event) in
        track_shell shell_id ;;;
        modify (fun st =>
          if contains (activity_shell_contexts st) activity_id then st
          else set_contexts (<[activity_id := shell_id]> (activity_shell_contexts st)) st)
      else if substring_in "Reporting operation complete for request: %1" description then
        (* A shell may have closed *)
        let* request_id := item (param1 event) in
        modify (fun st =>
          if bool_decide (request_id ∈ shells st) then
            set_contexts
              (filter (fun kv : string * string => snd kv <> request_id)
                 (activity_shell_contexts st))
              (set_shells (filter (fun v => v <> request_id) (shells st)) st)
          else st)
      else ret tt
  end.

(** [PowerShellETWParser.new_event]: every exception is caught and logged. *)
Definition new_event (ext : Extern) (event : Event) : M PowerShellETWParser unit :=
  try_except
    (let* header := item (Header event) in
     let* descriptor := item (Descriptor header) in
     let* keyword := item (Keyword descriptor) in
     let* fragment :=
       (if keyword =? 0x4000000000000008 then
          let* level := item (Level descriptor) in ret (level =? 5)
        else ret false) in
     if fragment : bool then _psrp_frag_event ext event
     else if keyword =? 0x4000000000000100 then _shell_context_event event
     else ret tt)
    (fun e => modify (log_error (ExceptionLogged e))).

End Parser.

Arguments Event : clear implicits.
Arguments FragmentCall : clear implicits.
Arguments Extern : clear implicits.
Arguments PowerShellETWParser : clear implicits.

End ETW.

(** * Vocabulary of the statements *)

Import Struct PSRP WinRM.

(** A stored (uncompressed) XPRESS block, as a pair of its 4-byte header
    and its body: both header fields hold the body length minus one. *)
Definition stored_block (hb : bytes * bytes) : Prop :=
  length (fst hb) = 4%nat /\
  le_unsigned (slice 0 2 (fst hb)) + 1 = Z.of_nat (length (snd hb)) /\
  le_unsigned (slice 2 4 (fst hb)) + 1 = Z.of_nat (length (snd hb)).

Definition block_bytes (hb : bytes * bytes) : bytes := fst hb ++ snd hb.

(** The input of scenario S5, [b"\x04\x00\x04\x00ABCDE"], and its output. *)
Definition S5_input : bytes :=
  [Byte.x04; Byte.x00; Byte.x04; Byte.x00; Byte.x41; Byte.x42; Byte.x43; Byte.x44; Byte.x45].

Definition S5_output : bytes := [Byte.x41; Byte.x42; Byte.x43; Byte.x44; Byte.x45].

(** The payload length declared by a 21-byte fragment header. *)
Definition hdr_length (h : bytes) : nat := Z.to_nat (snd (fields_qqbI h)).

(** A fragment given as its header and its payload, the payload as long
    as the header declares. *)
Definition complete_fragment (hp : bytes * bytes) : Prop :=
  length (fst hp) = FRAG_HEADER_LEN /\ hdr_length (fst hp) = length (snd hp).

Definition fragment_bytes (hp : bytes * bytes) : bytes := fst hp ++ snd hp.

(** The call of [_append_frag_data] that the parse loop makes for a header
    and the payload bytes it found. *)
Definition append_parsed
    (identifier : Ident)
    (has_identifier_func : Ident -> M PSRPDefragmenter bool)
    (new_ident_func : Ident -> M PSRPDefragmenter unit)
    (bufs : BufSel)
    (message_complete_callback : Ident -> Z -> bytes -> Ident -> M PSRPDefragmenter unit)
    (command_id : Ident) (hp : bytes * bytes) : M PSRPDefragmenter unit :=
  let '(object_id, fragment_id, e_s, _) := fields_qqbI (fst hp) in
  _append_frag_data object_id fragment_id (_start_bit_set e_s) (_end_bit_set e_s) (snd hp)
    identifier has_identifier_func new_ident_func bufs message_complete_callback command_id.

(** The chunk index that [new_event] accepts next under a key: one more
    than [last_chunk], which starts at 0 for a key not seen before. *)
Definition expected_chunk (st : SoapDefragmenter) (mkey : string) : Z :=
  match partial_messages st !! mkey with
  | Some pm => last_chunk pm + 1
  | None => 1
  end.

(** The filter as the specification words it: the header [ResourceURI] is
    the PowerShell one, or the [ShellId] selector names a tracked shell,
    or [RelatesTo] names a tracked request. *)
Definition relevant_by_spec (st : WSManPS) (header : Header) : Prop :=
  h_ResourceURI header = Some PS_RESOURCE_URI
  \/ contains (shell_bufs (psrp_defrag st)) (_get_shell_id header) = true
  \/ (h_RelatesTo header ∈ create_msgs st
      \/ contains (delete_msgs st) (h_RelatesTo header) = true
      \/ contains (command_msgs st) (h_RelatesTo header) = true
      \/ contains (receive_msgs st) (h_RelatesTo header) = true).

(** A dispatcher that tracks shell [S] and nothing else. *)
Definition tracking_shell (S : string) : WSManPS :=
  set_psrp_defrag (PSRP.set_shell_bufs {[ Some S := ∅ ]} PSRP.init) WinRM.init.

Definition Command_URI : string :=
  "http://schemas.microsoft.com/wbem/wsman/1/windows/shell/Command".
Definition CommandResponse_URI : string :=
  "http://schemas.microsoft.com/wbem/wsman/1/windows/shell/CommandResponse".
Definition ReceiveResponse_URI : string :=
  "http://schemas.microsoft.com/wbem/wsman/1/windows/shell/ReceiveResponse".

Definition empty_body (header : Header) : Envelope :=
  {| e_Header := Some header; e_ResourceCreated := None; e_Shell := None; e_Arguments := None;
     e_CommandId := None; e_CommandStates := []; e_Streams := []; e_DesiredStreams := [] |}.

(** A Command request for the tracked shell ["S"] whose header carries a
    [ResourceURI] other than the PowerShell one. *)
Definition foreign_uri_command : Envelope :=
  let header :=
    {| h_Action := Some Command_URI;
       h_ResourceURI := Some "http://schemas.microsoft.com/wbem/wsman/1/windows/shell/cmd"%string;
       h_To := None; h_MessageID := Some "M1"%string; h_RelatesTo := None;
       h_Selectors := [ {| sel_Name := Some "ShellId"%string; sel_text := Some "S"%string |} ] |} in
  {| e_Header := Some header; e_ResourceCreated := None; e_Shell := None;
     e_Arguments := Some "AAAA"%string;
     e_CommandId := None; e_CommandStates := []; e_Streams := []; e_DesiredStreams := [] |}.

(** Collaborators for the examples: every SOAP text parses to the given
    document, base64 texts decode to the given bytes. *)
Definition extern_for (doc : Envelope) (decoded : option bytes)
    (lib : option (bytes -> Z -> Z -> Z * bytes)) : Extern :=
  {| ET_fromstring := fun _ => Some doc; b64decode := fun _ => decoded;
     libwim := lib; psrp_callback := fun _ _ => None |}.

(** The header of a response to the request with [MessageID] [relates_to]. *)
Definition response_header (action relates_to : string) : Header :=
  {| h_Action := Some action; h_ResourceURI := None; h_To := None; h_MessageID := None;
     h_RelatesTo := Some relates_to; h_Selectors := [] |}.

(** A ReceiveResponse that reports command ["C"] done and carries two
    streams for it. *)
Definition two_stream_response : Envelope :=
  {| e_Header := Some (response_header ReceiveResponse_URI "M2");
     e_ResourceCreated := None; e_Shell := None; e_Arguments := None; e_CommandId := None;
     e_CommandStates :=
       [ {| cs_CommandId := Some "C"%string; cs_ExitCode := Some "0"%string;
            cs_State := Some CMD_STATE_DONE |} ];
     e_Streams :=
       [ {| st_Name := Some "stdout"%string; st_CommandId := Some "C"%string;
            st_text := Some "AAAA"%string |};
         {| st_Name := Some "stdout"%string; st_CommandId := Some "C"%string;
            st_text := Some "AAAA"%string |} ];
     e_DesiredStreams := [] |}.

(** One complete single-fragment object: object 7, fragment 0, start and
    end flags, payload [41 42]. *)
Definition one_fragment : bytes :=
  [Byte.x00; Byte.x00; Byte.x00; Byte.x00; Byte.x00; Byte.x00; Byte.x00; Byte.x07;
   Byte.x00; Byte.x00; Byte.x00; Byte.x00; Byte.x00; Byte.x00; Byte.x00; Byte.x00;
   Byte.x03; Byte.x00; Byte.x00; Byte.x00; Byte.x02; Byte.x41; Byte.x42].

(** A dispatcher that tracks shell ["S"], the Receive request ["M2"] for
    it and the command ["C"] running in it. *)
Definition awaiting_receive_response : WSManPS :=
  set_commands {[ "C"%string := "S"%string ]}
    (set_receive_msgs {[ Some "M2"%string := "S"%string ]} (tracking_shell "S")).

(** A stream whose text is there but is not valid base64. *)
Definition undecodable (ext : Extern) (s : Stream) : Prop :=
  exists text, st_text s = Some text /\ b64decode ext text = None.

(** The three envelopes of scenario S6. *)
Definition command_request (M1 S args : string) : Envelope :=
  {| e_Header :=
       Some {| h_Action := Some Command_URI; h_ResourceURI := Some PS_RESOURCE_URI;
               h_To := None; h_MessageID := Some M1; h_RelatesTo := None;
               h_Selectors := [ {| sel_Name := Some "ShellId"%string; sel_text := Some S |} ] |};
     e_ResourceCreated := None; e_Shell := None; e_Arguments := Some args;
     e_CommandId := None; e_CommandStates := []; e_Streams := []; e_DesiredStreams := [] |}.

Definition command_response (M1 C : string) : Envelope :=
  {| e_Header := Some (response_header CommandResponse_URI M1);
     e_ResourceCreated := None; e_Shell := None; e_Arguments := None;
     e_CommandId := Some C; e_CommandStates := []; e_Streams := []; e_DesiredStreams := [] |}.

Definition done_receive_response (M2 C : string) : Envelope :=
  {| e_Header := Some (response_header ReceiveResponse_URI M2);
     e_ResourceCreated := None; e_Shell := None; e_Arguments := None; e_CommandId := None;
     e_CommandStates :=
       [ {| cs_CommandId := Some C; cs_ExitCode := None; cs_State := Some CMD_STATE_DONE |} ];
     e_Streams := []; e_DesiredStreams := [] |}.

(** A dispatcher that tracks shell ["S"] and the Receive request ["M2"]. *)
Definition S6_start : WSManPS :=
  set_receive_msgs {[ Some "M2"%string := "S"%string ]} (tracking_shell "S").

(** A completed object whose header carries message type 0, which is not
    in [MSG_TYPES]: destination 2, zero UUIDs, no text. *)
Definition unknown_type_message : bytes :=
  [Byte.x02; Byte.x00; Byte.x00; Byte.x00; Byte.x00; Byte.x00; Byte.x00; Byte.x00]
  ++ repeat Byte.x00 32.

(** The same object as the only fragment of a fragment stream: object 7,
    fragment 0, start and end flags, 40 bytes. *)
Definition unknown_type_fragment : bytes :=
  [Byte.x00; Byte.x00; Byte.x00; Byte.x00; Byte.x00; Byte.x00; Byte.x00; Byte.x07;
   Byte.x00; Byte.x00; Byte.x00; Byte.x00; Byte.x00; Byte.x00; Byte.x00; Byte.x00;
   Byte.x03; Byte.x00; Byte.x00; Byte.x00; Byte.x28] ++ unknown_type_message.

(** [SimpleCommandTracer.message] up to its dispatch on the message type:
    an unknown type is logged as an error and dropped ([None]: the
    method returns normally); the three handled types go to
    [handle], every other known type is ignored. *)
Definition tracer_message (handle : PSRPMessage -> option exn) (m : PSRPMessage) : option exn :=
  match msg_types_lookup MSG_TYPES (message_type m) with
  | None => None
  | Some name =>
      if String.eqb name "CREATE_PIPELINE" || String.eqb name "PIPELINE_HOST_CALL"
         || String.eqb name "PIPELINE_OUTPUT"
      then handle m
      else None
  end.

(** [psrp_parser.new_psrp_message] as the completion callback of the
    defragmenter: it raises what the parser raises. *)
Definition parser_callback (decode_utf8_sig : bytes -> option string)
    (callback : PSRPMessage -> option exn) : Callback :=
  fun _ d =>
    match snd (new_psrp_message decode_utf8_sig callback (d_shell d) (d_object_id d)
                 (d_message d) (d_command_id d) []) with
    | Ok _ => None
    | Raise e => Some e
    end.

(** The buffer that [_append_frag_data] creates for a new object. *)
Definition fresh_buf : ObjBuf :=
  {| last_fragment_id := -1; buffer := []; command_id := None |}.

(** The state in which [bufs[identifier]] is [objs]. *)
Definition with_objs (bufs : BufSel) (identifier : Ident) (objs : gmap Z ObjBuf)
    (st : PSRPDefragmenter) : PSRPDefragmenter :=
  set_bufs bufs (<[identifier := objs]> (bufs_of bufs st)) st.

(** The state after one more call of the completion callback. *)
Definition add_delivery (d : Delivery) (st : PSRPDefragmenter) : PSRPDefragmenter :=
  {| shell_bufs := shell_bufs st; pending_shell_bufs := pending_shell_bufs st;
     pending_shell_completed_messages := pending_shell_completed_messages st;
     delivered := delivered st ++ [d] |}.

(** The two ways in which the public methods call the private ones: for
    a known shell with the completion callback, or for a pending shell. *)
Inductive Path : Type :=
| ShellPath (cb : Callback)
| PendingPath.

Definition path_has (p : Path) : Ident -> M PSRPDefragmenter bool :=
  match p with ShellPath _ => has_shell | PendingPath => has_pending_shell end.

Definition path_new (p : Path) : Ident -> M PSRPDefragmenter unit :=
  match p with ShellPath _ => new_shell | PendingPath => new_pending_shell end.

Definition path_bufs (p : Path) : BufSel :=
  match p with ShellPath _ => ShellBufs | PendingPath => PendingShellBufs end.

Definition path_callback (p : Path) : Ident -> Z -> bytes -> Ident -> M PSRPDefragmenter unit :=
  match p with
  | ShellPath cb => completed_psrp_callback cb
  | PendingPath => pending_shell_message_callback
  end.

(** [_append_frag_data] as the public methods of a path call it. *)
Definition append_via (p : Path) (identifier : Ident) (object_id fragment_id : Z)
    (s_flag e_flag : bool) (frag_data : bytes) (command_id : Ident) : M PSRPDefragmenter unit :=
  _append_frag_data object_id fragment_id s_flag e_flag frag_data identifier
    (path_has p) (path_new p) (path_bufs p) (path_callback p) command_id.

(** [_new_fragment_data] as the public methods of a path call it. *)
Definition feed_via (p : Path) (identifier : Ident) (fragment_data : bytes) (command_id : Ident)
  : M PSRPDefragmenter unit :=
  _new_fragment_data identifier (path_has p) (path_new p) (path_bufs p) (path_callback p)
    fragment_data command_id.

(** The state after [pending_shell_message_callback] stashed one message. *)
Definition stash_message (message_id : Ident) (entry : Z * bytes * Ident)
    (st : PSRPDefragmenter) : PSRPDefragmenter :=
  set_completed
    (<[message_id := default [] (pending_shell_completed_messages st !! message_id) ++ [entry]]>
       (pending_shell_completed_messages st)) st.

(** What the completion callback of a path does with a completed message. *)
Definition deliver (p : Path) (identifier : Ident) (object_id : Z) (message : bytes)
    (command_id : Ident) (st : PSRPDefragmenter) : PSRPDefragmenter * outcome unit :=
  match p with
  | ShellPath cb =>
      let d := {| d_shell := identifier; d_object_id := object_id; d_message := message;
                  d_command_id := command_id |} in
      (add_delivery d st,
       match cb (delivered st) d with None => Ok tt | Some e => Raise e end)
  | PendingPath => (stash_message identifier (object_id, message, command_id) st, Ok tt)
  end.

(** The effect of [_append_frag_data] on a tracked identifier whose
    objects are [objs]. *)
Definition append_tracked (p : Path) (identifier : Ident) (objs : gmap Z ObjBuf)
    (object_id fragment_id : Z) (e_flag : bool) (frag_data : bytes) (command_id : Ident)
    (st : PSRPDefragmenter) : PSRPDefragmenter * outcome unit :=
  let ob := default fresh_buf (objs !! object_id) in
  if last_fragment_id ob + 1 =? fragment_id then
    let ob' := {| last_fragment_id := last_fragment_id ob; buffer := buffer ob ++ frag_data;
                  command_id := command_id |} in
    if e_flag then
      match deliver p identifier object_id (buffer ob ++ frag_data) command_id st with
      | (st1, Ok _) => (with_objs (path_bufs p) identifier (delete object_id objs) st1, Ok tt)
      | (st1, Raise ex) =>
          (with_objs (path_bufs p) identifier (<[object_id := ob']> objs) st1, Raise ex)
      end
    else (with_objs (path_bufs p) identifier (<[object_id := ob']> objs) st, Ok tt)
  else
    (with_objs (path_bufs p) identifier
       (<[object_id := {| last_fragment_id := last_fragment_id ob; buffer := buffer ob;
                          command_id := command_id |}]> objs) st, Ok tt).

(** Scenario S1: shell ["S"], object 7, fragments 0, 1, 2 with payloads
    [01 02], [03], [04 05], the last one with the end flag, fed one by one
    through [new_fragment] to a defragmenter that tracks ["S"]. *)
Definition S1_run (cb : Callback) : PSRPDefragmenter :=
  let st0 := fst (new_shell (Some "S"%string) PSRP.init) in
  let st1 := fst (new_fragment cb (Some "S"%string) 7 0 true false 2 [Byte.x01; Byte.x02] st0) in
  let st2 := fst (new_fragment cb (Some "S"%string) 7 1 false false 1 [Byte.x03] st1) in
  fst (new_fragment cb (Some "S"%string) 7 2 false true 2 [Byte.x04; Byte.x05] st2).

(** The same three fragments as one fragment stream for
    [new_fragment_data]. *)
Definition S1_stream : bytes :=
  [Byte.x00; Byte.x00; Byte.x00; Byte.x00; Byte.x00; Byte.x00; Byte.x00; Byte.x07;
   Byte.x00; Byte.x00; Byte.x00; Byte.x00; Byte.x00; Byte.x00; Byte.x00; Byte.x00;
   Byte.x01; Byte.x00; Byte.x00; Byte.x00; Byte.x02; Byte.x01; Byte.x02]
  ++
  [Byte.x00; Byte.x00; Byte.x00; Byte.x00; Byte.x00; Byte.x00; Byte.x00; Byte.x07;
   Byte.x00; Byte.x00; Byte.x00; Byte.x00; Byte.x00; Byte.x00; Byte.x00; Byte.x01;
   Byte.x00; Byte.x00; Byte.x00; Byte.x00; Byte.x01; Byte.x03]
  ++
  [Byte.x00; Byte.x00; Byte.x00; Byte.x00; Byte.x00; Byte.x00; Byte.x00; Byte.x07;
   Byte.x00; Byte.x00; Byte.x00; Byte.x00; Byte.x00; Byte.x00; Byte.x00; Byte.x02;
   Byte.x02; Byte.x00; Byte.x00; Byte.x00; Byte.x02; Byte.x04; Byte.x05].

(** The public operations of the defragmenter. *)
Inductive Op : Type :=
| OpNewShell (shell_id : Ident)
| OpNewPendingShell (message_id : Ident)
| OpNewFragment (shell_id : Ident) (object_id fragment_id : Z) (s_flag e_flag : bool)
    (frag_len : Z) (frag_data : bytes)
| OpNewFragmentData (shell_id : Ident) (fragment_data : bytes) (command_id : Ident)
| OpNewFragmentDataPendingShell (message_id : Ident) (fragment_data : bytes) (command_id : Ident)
| OpSetPendingShellId (message_id shell_id : Ident)
| OpDeleteShell (shell_id : Ident).

Definition run_op (cb : Callback) (op : Op) : M PSRPDefragmenter unit :=
  match op with
  | OpNewShell shell_id => new_shell shell_id
  | OpNewPendingShell message_id => new_pending_shell message_id
  | OpNewFragment shell_id object_id fragment_id s_flag e_flag frag_len frag_data =>
      new_fragment cb shell_id object_id fragment_id s_flag e_flag frag_len frag_data
  | OpNewFragmentData shell_id fragment_data command_id =>
      new_fragment_data cb shell_id fragment_data command_id
  | OpNewFragmentDataPendingShell message_id fragment_data command_id =>
      new_fragment_data_pending_shell message_id fragment_data command_id
  | OpSetPendingShellId message_id shell_id => set_pending_shell_id cb message_id shell_id
  | OpDeleteShell shell_id => delete_shell shell_id
  end.

(** A sequence of operations, each called from an event handler that
    catches whatever the operation raises. *)
Definition run_ops (cb : Callback) (ops : list Op) (st : PSRPDefragmenter) : PSRPDefragmenter :=
  fold_left (fun st op => fst (run_op cb op st)) ops st.

(** What a buffer contributes to later deliveries: the fragment it expects
    and the bytes it holds; a missing buffer counts as a fresh one. *)
Definition buf_state (o : option ObjBuf) : Z * bytes :=
  (last_fragment_id (default fresh_buf o), buffer (default fresh_buf o)).

Definition objs_equiv (o1 o2 : gmap Z ObjBuf) : Prop :=
  forall oid, buf_state (o1 !! oid) = buf_state (o2 !! oid).

Definition bufs_equiv (b1 b2 : gmap Ident (gmap Z ObjBuf)) : Prop :=
  forall identifier, option_Forall2 objs_equiv (b1 !! identifier) (b2 !! identifier).

(** Two states that track the same identifiers and agree on every buffer
    up to fresh buffers and recorded command ids. *)
Definition equiv (st1 st2 : PSRPDefragmenter) : Prop :=
  bufs_equiv (shell_bufs st1) (shell_bufs st2)
  /\ bufs_equiv (pending_shell_bufs st1) (pending_shell_bufs st2)
  /\ pending_shell_completed_messages st1 = pending_shell_completed_messages st2
  /\ delivered st1 = delivered st2.

(** Two runs that end in related states with the same outcome, and two
    computations that do so from any two related states. *)
Definition same_result {A} (R : PSRPDefragmenter -> PSRPDefragmenter -> Prop)
    (r1 r2 : PSRPDefragmenter * outcome A) : Prop :=
  R (fst r1) (fst r2) /\ snd r1 = snd r2.

Definition sim_rel {A} (R : PSRPDefragmenter -> PSRPDefragmenter -> Prop)
    (c1 c2 : M PSRPDefragmenter A) : Prop :=
  forall st1 st2, R st1 st2 -> same_result R (c1 st1) (c2 st2).

Abbreviation sim := (sim_rel equiv).

(** A defragmenter whose pending shell ["M"] holds fragment 0, payload
    [01], of object 7, and which does not track shell ["S"]. *)
Definition pending_M_holds_fragment : PSRPDefragmenter :=
  run_ops (fun _ _ => None)
    [ OpNewPendingShell (Some "M"%string);
      OpNewFragmentDataPendingShell (Some "M"%string)
        [Byte.x00; Byte.x00; Byte.x00; Byte.x00; Byte.x00; Byte.x00; Byte.x00; Byte.x07;
         Byte.x00; Byte.x00; Byte.x00; Byte.x00; Byte.x00; Byte.x00; Byte.x00; Byte.x00;
         Byte.x01; Byte.x00; Byte.x00; Byte.x00; Byte.x01; Byte.x01] None ]
    PSRP.init.

(** The shell id arrives for ["M"], then the closing fragment of object 7. *)
Definition promote_then_close : list Op :=
  [ OpSetPendingShellId (Some "M"%string) (Some "S"%string);
    OpNewFragment (Some "S"%string) 7 0 false true 1 [Byte.x02] ].

(** Fragment streams fed to a pending shell, and the same streams fed to
    a known shell. *)
Definition pending_feeds (message_id : Ident) (feeds : list (bytes * Ident)) : list Op :=
  map (fun '(data, cid) => OpNewFragmentDataPendingShell message_id data cid) feeds.

Definition shell_feeds (shell_id : Ident) (feeds : list (bytes * Ident)) : list Op :=
  map (fun '(data, cid) => OpNewFragmentData shell_id data cid) feeds.

(** A stashed message as the delivery made for it at promotion. *)
Definition relabel (shell_id : Ident) (entry : Z * bytes * Ident) : Delivery :=
  let '(object_id, message, command_id) := entry in
  {| d_shell := shell_id; d_object_id := object_id; d_message := message;
     d_command_id := command_id |}.

(** The pending shell [m] of the first state and the shell [s] of the
    second hold the same buffers, the second state has delivered under
    [s] what the first has stashed under [m], and the states agree
    elsewhere. *)
Definition promotes_to (m s : Ident) (stA stB : PSRPDefragmenter) : Prop :=
  (exists objs, pending_shell_bufs stA !! m = Some objs /\ shell_bufs stB !! s = Some objs)
  /\ pending_shell_bufs stB = delete m (pending_shell_bufs stA)
  /\ shell_bufs stA = delete s (shell_bufs stB)
  /\ pending_shell_completed_messages stB = delete m (pending_shell_completed_messages stA)
  /\ delivered stB
     = delivered stA ++ map (relabel s) (default [] (pending_shell_completed_messages stA !! m)).

(** A defragmenter that tracks shell ["S"] already, while the pending
    shell ["M"] holds fragment 0, payload [01], of object 7. *)
Definition S_tracked_M_pending : PSRPDefragmenter :=
  run_ops (fun _ _ => None) [ OpNewShell (Some "S"%string) ] pending_M_holds_fragment.

(** The fragment stream that [pending_M_holds_fragment] was fed. *)
Definition fragment_0_of_7 : bytes :=
  [Byte.x00; Byte.x00; Byte.x00; Byte.x00; Byte.x00; Byte.x00; Byte.x00; Byte.x07;
   Byte.x00; Byte.x00; Byte.x00; Byte.x00; Byte.x00; Byte.x00; Byte.x00; Byte.x00;
   Byte.x01; Byte.x00; Byte.x00; Byte.x00; Byte.x01; Byte.x01].


(** The objects buffered under an identifier, none when it is not tracked. *)
Definition objs_of (bufs : BufSel) (identifier : Ident) (st : PSRPDefragmenter) : gmap Z ObjBuf :=
  default ∅ (bufs_of bufs st !! identifier).

(** No buffer of either dictionary has advanced past its initial
    [last_fragment_id]. *)
Definition never_advanced (st : PSRPDefragmenter) : Prop :=
  forall (bufs : BufSel) (identifier : Ident) (objs : gmap Z ObjBuf) (oid : Z) (ob : ObjBuf),
    bufs_of bufs st !! identifier = Some objs -> objs !! oid = Some ob ->
    last_fragment_id ob = -1.

(** A computation that keeps a property of the state, however it ends. *)
Definition preserves {S A} (P : S -> Prop) (c : M S A) : Prop :=
  forall st, P st -> P (fst (c st)).

(** The fields of a parsed fragment header. *)
Definition hdr_object_id (h : bytes) : Z := (fields_qqbI h).1.1.1.
Definition hdr_fragment_id (h : bytes) : Z := (fields_qqbI h).1.1.2.
Definition hdr_flags (h : bytes) : Z := (fields_qqbI h).1.2.

(** The state in which shell [s] holds [objs0] and, for object [oid], a
    buffer with the bytes [acc]. *)
Definition holding (s : Ident) (objs0 : gmap Z ObjBuf) (oid : Z) (acc : bytes) (cid : Ident)
    (st : PSRPDefragmenter) : PSRPDefragmenter :=
  with_objs ShellBufs s
    (<[oid := {| last_fragment_id := -1; buffer := acc; command_id := cid |}]> objs0) st.

(** A fragment of object [oid] with fragment id 0. *)
Definition zero_fragment_of (oid : Z) (hp : bytes * bytes) : Prop :=
  hdr_object_id (fst hp) = oid /\ hdr_fragment_id (fst hp) = 0.

Definition has_end_flag (hp : bytes * bytes) : bool := _end_bit_set (hdr_flags (fst hp)).

(** Two fragments of object 7 that both carry fragment id 0: payload
    [01 02] without flags, then payload [03] with the end flag. *)
Definition zero_id_first : bytes * bytes :=
  ([Byte.x00; Byte.x00; Byte.x00; Byte.x00; Byte.x00; Byte.x00; Byte.x00; Byte.x07;
    Byte.x00; Byte.x00; Byte.x00; Byte.x00; Byte.x00; Byte.x00; Byte.x00; Byte.x00;
    Byte.x00; Byte.x00; Byte.x00; Byte.x00; Byte.x02], [Byte.x01; Byte.x02]).

Definition zero_id_last : bytes * bytes :=
  ([Byte.x00; Byte.x00; Byte.x00; Byte.x00; Byte.x00; Byte.x00; Byte.x00; Byte.x07;
    Byte.x00; Byte.x00; Byte.x00; Byte.x00; Byte.x00; Byte.x00; Byte.x00; Byte.x00;
    Byte.x02; Byte.x00; Byte.x00; Byte.x00; Byte.x01], [Byte.x03]).

(** What the pending path must leave alone: the deliveries made and the
    buffers of the known shells. *)
Definition known_side (st : PSRPDefragmenter) : list Delivery * gmap Ident (gmap Z ObjBuf) :=
  (delivered st, shell_bufs st).

(** The state in which the buffers of pending shell [message_id] have
    been moved to shell [shell_id], as [set_pending_shell_id] does for a
    shell that is not tracked yet. *)
Definition moved (message_id shell_id : Ident) (objs : gmap Z ObjBuf) (st : PSRPDefragmenter)
  : PSRPDefragmenter :=
  with_objs ShellBufs shell_id objs
    (set_pending_shell_bufs (delete message_id (pending_shell_bufs st)) st).

(** The seven characters [_xHHHH_]. *)
Definition escape_of (h1 h2 h3 h4 : Z) : ustr := [95; 120; h1; h2; h3; h4; 95].

(** A message of 40 zero bytes but for its type, SESSION_CAPABILITY. *)
Definition session_capability_message : bytes :=
  [Byte.x00; Byte.x00; Byte.x00; Byte.x00; Byte.x02; Byte.x00; Byte.x01; Byte.x00]
  ++ repeat Byte.x00 32.

(** No underscore in the string. *)
Definition no_underscore (s : ustr) : Prop := Forall (fun c => c <> 95) s.

(** [r] with [pre] put in front, when [r] is a result. *)
Definition prepend (pre : ustr) (r : outcome ustr) : outcome ustr :=
  match r with
  | Ok s => Ok (pre ++ s)
  | Raise e => Raise e
  end.

Definition result_length_le (r : outcome ustr) (n : nat) : Prop :=
  match r with
  | Ok s => (length s <= n)%nat
  | Raise _ => True
  end.

(** A compression block whose body has the length that its header
    declares as the compressed size; the uncompressed size is free. *)
Definition sized_block (hb : bytes * bytes) : Prop :=
  length (fst hb) = 4%nat /\
  le_unsigned (slice 2 4 (fst hb)) + 1 = Z.of_nat (length (snd hb)).

(** What the loop of [_decompress_stream_data] appends for a block: the
    body itself when the two sizes of the header agree, otherwise the
    output buffer of the decompressor, whatever its return code. *)
Definition block_output (wimlib_decompress : bytes -> Z -> Z -> Z * bytes) (hb : bytes * bytes)
  : bytes :=
  let uncompressed_size := le_unsigned (slice 0 2 (fst hb)) + 1 in
  let compressed_size := le_unsigned (slice 2 4 (fst hb)) + 1 in
  if negb (uncompressed_size =? compressed_size)
  then snd (wimlib_decompress (snd hb) compressed_size uncompressed_size)
  else snd hb.

(** A decompressor for the examples: it fails and leaves three zero bytes. *)
Definition failing_decompressor (block : bytes) (compressed_size uncompressed_size : Z)
  : Z * bytes :=
  (1, repeat Byte.x00 3).

Definition extern_with (f : bytes -> Z -> Z -> Z * bytes) : Extern :=
  {| ET_fromstring := fun _ => None; b64decode := fun _ => None; libwim := Some f;
     psrp_callback := fun _ _ => None |}.

(** A block declared as 3 bytes compressed to 2, and a stored block of 1 byte. *)
Definition compressed_then_stored : list (bytes * bytes) :=
  [ ([Byte.x02; Byte.x00; Byte.x01; Byte.x00], [Byte.xaa; Byte.xbb]);
    ([Byte.x00; Byte.x00; Byte.x00; Byte.x00], [Byte.x41]) ].

(** Chunk [index] of [total] of a SOAP document. *)
Definition chunk (activity_id : Ident) (pid tid total index : Z) (doc : string) : Event :=
  {| ev_ActivityId := activity_id; ev_ProcessId := pid; ev_ThreadId := Some tid;
     ev_totalChunks := Some total; ev_index := Some index; ev_SoapDocument := Some doc |}.

Fixpoint chunks_from (activity_id : Ident) (pid tid total index : Z) (docs : list string)
  : list Event :=
  match docs with
  | [] => []
  | doc :: docs' =>
      chunk activity_id pid tid total index doc
      :: chunks_from activity_id pid tid total (index + 1) docs'
  end.

(** The events of a document cut into [docs], numbered from 1. *)
Definition chunks (activity_id : Ident) (pid tid : Z) (docs : list string) : list Event :=
  chunks_from activity_id pid tid (Z.of_nat (length docs)) 1 docs.

Definition join (docs : list string) : string := fold_right String.append ""%string docs.

(** The state in which the assembly under [mkey] has taken [last]
    chunks of [total], [acc] being their text. *)
Definition assembling (p0 : gmap string SoapAssembly) (mkey : string) (total last pid tid : Z)
    (acc : string) (done : list SoapDelivery) : SoapDefragmenter :=
  {| partial_messages :=
       <[mkey := {| total_chunks := total; last_chunk := last; sa_pid := pid; sa_tid := tid;
                    soap := acc |}]> p0;
     completed := done |}.

(** The parser after a sequence of events. *)
Definition run_events {V CS} (ext : ETW.Extern V CS) (events : list (ETW.Event V))
    (st : ETW.PowerShellETWParser CS) : ETW.PowerShellETWParser CS :=
  fold_left (fun st event => fst (ETW.new_event ext event st)) events st.

(** No shell is listed twice, and every activity is bound to a listed shell. *)
Definition consistent {CS} (st : ETW.PowerShellETWParser CS) : Prop :=
  NoDup (ETW.shells st)
  /\ forall a s, ETW.activity_shell_contexts st !! a = Some s -> s ∈ ETW.shells st.

(** An event of keyword 0x4000000000000100 that reports the completion
    of request [r]: its header carries an ActivityId, [a]; its
    Description holds the completion pattern and neither of the two
    patterns that are tested before it; its [param1] is [r]. *)
Definition completion_event {V} (event : ETW.Event V) (a r : string) : Prop :=
  exists header descriptor description,
    ETW.Header event = Some header
    /\ ETW.Descriptor header = Some descriptor
    /\ ETW.Keyword descriptor = Some 0x4000000000000100
    /\ ETW.ActivityId header = Some a
    /\ ETW.Description event = Some description
    /\ ETW.substring_in "Request %1. Creating a server remote session." description = false
    /\ ETW.substring_in "Shell Context %1. Request Id %2" description = false
    /\ ETW.substring_in "Reporting operation complete for request: %1" description = true
    /\ ETW.param1 event = Some r.

(** A level 5 event of keyword 0x4000000000000008 with every field that
    [_psrp_frag_event] reads, and the call it stands for under shell [s]. *)
Definition fragment_event {V CS} (ext : ETW.Extern V CS) (event : ETW.Event V)
    (activity_id : Ident) (s : string) (call : ETW.FragmentCall V) : Prop :=
  exists header descriptor pid tid fid_raw payload,
    ETW.Header event = Some header
    /\ ETW.Descriptor header = Some descriptor
    /\ ETW.Keyword descriptor = Some 0x4000000000000008
    /\ ETW.Level descriptor = Some 5
    /\ ETW.ActivityId header = activity_id
    /\ ETW.ProcessId header = Some pid
    /\ ETW.ThreadId header = Some tid
    /\ ETW.ObjectId event = Some (ETW.fc_object_id call)
    /\ ETW.FragmentId event = Some fid_raw
    /\ ETW.py_int ext fid_raw = Some (ETW.fc_fragment_id call)
    /\ ETW.sFlag event = Some (ETW.fc_s_flag call)
    /\ ETW.eFlag event = Some (ETW.fc_e_flag call)
    /\ ETW.FragmentLength event = Some (ETW.fc_frag_len call)
    /\ ETW.FragmentPayload event = Some payload
    /\ ETW.bytes_fromhex ext (ETW.string_drop 2 payload) = Some (ETW.fc_frag_data call)
    /\ ETW.fc_shell_id call = s.

(** The activity of the event, when it has one that is bound. *)
Definition bound_shell {V CS} (event : ETW.Event V) (st : ETW.PowerShellETWParser CS)
  : option string :=
  match ETW.Header event with
  | Some header =>
      match ETW.ActivityId header with
      | Some a => ETW.activity_shell_contexts st !! a
      | None => None
      end
  | None => None
  end.

(** Examples: payload values are integers, the callback records its calls. *)
Definition recording_extern : ETW.Extern Z (list (ETW.FragmentCall Z)) :=
  {| ETW.py_int := fun v => Some v;
     ETW.bytes_fromhex := fun s => if String.eqb s "0102" then Some [Byte.x01; Byte.x02] else None;
     ETW.completed_callback := fun call => modify (fun calls => calls ++ [call]) |}.

Definition context_header (keyword : Z) (activity_id : Ident) : ETW.EventHeader :=
  {| ETW.Descriptor := Some {| ETW.Keyword := Some keyword; ETW.Level := Some 5 |};
     ETW.ActivityId := activity_id; ETW.ProcessId := Some 100; ETW.ThreadId := Some 200 |}.

Definition context_event (activity_id : Ident) (description shell_id : string) : ETW.Event Z :=
  {| ETW.Header := Some (context_header 0x4000000000000100 activity_id);
     ETW.ObjectId := None; ETW.FragmentId := None; ETW.sFlag := None; ETW.eFlag := None;
     ETW.FragmentLength := None; ETW.FragmentPayload := None;
     ETW.Description := Some description; ETW.param1 := Some shell_id;
     ETW.param2 := Some "user"%string |}.

Definition fragment_of (activity_id : Ident) : ETW.Event Z :=
  {| ETW.Header := Some (context_header 0x4000000000000008 activity_id);
     ETW.ObjectId := Some 7; ETW.FragmentId := Some 0; ETW.sFlag := Some 1; ETW.eFlag := Some 1;
     ETW.FragmentLength := Some 2; ETW.FragmentPayload := Some "0x0102"%string;
     ETW.Description := None; ETW.param1 := None; ETW.param2 := None |}.

Definition shell_created : ETW.Event Z :=
  context_event (Some "A"%string) "Request %1. Creating a server remote session." "S".

Definition shell_completed : ETW.Event Z :=
  context_event (Some "B"%string) "Reporting operation complete for request: %1" "S".

Definition Create_URI : string := "http://schemas.xmlsoap.org/ws/2004/09/transfer/Create".
Definition CreateResponse_URI : string :=
  "http://schemas.xmlsoap.org/ws/2004/09/transfer/CreateResponse".
Definition Delete_URI : string := "http://schemas.xmlsoap.org/ws/2004/09/transfer/Delete".
Definition DeleteResponse_URI : string :=
  "http://schemas.xmlsoap.org/ws/2004/09/transfer/DeleteResponse".

(** The header of a PowerShell request [M] that names the shell [S]. *)
Definition request_header (action M : string) (selectors : list Selector) : Header :=
  {| h_Action := Some action; h_ResourceURI := Some PS_RESOURCE_URI; h_To := None;
     h_MessageID := Some M; h_RelatesTo := None; h_Selectors := selectors |}.

Definition shell_selector (S : string) : Selector :=
  {| sel_Name := Some "ShellId"%string; sel_text := Some S |}.

Definition delete_request (M S : string) : Envelope :=
  empty_body (request_header Delete_URI M [shell_selector S]).

Definition delete_response (M : string) : Envelope :=
  empty_body (response_header DeleteResponse_URI M).

(** A Create request whose [creationXml] is [xml], and the response that
    names the new shell [S]. *)
Definition create_request (M xml : string) : Envelope :=
  {| e_Header := Some (request_header Create_URI M []);
     e_ResourceCreated := None; e_Shell := Some {| sh_creationXml := Some xml |};
     e_Arguments := None; e_CommandId := None; e_CommandStates := []; e_Streams := [];
     e_DesiredStreams := [] |}.

Definition create_response (M S : string) : Envelope :=
  {| e_Header := Some (response_header CreateResponse_URI M);
     e_ResourceCreated :=
       Some {| rc_Address := None;
               rc_ReferenceParameters :=
                 Some {| rp_ResourceURI := Some PS_RESOURCE_URI;
                         rp_Selectors := [shell_selector S] |} |};
     e_Shell := None; e_Arguments := None; e_CommandId := None; e_CommandStates := [];
     e_Streams := []; e_DesiredStreams := [] |}.

(** Collaborators for the examples: the SOAP texts ["1"] and ["2"] parse
    to a request and its response, and every base64 text decodes to one
    complete fragment. *)
Definition extern_of_exchange (request response : Envelope) : Extern :=
  {| ET_fromstring := fun soap =>
       if String.eqb soap "1" then Some request
       else if String.eqb soap "2" then Some response
       else None;
     b64decode := fun _ => Some one_fragment;
     libwim := None;
     psrp_callback := fun _ _ => None |}.

(** The messages stashed under a message id. *)
Definition stash_of (message_id : Ident) (st : PSRPDefragmenter) : list (Z * bytes * Ident) :=
  default [] (pending_shell_completed_messages st !! message_id).

(** The completion callback as the program wires it: the PSRP parser in
    front of the command tracer.  (No text follows the 40-byte header in
    the examples.) *)
Definition wired_callback : Callback :=
  parser_callback (fun _ => Some ""%string) (tracer_message (fun _ => None)).

(** The header of a fragment of object 7 with fragment id 0. *)
Definition header_of_7 (flags len : Byte.byte) : bytes :=
  [Byte.x00; Byte.x00; Byte.x00; Byte.x00; Byte.x00; Byte.x00; Byte.x00; Byte.x07;
   Byte.x00; Byte.x00; Byte.x00; Byte.x00; Byte.x00; Byte.x00; Byte.x00; Byte.x00;
   flags; Byte.x00; Byte.x00; Byte.x00; len].

(** The SESSION_CAPABILITY message as one fragment with both flags, and
    cut into two fragments that both carry id 0. *)
Definition capability_fragment : bytes * bytes :=
  (header_of_7 Byte.x03 Byte.x28, session_capability_message).

Definition capability_first : bytes * bytes :=
  (header_of_7 Byte.x01 Byte.x14, take 20 session_capability_message).

Definition capability_last : bytes * bytes :=
  (header_of_7 Byte.x02 Byte.x14, drop 20 session_capability_message).

(** A Command request for shell [S] that carries no [Arguments]. *)
Definition command_request_without_arguments (M1 S : string) : Envelope :=
  {| e_Header :=
       Some {| h_Action := Some Command_URI; h_ResourceURI := Some PS_RESOURCE_URI;
               h_To := None; h_MessageID := Some M1; h_RelatesTo := None;
               h_Selectors := [ {| sel_Name := Some "ShellId"%string; sel_text := Some S |} ] |};
     e_ResourceCreated := None; e_Shell := None; e_Arguments := None;
     e_CommandId := None; e_CommandStates := []; e_Streams := []; e_DesiredStreams := [] |}.

(** The collaborators of scenario S6 with the callback as the program
    wires it; [arguments] is what the command arguments decode to. *)
Definition S6_wired_extern (arguments : bytes) : Extern :=
  {| ET_fromstring := fun soap =>
       if String.eqb soap "1" then Some (command_request "M1" "S" "AAAA")
       else if String.eqb soap "2" then Some (command_response "M1" "C")
       else if String.eqb soap "3" then Some (done_receive_response "M2" "C")
       else None;
     b64decode := fun _ => Some arguments;
     libwim := None;
     psrp_callback := wired_callback |}.

(** A request and its response with the callback as the program wires
    it; every base64 text decodes to the SESSION_CAPABILITY fragment. *)
Definition wired_exchange (request response : Envelope) : Extern :=
  {| ET_fromstring := fun soap =>
       if String.eqb soap "1" then Some request
       else if String.eqb soap "2" then Some response
       else None;
     b64decode := fun _ => Some (fragment_bytes capability_fragment);
     libwim := None;
     psrp_callback := wired_callback |}.

(** Collaborators without the decompression library. *)
Definition extern_without_libwim : Extern :=
  {| ET_fromstring := fun _ => None; b64decode := fun _ => None; libwim := None;
     psrp_callback := fun _ _ => None |}.

(** A fragment of object 7 whose header declares 5 payload bytes while
    2 are there: with fragment id 1, and with fragment id 0. *)
Definition truncated_with_id_1 : bytes :=
  [Byte.x00; Byte.x00; Byte.x00; Byte.x00; Byte.x00; Byte.x00; Byte.x00; Byte.x07;
   Byte.x00; Byte.x00; Byte.x00; Byte.x00; Byte.x00; Byte.x00; Byte.x00; Byte.x01;
   Byte.x00; Byte.x00; Byte.x00; Byte.x00; Byte.x05; Byte.x41; Byte.x42].

Definition truncated_with_id_0 : bytes :=
  header_of_7 Byte.x00 Byte.x05 ++ [Byte.x41; Byte.x42].

(** * Lemmas and theorems *)

(** ** Byte strings *)

Lemma slice_0 {A} (n : nat) (l : list A) : slice 0 n l = take n l.
Proof. unfold slice. rewrite Nat.sub_0_r. reflexivity. Qed.

Lemma byte_val_range b : 0 <= byte_val b < 256.
Proof. unfold byte_val. pose proof (Byte.to_N_bounded b). lia. Qed.

Lemma le_unsigned_nonneg bs : 0 <= le_unsigned bs.
Proof. induction bs as [|b bs IH]; simpl; [lia|]. pose proof (byte_val_range b). lia. Qed.

(** ** XPRESS stream framing *)

Section Xpress.
Context {S : Type}.
Variable f : bytes -> Z -> Z -> Z * bytes.

(** The loop copies every stored block and stops on the empty stream. *)
Lemma decompress_loop_stored (blocks : list (bytes * bytes)) :
  Forall stored_block blocks ->
  forall (fuel : nat) (acc : bytes) (s : S),
    (length (concat (map block_bytes blocks)) <= fuel)%nat ->
    _decompress_stream_data_loop fuel f (concat (map block_bytes blocks)) acc s
    = (s, Ok (acc ++ concat (map snd blocks))).
Proof.
  induction 1 as [|[h body] blocks [Hlen [Hu Hc]] _ IH]; intros fuel acc s Hfuel.
  - destruct fuel; simpl; rewrite app_nil_r; reflexivity.
  - cbn [fst snd] in Hlen, Hu, Hc.
    change (concat (map block_bytes ((h, body) :: blocks)))
      with ((h ++ body) ++ concat (map block_bytes blocks)) in *.
    assert (Hbody : (0 < length body)%nat)
      by (pose proof (le_unsigned_nonneg (slice 0 2 h)); lia).
    rewrite !length_app in Hfuel.
    destruct fuel as [|fuel]; [lia|].
    rewrite <- app_assoc.
    destruct h as [|b0 h']; [discriminate Hlen|].
    cbn [app _decompress_stream_data_loop].
    change (b0 :: h' ++ body ++ concat (map block_bytes blocks))
      with ((b0 :: h') ++ body ++ concat (map block_bytes blocks)).
    rewrite slice_0, (take_app_length' (b0 :: h') _ 4 (eq_sym Hlen)),
      (drop_app_length' (b0 :: h') _ 4 (eq_sym Hlen)).
    unfold unpack_HH. rewrite Hlen. cbn [Nat.eqb].
    unfold Py.bind at 1, Py.ret at 1. cbv beta iota.
    rewrite Hu, Hc, Z.eqb_refl. cbn [negb].
    rewrite Nat2Z.id, slice_0, take_app_length, drop_app_length.
    rewrite IH by (simpl in Hfuel; lia).
    cbn [map concat snd]. rewrite <- app_assoc. reflexivity.
Qed.

Lemma S5_is_stored :
  S5_input = concat (map block_bytes [([Byte.x04; Byte.x00; Byte.x04; Byte.x00], S5_output)])
  /\ Forall stored_block [([Byte.x04; Byte.x00; Byte.x04; Byte.x00], S5_output)].
Proof.
  split; [reflexivity|]. constructor; [|constructor].
  unfold stored_block. cbn. repeat split; reflexivity.
Qed.

End Xpress.

(** Without the decompression library the call raises on scenario S5
    itself, although its only block is stored and needs no
    decompression: the claim of C8 fails there. *)
Lemma C8_counterexample :
  _decompress_stream_data extern_without_libwim S5_input tt = (tt, Raise LibwimUnavailable).
Proof. reflexivity. Qed.

(** C8, amended.  When the decompression library is loaded, a stream
    made of stored blocks (4-byte little-endian header of two u16
    fields, each the body length minus one, then the body) decompresses
    to the concatenation of the block bodies, each appended verbatim,
    with nothing left over; in particular [04 00 04 00 'ABCDE'] yields
    ['ABCDE'].  When the library is not loaded, the call raises for
    every stream before it reads a header. *)
Theorem C8_xpress_stored_blocks_verbatim (S : Type) (ext : Extern) (s : S) :
  match libwim ext with
  | Some _ =>
      (forall blocks : list (bytes * bytes),
          Forall stored_block blocks ->
          _decompress_stream_data ext (concat (map block_bytes blocks)) s
          = (s, Ok (concat (map snd blocks))))
      /\ _decompress_stream_data ext S5_input s = (s, Ok S5_output)
  | None =>
      forall stream_blob : bytes,
        _decompress_stream_data ext stream_blob s = (s, Raise LibwimUnavailable)
  end.
Proof.
  destruct (libwim ext) as [f|] eqn:Hlib.
  - assert (Hgen : forall blocks : list (bytes * bytes),
               Forall stored_block blocks ->
               _decompress_stream_data ext (concat (map block_bytes blocks)) s
               = (s, Ok (concat (map snd blocks)))).
    { intros blocks Hblocks. unfold _decompress_stream_data. rewrite Hlib.
      apply (decompress_loop_stored f blocks Hblocks _ [] s). lia. }
    split; [exact Hgen|].
    destruct (@S5_is_stored) as [-> Hst].
    rewrite (Hgen _ Hst). cbn. reflexivity.
  - intros stream_blob. unfold _decompress_stream_data. rewrite Hlib. reflexivity.
Qed.

Lemma C8_xpress_witness :
  _decompress_stream_data
    {| ET_fromstring := fun _ => None; b64decode := fun _ => None;
       libwim := Some (fun _ _ _ => (0, [])); psrp_callback := fun _ _ => None |}
    S5_input tt = (tt, Ok S5_output).
Proof.
  exact (proj2 (C8_xpress_stored_blocks_verbatim unit
                  {| ET_fromstring := fun _ => None; b64decode := fun _ => None;
                     libwim := Some (fun _ _ _ => (0, [])); psrp_callback := fun _ _ => None |}
                  tt)).
Defined.

(** ** The monad *)

Lemma bind_ret_tt {S} (c : M S unit) (s : S) : (c ;;; ret tt) s = c s.
Proof. unfold Py.bind, Py.ret. destruct (c s) as [s' [[]|e]]; reflexivity. Qed.

Lemma bind_assoc {S A B C} (c : M S A) (k : A -> M S B) (k' : B -> M S C) (s : S) :
  Py.bind (Py.bind c k) k' s = Py.bind c (fun a => Py.bind (k a) k') s.
Proof. unfold Py.bind. destruct (c s) as [s' [a|e]]; reflexivity. Qed.

Lemma bind_ext {S A B} (c : M S A) (k k' : A -> M S B) (s : S) :
  (forall a s', k a s' = k' a s') -> Py.bind c k s = Py.bind c k' s.
Proof. intros H. unfold Py.bind. destruct (c s) as [s' [a|e]]; [apply H|reflexivity]. Qed.

(** ** The parse loop of [_new_fragment_data] *)

Lemma be_unsigned_nonneg_from bs acc : 0 <= acc -> 0 <= fold_left (fun acc b => acc * 256 + byte_val b) bs acc.
Proof.
  revert acc. induction bs as [|b bs IH]; intros acc Hacc; simpl; [lia|].
  apply IH. pose proof (byte_val_range b). lia.
Qed.

Lemma be_unsigned_nonneg bs : 0 <= be_unsigned bs.
Proof. apply be_unsigned_nonneg_from. lia. Qed.

Section FragLoop.
Variable identifier : Ident.
Variable has_identifier_func : Ident -> M PSRPDefragmenter bool.
Variable new_ident_func : Ident -> M PSRPDefragmenter unit.
Variable bufs : BufSel.
Variable message_complete_callback : Ident -> Z -> bytes -> Ident -> M PSRPDefragmenter unit.
Variable command_id : Ident.

Local Abbreviation loop fuel off data :=
  (_new_fragment_data_loop fuel off identifier has_identifier_func new_ident_func bufs
     message_complete_callback data command_id).
Local Abbreviation nfd data :=
  (_new_fragment_data identifier has_identifier_func new_ident_func bufs
     message_complete_callback data command_id).
Local Abbreviation append hp :=
  (append_parsed identifier has_identifier_func new_ident_func bufs
     message_complete_callback command_id hp).

Lemma loop_shift_bounded (n : nat) :
  forall (fuel fuel' off : nat) (data : bytes) (st : PSRPDefragmenter),
    (length data - off <= n)%nat -> (n <= fuel)%nat -> (n <= fuel')%nat ->
    loop fuel off data st = loop fuel' 0%nat (drop off data) st.
Proof.
  induction n as [|n IH]; intros fuel fuel' off data st Hn Hf Hf'.
  - assert (Hoff : (off <? length data)%nat = false) by (apply Nat.ltb_ge; lia).
    assert (H0 : (0 <? length (drop off data))%nat = false)
      by (apply Nat.ltb_ge; rewrite length_drop; lia).
    destruct fuel, fuel'; cbn [_new_fragment_data_loop]; rewrite Hoff, H0; reflexivity.
  - destruct (Nat.ltb_spec off (length data)) as [Hlt|Hge].
    + assert (H0 : (0 <? length (drop off data))%nat = true)
        by (apply Nat.ltb_lt; rewrite length_drop; lia).
      assert (Hoff : (off <? length data)%nat = true) by (apply Nat.ltb_lt; lia).
      destruct fuel as [|fuel]; [lia|]. destruct fuel' as [|fuel']; [lia|].
      cbn [_new_fragment_data_loop].
      rewrite Hoff, H0.
      unfold slice. rewrite !Nat.add_0_l, Nat.sub_0_r, drop_0.
      replace (off + FRAG_HEADER_LEN - off)%nat with FRAG_HEADER_LEN by lia.
      unfold Py.bind at 1 3.
      destruct (unpack_qqbI (take FRAG_HEADER_LEN (drop off data)) st)
        as [st1 [[[[oid fid] e_s] len]|e]]; [|reflexivity].
      replace (off + FRAG_HEADER_LEN + Z.to_nat len - (off + FRAG_HEADER_LEN))%nat
        with (Z.to_nat len) by lia.
      replace (FRAG_HEADER_LEN + Z.to_nat len - FRAG_HEADER_LEN)%nat
        with (Z.to_nat len) by lia.
      rewrite drop_drop.
      unfold Py.bind.
      destruct (_append_frag_data _ _ _ _ _ _ _ _ _ _ _ st1) as [st2 [[]|e]]; [|reflexivity].
      rewrite (IH fuel fuel (off + FRAG_HEADER_LEN + Z.to_nat len)%nat data st2)
        by (unfold FRAG_HEADER_LEN; lia).
      rewrite (IH fuel' fuel (FRAG_HEADER_LEN + Z.to_nat len)%nat (drop off data) st2)
        by (try rewrite length_drop; unfold FRAG_HEADER_LEN; lia).
      rewrite drop_drop. f_equal. f_equal. lia.
    + assert (Hoff : (off <? length data)%nat = false) by (apply Nat.ltb_ge; lia).
      assert (H0 : (0 <? length (drop off data))%nat = false)
        by (apply Nat.ltb_ge; rewrite length_drop; lia).
      destruct fuel, fuel'; cbn [_new_fragment_data_loop]; rewrite Hoff, H0; reflexivity.
Qed.

(** The loop never runs out of fuel: any two amounts of at least the
    number of bytes left give the same run. *)
Lemma new_fragment_data_loop_fuel (fuel fuel' off : nat) (data : bytes) st :
  (length data - off <= fuel)%nat -> (length data - off <= fuel')%nat ->
  loop fuel off data st = loop fuel' off data st.
Proof.
  intros Hf Hf'.
  rewrite (loop_shift_bounded (length data - off) fuel fuel off data st) by lia.
  rewrite (loop_shift_bounded (length data - off) fuel' fuel off data st) by lia.
  reflexivity.
Qed.

Lemma new_fragment_data_nil st : nfd [] st = (st, Ok tt).
Proof. reflexivity. Qed.

(** One iteration: a full header, then the payload bytes that are there. *)
Lemma new_fragment_data_cons (h rest : bytes) st :
  length h = FRAG_HEADER_LEN ->
  nfd (h ++ rest) st
  = (append (h, take (hdr_length h) rest) ;;; nfd (drop (hdr_length h) rest)) st.
Proof.
  intros Hlen. unfold _new_fragment_data.
  assert (Hpos : (0 <? length (h ++ rest))%nat = true)
    by (apply Nat.ltb_lt; rewrite length_app, Hlen; unfold FRAG_HEADER_LEN; lia).
  destruct (length (h ++ rest)) as [|fuel] eqn:Hfuel; [discriminate Hpos|].
  cbn [_new_fragment_data_loop]. rewrite Hfuel, Hpos.
  rewrite Nat.add_0_l, slice_0, (take_app_length' h rest _ (eq_sym Hlen)).
  unfold unpack_qqbI. rewrite Hlen. cbn [Nat.eqb FRAG_HEADER_LEN].
  unfold Py.bind at 1, Py.ret at 1. cbv beta iota.
  unfold hdr_length, append_parsed. cbn [fst snd].
  destruct (fields_qqbI h) as [[[oid fid] e_s] len]. cbn [fst snd].
  unfold slice.
  replace (FRAG_HEADER_LEN + Z.to_nat len - FRAG_HEADER_LEN)%nat with (Z.to_nat len) by lia.
  rewrite (drop_app_length' h rest _ (eq_sym Hlen)).
  unfold Py.bind.
  destruct (_append_frag_data _ _ _ _ _ _ _ _ _ _ _ st) as [st2 [[]|e]]; [|reflexivity].
  rewrite (loop_shift_bounded (length (drop (Z.to_nat len) rest)) fuel
             (length (drop (Z.to_nat len) rest))
             (FRAG_HEADER_LEN + Z.to_nat len)%nat (h ++ rest) st2).
  - rewrite <- drop_drop, (drop_app_length' h rest _ (eq_sym Hlen)). reflexivity.
  - rewrite length_drop, length_app, Hlen. lia.
  - rewrite length_drop. rewrite length_app, Hlen in Hfuel. unfold FRAG_HEADER_LEN in Hfuel. lia.
  - lia.
Qed.

(** Fewer than 21 bytes where a header is expected: [struct.error]. *)
Lemma new_fragment_data_short (r : bytes) st :
  (0 < length r < FRAG_HEADER_LEN)%nat ->
  nfd r st = (st, Raise StructError).
Proof.
  intros [Hpos Hlt]. unfold _new_fragment_data.
  destruct (length r) as [|fuel] eqn:Hfuel; [lia|].
  cbn [_new_fragment_data_loop]. rewrite Hfuel. cbn [Nat.ltb Nat.leb].
  unfold unpack_qqbI, slice.
  assert (Hl : (length (take (0 + FRAG_HEADER_LEN - 0) (drop 0 r)) =? 21)%nat = false).
  { apply Nat.eqb_neq. rewrite length_take, drop_0. unfold FRAG_HEADER_LEN in *. lia. }
  rewrite Hl. reflexivity.
Qed.

(** On a run of complete fragments the loop makes one call of
    [_append_frag_data] per fragment, in order, then goes on with what
    follows. *)
Lemma new_fragment_data_complete_app (frs : list (bytes * bytes)) (rest : bytes) :
  Forall complete_fragment frs ->
  forall st,
    nfd (concat (map fragment_bytes frs) ++ rest) st
    = (for_each frs (fun hp => append hp) ;;; nfd rest) st.
Proof.
  induction 1 as [|[h p] frs [Hlen Hp] _ IH]; intros st.
  - reflexivity.
  - cbn [fst snd] in Hlen, Hp.
    change (concat (map fragment_bytes ((h, p) :: frs)))
      with ((h ++ p) ++ concat (map fragment_bytes frs)).
    rewrite <- !app_assoc, (new_fragment_data_cons h _ st Hlen).
    rewrite Hp, take_app_length, drop_app_length.
    cbn [for_each]. rewrite bind_assoc. apply bind_ext. intros [] s'. apply IH.
Qed.

Lemma new_fragment_data_complete (frs : list (bytes * bytes)) :
  Forall complete_fragment frs ->
  forall st,
    nfd (concat (map fragment_bytes frs)) st = for_each frs (fun hp => append hp) st.
Proof.
  intros Hfrs st.
  rewrite <- (app_nil_r (concat (map fragment_bytes frs))).
  rewrite (new_fragment_data_complete_app frs [] Hfrs st).
  apply bind_ret_tt.
Qed.

Lemma new_fragment_data_truncated (frs : list (bytes * bytes)) (h p : bytes) st :
  Forall complete_fragment frs ->
  length h = FRAG_HEADER_LEN -> (length p < hdr_length h)%nat ->
  nfd (concat (map fragment_bytes frs) ++ h ++ p) st
  = (nfd (concat (map fragment_bytes frs)) ;;; append (h, p)) st.
Proof.
  intros Hfrs Hlen Hp.
  rewrite (new_fragment_data_complete_app frs (h ++ p) Hfrs st).
  unfold Py.bind at 1 2. rewrite (new_fragment_data_complete frs Hfrs st).
  destruct (for_each frs _ st) as [st1 [[]|e]]; [|reflexivity].
  rewrite (new_fragment_data_cons h p st1 Hlen).
  rewrite take_ge, drop_ge by lia.
  apply bind_ret_tt.
Qed.

Lemma new_fragment_data_short_header (frs : list (bytes * bytes)) (r : bytes) st :
  Forall complete_fragment frs ->
  (0 < length r < FRAG_HEADER_LEN)%nat ->
  nfd (concat (map fragment_bytes frs) ++ r) st
  = (nfd (concat (map fragment_bytes frs)) ;;; raise StructError) st.
Proof.
  intros Hfrs Hr.
  rewrite (new_fragment_data_complete_app frs r Hfrs st).
  unfold Py.bind at 1 2. rewrite (new_fragment_data_complete frs Hfrs st).
  destruct (for_each frs _ st) as [st1 [[]|e]]; [|reflexivity].
  apply (new_fragment_data_short r st1 Hr).
Qed.
End FragLoop.


(** ** SOAP chunk defragmentation *)

(** C7. A chunk event whose index is not [last_chunk + 1] for its key
    [(activity_id, pid, tid)] makes [new_event] drop that key's partial
    assembly without calling the downstream callback, and leaves the
    assemblies under all other keys as they were. *)
Theorem C7_out_of_order_chunk_abandons_assembly
    (cb : SoapDelivery -> option exn) (event : Event) (tid index : Z)
    (st : SoapDefragmenter) :
  ev_ThreadId event = Some tid ->
  ev_index event = Some index ->
  index <> expected_chunk st (format_mkey (ev_ActivityId event) (ev_ProcessId event) tid) ->
  let mkey := format_mkey (ev_ActivityId event) (ev_ProcessId event) tid in
  let st' := fst (new_event cb event st) in
  partial_messages st' !! mkey = None
  /\ completed st' = completed st
  /\ (forall k, k <> mkey -> partial_messages st' !! k = partial_messages st !! k)
  /\ snd (new_event cb event st) = Ok tt.
Proof.
  intros Htid Hidx Hne mkey st'. subst st'.
  unfold new_event. rewrite Htid. fold mkey. unfold expected_chunk in Hne. fold mkey in Hne.
  unfold try_except, Py.bind, gets, modify, of_option, getitem, Py.ret, Py.raise, contains.
  rewrite Hidx.
  destruct st as [partial done]. cbn [partial_messages completed] in *.
  destruct (partial !! mkey) as [pm|] eqn:Hpm; cbn [negb].
  - cbn [partial_messages set_partial_messages]. rewrite Hpm.
    assert (Hb : (index =? last_chunk pm + 1) = false) by (apply Z.eqb_neq; exact Hne).
    rewrite Hb. cbn [negb partial_messages set_partial_messages completed fst snd].
    rewrite Hpm. cbn [partial_messages set_partial_messages completed fst snd].
    repeat split.
    + apply lookup_delete_eq.
    + intros k Hk. apply lookup_delete_ne. congruence.
  - destruct (ev_totalChunks event) as [total|].
    + cbn [partial_messages set_partial_messages]. rewrite lookup_insert_eq.
      cbn [last_chunk].
      assert (Hb : (index =? 0 + 1) = false) by (apply Z.eqb_neq; exact Hne).
      rewrite Hb. cbn [negb partial_messages set_partial_messages completed fst snd].
      rewrite lookup_insert_eq. cbn [partial_messages set_partial_messages completed fst snd].
      repeat split.
      * apply lookup_delete_eq.
      * intros k Hk. rewrite lookup_delete_ne, lookup_insert_ne by congruence. reflexivity.
    + cbn [partial_messages set_partial_messages completed fst snd]. rewrite Hpm.
      cbn [partial_messages set_partial_messages completed fst snd].
      repeat split; assumption.
Qed.

Lemma C7_witness :
  let st := {| partial_messages :=
                 {[ "A_100_200"%string :=
                      {| total_chunks := 3; last_chunk := 1; sa_pid := 100; sa_tid := 200;
                         soap := "<a>"%string |} ]};
               completed := [] |} in
  let event := {| ev_ActivityId := Some "A"%string; ev_ProcessId := 100; ev_ThreadId := Some 200;
                  ev_totalChunks := Some 3; ev_index := Some 3;
                  ev_SoapDocument := Some "</a>"%string |} in
  partial_messages (fst (new_event (fun _ => None) event st)) !! "A_100_200"%string = None
  /\ completed (fst (new_event (fun _ => None) event st)) = [].
Proof.
  intros st event.
  destruct (C7_out_of_order_chunk_abandons_assembly (fun _ => None) event 200 3 st
              eq_refl eq_refl ltac:(vm_compute; discriminate)) as (H1 & H2 & _ & _).
  split; [exact H1 | exact H2].
Defined.

(** ** The PowerShell filter of the dispatcher *)

(** An envelope for a tracked shell is still ignored when its header
    carries another [ResourceURI]: the claim of C6 fails there. *)
Lemma C6_counterexample :
  let st := tracking_shell "S" in
  let ext := extern_for foreign_uri_command (Some []) None in
  exists header,
    e_Header foreign_uri_command = Some header
    /\ ps_actions Command_URI = Some action_command
    /\ h_Action header = Some Command_URI
    /\ relevant_by_spec st header
    /\ routing foreign_uri_command = UnrecognisedResourceURI
    /\ new_soap ext "<s:Envelope/>" st = (st, Ok tt).
Proof.
  eexists. split; [reflexivity|].
  split; [reflexivity|]. split; [reflexivity|].
  split; [right; left; vm_compute; reflexivity|].
  split; reflexivity.
Qed.

(** What [new_soap] checks before it calls a handler. *)
Lemma routing_spec (doc : Envelope) (header : Header) (action : string) (h : Handler) :
  e_Header doc = Some header ->
  h_Action header = Some action ->
  ps_actions action = Some h ->
  routing doc = Routed h
  <-> (h_ResourceURI header = None \/ h_ResourceURI header = Some PS_RESOURCE_URI).
Proof.
  intros Hh Ha Hps. unfold routing. rewrite Hh, Ha, Hps.
  destruct (h_ResourceURI header) as [uri|]; [|split; [intros _; left; reflexivity|reflexivity]].
  destruct (bool_decide (uri = PS_RESOURCE_URI)) eqn:Hd; cbn [negb].
  - apply bool_decide_eq_true in Hd. subst uri. split; [right; reflexivity|reflexivity].
  - apply bool_decide_eq_false in Hd. split; [discriminate|].
    intros [Hn|Hs]; [discriminate|]. congruence.
Qed.

(** C6, amended.  An envelope whose [Action] is in the dispatch table is
    routed to its handler exactly when its header [ResourceURI] is absent
    or is the PowerShell one; and the filter of the Delete, Command and
    Receive handlers then accepts it exactly when its [ShellId] selector
    names a tracked shell or its [ResourceURI] is the PowerShell one. *)
Theorem C6_routing_by_resource_uri
    (doc : Envelope) (header : Header) (action : string) (h : Handler) :
  e_Header doc = Some header ->
  h_Action header = Some action ->
  ps_actions action = Some h ->
  (routing doc = Routed h
   <-> (h_ResourceURI header = None \/ h_ResourceURI header = Some PS_RESOURCE_URI))
  /\ (forall st : WSManPS,
        snd (_known_shell_id_or_resource_uri header (h_ResourceURI header) None st) = Ok true
        <-> (contains (shell_bufs (psrp_defrag st)) (_get_shell_id header) = true
             \/ h_ResourceURI header = Some PS_RESOURCE_URI)).
Proof.
  intros Hh Ha Hps. split.
  - apply (routing_spec doc header action h Hh Ha Hps).
  - intros st. unfold _known_shell_id_or_resource_uri, defrag, zoom, has_shell, gets, Py.bind, Py.ret.
    destruct (contains (shell_bufs (psrp_defrag st)) (_get_shell_id header)) eqn:Hc; cbn [snd].
    + split; [intros _; left; reflexivity|reflexivity].
    + destruct (bool_decide (h_ResourceURI header = Some PS_RESOURCE_URI)) eqn:Hd.
      * apply bool_decide_eq_true in Hd.
        destruct (_get_shell_id header); cbn; (split; [intros _; right; exact Hd|reflexivity]).
      * apply bool_decide_eq_false in Hd. cbn [snd].
        split; [discriminate|]. intros [Hf|Hu]; [discriminate|contradiction].
Qed.

Lemma C6_witness :
  routing (empty_body
             {| h_Action := Some Command_URI; h_ResourceURI := None; h_To := None;
                h_MessageID := None; h_RelatesTo := None; h_Selectors := [] |})
  = Routed action_command.
Proof.
  set (header := {| h_Action := Some Command_URI; h_ResourceURI := None; h_To := None;
                    h_MessageID := None; h_RelatesTo := None; h_Selectors := [] |}).
  destruct (C6_routing_by_resource_uri (empty_body header) header Command_URI action_command
              eq_refl eq_refl eq_refl) as [Hroute _].
  apply Hroute. left. reflexivity.
Defined.

(** ** A ReceiveResponse without the decompressor *)

(** Without libwim the first stream aborts the whole handler: the second
    stream is not fed and command ["C"], reported done, stays tracked. *)
Lemma C3_counterexample :
  let ext := extern_for two_stream_response (Some one_fragment) None in
  let st' := fst (new_soap ext "<s:Envelope/>" awaiting_receive_response) in
  commands st' !! "C"%string = Some "S"%string
  /\ delivered (psrp_defrag st') = []
  /\ logged_errors st' = [LibwimUnavailable].
Proof. vm_compute. repeat split; reflexivity. Qed.

(** The same envelope with the decompressor loaded, for comparison. *)
Example two_stream_response_with_libwim :
  let ext := extern_for two_stream_response (Some ([Byte.x16; Byte.x00; Byte.x16; Byte.x00] ++ one_fragment))
               (Some (fun _ _ _ => (0, []))) in
  let st' := fst (new_soap ext "<s:Envelope/>" awaiting_receive_response) in
  commands st' !! "C"%string = None
  /\ length (delivered (psrp_defrag st')) = 2%nat
  /\ logged_errors st' = [].
Proof. vm_compute. repeat split; reflexivity. Qed.

Lemma for_each_app {S A} (l1 l2 : list A) (body : A -> M S unit) (s : S) :
  for_each (l1 ++ l2) body s = (for_each l1 body ;;; for_each l2 body) s.
Proof.
  revert s. induction l1 as [|x l1 IH]; intros s; cbn [for_each app].
  - reflexivity.
  - rewrite bind_assoc. apply bind_ext. intros [] s'. apply IH.
Qed.

(** C3, amended.  Without the decompressor, a ReceiveResponse that answers
    a tracked Receive and has a stream with decodable text (after streams
    whose text is not valid base64, which are skipped) raises at that
    stream and the handler stops there: nothing reaches the defragmenter,
    the finished commands stay in the commands table, the Receive entry is
    gone and [new_soap] logs the exception. *)
Theorem C3_missing_decompressor_aborts_handler
    (ext : Extern) (soap : string) (doc : Envelope) (header : Header)
    (relates_to shell_id text : string) (blob : bytes)
    (pre post : list Stream) (s : Stream) (st : WSManPS) :
  libwim ext = None ->
  ET_fromstring ext soap = Some doc ->
  e_Header doc = Some header ->
  h_Action header = Some ReceiveResponse_URI ->
  (h_ResourceURI header = None \/ h_ResourceURI header = Some PS_RESOURCE_URI) ->
  h_RelatesTo header = Some relates_to ->
  receive_msgs st !! Some relates_to = Some shell_id ->
  e_Streams doc = pre ++ s :: post ->
  Forall (undecodable ext) pre ->
  st_text s = Some text ->
  b64decode ext text = Some blob ->
  new_soap ext soap st
  = (log_error LibwimUnavailable
       (set_receive_msgs (delete (Some relates_to) (receive_msgs st)) st), Ok tt).
Proof.
  intros Hlib Hparse Hh Ha Huri Hrel Hrecv Hstreams Hpre Htext Hdec.
  assert (Hroute : routing doc = Routed action_receive_response).
  { apply (routing_spec doc header ReceiveResponse_URI action_receive_response Hh Ha eq_refl).
    exact Huri. }
  unfold new_soap. rewrite Hparse, Hroute, Hh. cbn [run_handler].
  unfold _action_receive_response. rewrite Hrel.
  unfold try_except. unfold Py.bind at 1. unfold gets at 1. rewrite Hrecv.
  unfold Py.bind at 1. unfold modify at 1.
  rewrite Hstreams.
  unfold Py.bind at 1. rewrite for_each_app.
  set (st1 := set_receive_msgs _ st).
  assert (Hskip : forall l, Forall (undecodable ext) l -> forall k,
             for_each l
               (fun stream_element : Stream =>
                  let* stream_blob :=
                    match st_text stream_element with
                    | Some text => ret (b64decode ext text)
                    | None => raise AttributeError
                    end in
                  match stream_blob with
                  | Some stream_blob =>
                      let* decompressed_data := _decompress_stream_data ext stream_blob in
                      defrag (new_fragment_data (psrp_callback ext) (Some shell_id)
                                decompressed_data (st_CommandId stream_element))
                  | None => ret tt
                  end) k = (k, Ok tt)).
  { induction 1 as [|x l (t & Ht & Hd) _ IH]; intros k; cbn [for_each]; [reflexivity|].
    unfold Py.bind at 1. rewrite Ht. unfold Py.bind at 1, Py.ret at 1. rewrite Hd.
    unfold Py.ret at 1. apply IH. }
  unfold Py.bind at 1. rewrite (Hskip pre Hpre st1).
  cbn [for_each]. unfold Py.bind at 1 2. rewrite Htext. unfold Py.ret at 1. rewrite Hdec.
  unfold Py.bind at 1. unfold _decompress_stream_data. rewrite Hlib.
  unfold Py.raise at 1. unfold modify. reflexivity.
Qed.

Lemma C3_witness :
  new_soap (extern_for two_stream_response (Some one_fragment) None) "<s:Envelope/>"
    awaiting_receive_response
  = (log_error LibwimUnavailable
       (set_receive_msgs (delete (Some "M2"%string) (receive_msgs awaiting_receive_response))
          awaiting_receive_response), Ok tt).
Proof.
  set (s := {| st_Name := Some "stdout"%string; st_CommandId := Some "C"%string;
               st_text := Some "AAAA"%string |}).
  apply (C3_missing_decompressor_aborts_handler
           (extern_for two_stream_response (Some one_fragment) None) "<s:Envelope/>"
           two_stream_response (response_header ReceiveResponse_URI "M2")
           "M2" "S" "AAAA" one_fragment [] [s] s awaiting_receive_response).
  - reflexivity.
  - reflexivity.
  - reflexivity.
  - reflexivity.
  - left. reflexivity.
  - reflexivity.
  - vm_compute. reflexivity.
  - reflexivity.
  - constructor.
  - reflexivity.
  - reflexivity.
Defined.

(** ** The command lifecycle *)

Lemma set_psrp_defrag_same (st : WSManPS) : set_psrp_defrag (psrp_defrag st) st = st.
Proof. destruct st. reflexivity. Qed.

Section CommandLifecycle.
Variable ext : Extern.

Lemma command_request_tracked (soap : string) (M1 S args : string) (st : WSManPS) :
  S <> ""%string ->
  contains (shell_bufs (psrp_defrag st)) (Some S) = true ->
  ET_fromstring ext soap = Some (command_request M1 S args) ->
  (forall blob, b64decode ext args = Some blob ->
      snd (new_fragment_data (psrp_callback ext) (Some S) blob None (psrp_defrag st)) = Ok tt) ->
  let st' := fst (new_soap ext soap st) in
  command_msgs st' = <[Some M1 := S]> (command_msgs st)
  /\ commands st' = commands st
  /\ receive_msgs st' = receive_msgs st.
Proof.
  intros HS Hshell Hparse Hfeed st'. subst st'.
  unfold new_soap. rewrite Hparse.
  change (routing (command_request M1 S args)) with (Routed action_command).
  unfold command_request.
  cbn [e_Header run_handler h_MessageID h_ResourceURI].
  unfold _action_command, _known_shell_id_or_resource_uri, _get_shell_id.
  cbn [h_Selectors first_shell_id sel_Name sel_text e_Arguments].
  unfold _track_command, _track_shell_id. cbn [h_Selectors for_each sel_Name sel_text].
  rewrite (bool_decide_eq_true_2 _ (eq_refl (Some "ShellId"%string))).
  rewrite (bool_decide_eq_false_2 _ HS). cbn [negb].
  unfold try_except, defrag, zoom, has_shell, gets, Py.bind, modify, Py.ret.
  cbv beta iota zeta. rewrite Hshell. cbv beta iota zeta. cbn [negb].
  rewrite set_psrp_defrag_same.
  destruct (b64decode ext args) as [blob|] eqn:Hdec.
  - specialize (Hfeed blob eq_refl).
    destruct (new_fragment_data (psrp_callback ext) (Some S) blob None (psrp_defrag st))
      as [d' r]. cbn [snd] in Hfeed. subst r.
    cbn. repeat split; reflexivity.
  - cbn. repeat split; reflexivity.
Qed.

Lemma command_response_moves_tracking (soap : string) (M1 S C : string) (st : WSManPS) :
  S <> ""%string ->
  ET_fromstring ext soap = Some (command_response M1 C) ->
  command_msgs st !! Some M1 = Some S ->
  contains (commands st) S = false ->
  let st' := fst (new_soap ext soap st) in
  command_msgs st' = delete (Some M1) (command_msgs st)
  /\ commands st' = <[C := S]> (commands st)
  /\ receive_msgs st' = receive_msgs st.
Proof.
  intros HS Hparse Hmsg Hfree st'. subst st'.
  unfold new_soap. rewrite Hparse.
  change (routing (command_response M1 C)) with (Routed action_command_response).
  unfold command_response, response_header.
  cbn [e_Header run_handler h_MessageID h_ResourceURI].
  unfold _action_command_response, _track_command_by_id. cbn [h_RelatesTo e_CommandId].
  unfold try_except, gets, Py.bind, modify, Py.ret. cbv beta iota zeta.
  rewrite Hmsg. cbv beta iota zeta.
  rewrite (bool_decide_eq_false_2 _ HS). cbn [negb commands set_command_msgs].
  rewrite Hfree. cbn. repeat split; reflexivity.
Qed.

Lemma done_receive_response_untracks (soap : string) (M2 S S' C : string) (st : WSManPS) :
  ET_fromstring ext soap = Some (done_receive_response M2 C) ->
  receive_msgs st !! Some M2 = Some S' ->
  commands st !! C = Some S ->
  let st' := fst (new_soap ext soap st) in
  commands st' = delete C (commands st)
  /\ command_msgs st' = command_msgs st.
Proof.
  intros Hparse Hrecv Hcmd st'. subst st'.
  unfold new_soap. rewrite Hparse.
  change (routing (done_receive_response M2 C)) with (Routed action_receive_response).
  unfold done_receive_response, response_header.
  cbn [e_Header run_handler h_MessageID h_ResourceURI].
  unfold _action_receive_response. cbn [h_RelatesTo e_CommandStates e_Streams].
  cbn [finished_keys cs_CommandId cs_State cs_ExitCode].
  rewrite (bool_decide_eq_true_2 _ (eq_refl (Some CMD_STATE_DONE))). cbn [orb].
  rewrite bool_decide_eq_false_2 by (apply not_elem_of_nil).
  cbn [app for_each].
  unfold try_except, gets, Py.bind, modify, getitem, Py.ret. cbv beta iota zeta.
  rewrite Hrecv. cbv beta iota zeta. cbn [commands set_receive_msgs].
  rewrite Hcmd. cbn. repeat split; reflexivity.
Qed.

End CommandLifecycle.

Section CommandRequests.
Variable ext : Extern.

Lemma command_request_feed_raises (soap : string) (M1 S args : string) (blob : bytes) (e : exn)
    (st : WSManPS) :
  S <> ""%string ->
  contains (shell_bufs (psrp_defrag st)) (Some S) = true ->
  ET_fromstring ext soap = Some (command_request M1 S args) ->
  b64decode ext args = Some blob ->
  snd (new_fragment_data (psrp_callback ext) (Some S) blob None (psrp_defrag st)) = Raise e ->
  let st' := fst (new_soap ext soap st) in
  command_msgs st' = command_msgs st
  /\ logged_errors st' = logged_errors st ++ [e].
Proof.
  intros HS Hshell Hparse Hdec Hfeed st'. subst st'.
  unfold new_soap. rewrite Hparse.
  change (routing (command_request M1 S args)) with (Routed action_command).
  unfold command_request.
  cbn [e_Header run_handler h_MessageID h_ResourceURI].
  unfold _action_command, _known_shell_id_or_resource_uri, _get_shell_id.
  cbn [h_Selectors first_shell_id sel_Name sel_text e_Arguments].
  unfold _track_command, _track_shell_id. cbn [h_Selectors for_each sel_Name sel_text].
  rewrite (bool_decide_eq_true_2 _ (eq_refl (Some "ShellId"%string))).
  rewrite (bool_decide_eq_false_2 _ HS). cbn [negb].
  unfold try_except, defrag, zoom, has_shell, gets, Py.bind, modify, Py.ret.
  cbv beta iota zeta. rewrite Hshell. cbv beta iota zeta. cbn [negb].
  rewrite set_psrp_defrag_same. rewrite Hdec.
  destruct (new_fragment_data (psrp_callback ext) (Some S) blob None (psrp_defrag st))
    as [d' r]. cbn [snd] in Hfeed. subst r.
  cbn. split; reflexivity.
Qed.

Lemma command_request_without_arguments_ignored (soap : string) (M1 S : string)
    (st : WSManPS) :
  contains (shell_bufs (psrp_defrag st)) (Some S) = true ->
  ET_fromstring ext soap = Some (command_request_without_arguments M1 S) ->
  new_soap ext soap st = (st, Ok tt).
Proof.
  intros Hshell Hparse.
  unfold new_soap. rewrite Hparse.
  change (routing (command_request_without_arguments M1 S)) with (Routed action_command).
  unfold command_request_without_arguments.
  cbn [e_Header run_handler h_MessageID h_ResourceURI].
  unfold _action_command, _known_shell_id_or_resource_uri, _get_shell_id.
  cbn [h_Selectors first_shell_id sel_Name sel_text e_Arguments].
  rewrite (bool_decide_eq_true_2 _ (eq_refl (Some "ShellId"%string))).
  unfold try_except, defrag, zoom, has_shell, gets, Py.bind, modify, Py.ret.
  cbv beta iota zeta. rewrite Hshell. cbv beta iota zeta. cbn [negb].
  rewrite set_psrp_defrag_same. reflexivity.
Qed.

End CommandRequests.

(** With the callback as the program wires it, a Command request whose
    arguments hold the two-byte message [41 42] is not recorded: the
    parser raises on the completed message, the exception leaves
    [_action_command] before [_track_command] and is logged by
    [new_soap]: the claim of C9 fails there. *)
Lemma C9_counterexample :
  let ext := S6_wired_extern one_fragment in
  let st1 := fst (new_soap ext "1" S6_start) in
  command_msgs st1 !! Some "M1"%string = None
  /\ logged_errors st1 = [StructError]
  /\ delivered (psrp_defrag st1)
     = [ {| d_shell := Some "S"%string; d_object_id := 7;
            d_message := [Byte.x41; Byte.x42]; d_command_id := None |} ].
Proof. vm_compute. repeat split; reflexivity. Qed.

(** C9, amended.  For a dispatcher that tracks the non-empty shell id
    [S]: with empty [command_msgs] and [commands] and a tracked Receive
    request [M2], a Command request [M1] whose arguments the
    defragmenter takes without an exception records
    [command_msgs[M1] = S]; the CommandResponse to [M1] with CommandId
    [C] removes [M1] and records [commands[C] = S]; the ReceiveResponse
    to [M2] reporting [C] done removes [C], and both tables are empty
    again.  A Command request whose arguments make the defragmenter or
    the callback raise is not recorded and the exception is logged; one
    without [Arguments] changes nothing. *)
Theorem C9_command_lifecycle (ext : Extern) (S : string) (st0 : WSManPS) :
  S <> ""%string ->
  contains (shell_bufs (psrp_defrag st0)) (Some S) = true ->
  (forall (soap1 soap2 soap3 M1 M2 C args : string),
      command_msgs st0 = ∅ ->
      commands st0 = ∅ ->
      receive_msgs st0 !! Some M2 = Some S ->
      ET_fromstring ext soap1 = Some (command_request M1 S args) ->
      ET_fromstring ext soap2 = Some (command_response M1 C) ->
      ET_fromstring ext soap3 = Some (done_receive_response M2 C) ->
      (forall blob, b64decode ext args = Some blob ->
          snd (new_fragment_data (psrp_callback ext) (Some S) blob None (psrp_defrag st0))
          = Ok tt) ->
      let st1 := fst (new_soap ext soap1 st0) in
      let st2 := fst (new_soap ext soap2 st1) in
      let st3 := fst (new_soap ext soap3 st2) in
      command_msgs st1 !! Some M1 = Some S
      /\ (command_msgs st2 = ∅ /\ commands st2 !! C = Some S)
      /\ (commands st3 = ∅ /\ command_msgs st3 = ∅))
  /\
  (forall (soap1 M1 args : string) (blob : bytes) (e : exn),
      ET_fromstring ext soap1 = Some (command_request M1 S args) ->
      b64decode ext args = Some blob ->
      snd (new_fragment_data (psrp_callback ext) (Some S) blob None (psrp_defrag st0))
      = Raise e ->
      let st1 := fst (new_soap ext soap1 st0) in
      command_msgs st1 = command_msgs st0
      /\ logged_errors st1 = logged_errors st0 ++ [e])
  /\
  (forall (soap1 M1 : string),
      ET_fromstring ext soap1 = Some (command_request_without_arguments M1 S) ->
      new_soap ext soap1 st0 = (st0, Ok tt)).
Proof.
  intros HS Hshell. split; [|split].
  - intros soap1 soap2 soap3 M1 M2 C args Hcm Hc Hrecv Hp1 Hp2 Hp3 Hfeed st1 st2 st3.
    destruct (command_request_tracked ext soap1 M1 S args st0 HS Hshell Hp1 Hfeed)
      as (Hcm1 & Hc1 & Hr1). fold st1 in Hcm1, Hc1, Hr1.
    assert (Hm1 : command_msgs st1 !! Some M1 = Some S)
      by (rewrite Hcm1; apply lookup_insert_eq).
    assert (Hfree1 : contains (commands st1) S = false)
      by (unfold contains; rewrite Hc1, Hc, lookup_empty; reflexivity).
    destruct (command_response_moves_tracking ext soap2 M1 S C st1 HS Hp2 Hm1 Hfree1)
      as (Hcm2 & Hc2 & Hr2). fold st2 in Hcm2, Hc2, Hr2.
    assert (Hm2 : commands st2 !! C = Some S) by (rewrite Hc2; apply lookup_insert_eq).
    assert (Hrecv2 : receive_msgs st2 !! Some M2 = Some S) by (rewrite Hr2, Hr1; exact Hrecv).
    destruct (done_receive_response_untracks ext soap3 M2 S S C st2 Hp3 Hrecv2 Hm2)
      as (Hc3 & Hcm3). fold st3 in Hc3, Hcm3.
    assert (Hcm2e : command_msgs st2 = ∅).
    { rewrite Hcm2, Hcm1, Hcm. apply map_eq. intros k.
      rewrite lookup_empty. destruct (decide (k = Some M1)) as [->|Hk].
      - apply lookup_delete_eq.
      - rewrite lookup_delete_ne, lookup_insert_ne, lookup_empty by congruence. reflexivity. }
    split; [exact Hm1|]. split; [split; [exact Hcm2e | exact Hm2]|].
    split.
    + rewrite Hc3, Hc2, Hc1, Hc. apply map_eq. intros k.
      rewrite lookup_empty. destruct (decide (k = C)) as [->|Hk].
      * apply lookup_delete_eq.
      * rewrite lookup_delete_ne, lookup_insert_ne, lookup_empty by congruence. reflexivity.
    + rewrite Hcm3. exact Hcm2e.
  - intros soap1 M1 args blob e Hp1 Hdec Hfeed.
    apply (command_request_feed_raises ext soap1 M1 S args blob e st0 HS Hshell Hp1 Hdec Hfeed).
  - intros soap1 M1 Hp1.
    apply (command_request_without_arguments_ignored ext soap1 M1 S st0 Hshell Hp1).
Qed.

Lemma C9_witness :
  let ext := S6_wired_extern (fragment_bytes capability_fragment) in
  let st1 := fst (new_soap ext "1" S6_start) in
  let st2 := fst (new_soap ext "2" st1) in
  let st3 := fst (new_soap ext "3" st2) in
  command_msgs st1 !! Some "M1"%string = Some "S"%string
  /\ (command_msgs st2 = ∅ /\ commands st2 !! "C"%string = Some "S"%string)
  /\ (commands st3 = ∅ /\ command_msgs st3 = ∅).
Proof.
  intros ext.
  destruct (C9_command_lifecycle ext "S" S6_start) as [Hlife _].
  - discriminate.
  - vm_compute. reflexivity.
  - apply (Hlife "1" "2" "3" "M1" "M2" "C" "AAAA")%string.
    + reflexivity.
    + reflexivity.
    + vm_compute. reflexivity.
    + reflexivity.
    + reflexivity.
    + reflexivity.
    + intros blob Hblob. injection Hblob as <-. vm_compute. reflexivity.
Defined.

(** ** Unknown message types *)

(** Any object with a well-formed header and text whose message type is
    not in [MSG_TYPES] makes [new_psrp_message] raise [KeyError] before
    the callback is called. *)
Lemma new_psrp_message_unknown_type
    (decode_utf8_sig : bytes -> option string) (callback : PSRPMessage -> option exn)
    (shell_id command_id : Ident) (object_id : Z) (message : bytes) (text : string)
    (log : ParserLog) :
  (40 <= length message)%nat ->
  decode_utf8_sig (drop 40 message) = Some text ->
  msg_types_lookup MSG_TYPES (le_unsigned (slice 4 8 (slice 0 8 message))) = None ->
  new_psrp_message decode_utf8_sig callback shell_id object_id message command_id log
  = (log, Raise KeyError).
Proof.
  intros Hlen Hdec Hunknown. unfold new_psrp_message.
  unfold unpack_II, uuid_bytes_le.
  assert (H8 : (length (slice 0 8 message) =? 8)%nat = true)
    by (apply Nat.eqb_eq; unfold slice; rewrite length_take, length_drop; lia).
  assert (H16a : (length (slice 8 24 message) =? 16)%nat = true)
    by (apply Nat.eqb_eq; unfold slice; rewrite length_take, length_drop; lia).
  assert (H16b : (length (slice 24 40 message) =? 16)%nat = true)
    by (apply Nat.eqb_eq; unfold slice; rewrite length_take, length_drop; lia).
  rewrite H8, H16a, H16b, Hdec.
  unfold _msg_type_name, Py.bind, Py.ret, Py.raise. cbv beta iota zeta.
  rewrite Hunknown. reflexivity.
Qed.

(** C5 at a failing input: for a completed object with message type 0 the
    parser raises [KeyError] and never calls its callback, although the
    callback of the source, [SimpleCommandTracer.message], would have
    reported the unknown type and returned. *)
Theorem C5_unknown_message_type_raises_KeyError :
  new_psrp_message (fun _ => Some ""%string) (tracer_message (fun _ => None))
    (Some "S"%string) 7 unknown_type_message None []
  = ([], Raise KeyError)
  /\ tracer_message (fun _ => None)
       {| destination := 2; message_type := 0; rpid := repeat Byte.x00 16;
          pipeline_id := repeat Byte.x00 16; data := ""%string |} = None.
Proof. split; vm_compute; reflexivity. Qed.

(** What follows in the defragmenter: the exception leaves through
    [_append_frag_data] before the completed buffer is removed, and
    through [new_soap]'s handler, so a Command request carrying this
    object is not tracked. *)
Example unknown_type_in_command_request :
  let ext := {| ET_fromstring := fun _ => Some (command_request "M1" "S" "AAAA");
                b64decode := fun _ => Some unknown_type_fragment; libwim := None;
                psrp_callback := parser_callback (fun _ => Some ""%string)
                                   (tracer_message (fun _ => None)) |} in
  let st' := fst (new_soap ext "1" (tracking_shell "S")) in
  logged_errors st' = [KeyError]
  /\ command_msgs st' = ∅
  /\ (exists ob, shell_bufs (psrp_defrag st') !! Some "S"%string = Some {[ 7 := ob ]}).
Proof. vm_compute. repeat split; try reflexivity. eexists. reflexivity. Qed.

(** ** The buffers of the PSRP defragmenter *)

Lemma bufs_of_set_bufs sel m st : bufs_of sel (set_bufs sel m st) = m.
Proof. destruct sel; reflexivity. Qed.

Lemma set_bufs_set_bufs sel m m' st : set_bufs sel m (set_bufs sel m' st) = set_bufs sel m st.
Proof. destruct sel; reflexivity. Qed.

Lemma set_bufs_same sel st : set_bufs sel (bufs_of sel st) st = st.
Proof. destruct sel, st; reflexivity. Qed.

Lemma with_objs_id sel identifier objs st :
  bufs_of sel st !! identifier = Some objs -> with_objs sel identifier objs st = st.
Proof. intros H. unfold with_objs. rewrite (insert_id _ _ _ H). apply set_bufs_same. Qed.

Lemma with_objs_with_objs sel identifier o1 o2 st :
  with_objs sel identifier o1 (with_objs sel identifier o2 st) = with_objs sel identifier o1 st.
Proof.
  unfold with_objs. rewrite bufs_of_set_bufs, set_bufs_set_bufs, insert_insert_eq. reflexivity.
Qed.

Lemma bufs_of_with_objs sel identifier objs st :
  bufs_of sel (with_objs sel identifier objs st) !! identifier = Some objs.
Proof. unfold with_objs. rewrite bufs_of_set_bufs. apply lookup_insert_eq. Qed.

Lemma delivered_with_objs sel identifier objs st :
  delivered (with_objs sel identifier objs st) = delivered st.
Proof. destruct sel; reflexivity. Qed.

Lemma completed_with_objs sel identifier objs st :
  pending_shell_completed_messages (with_objs sel identifier objs st)
  = pending_shell_completed_messages st.
Proof. destruct sel; reflexivity. Qed.

Lemma bufs_getitem_with_objs sel identifier objs st :
  bufs_getitem sel identifier (with_objs sel identifier objs st)
  = (with_objs sel identifier objs st, Ok objs).
Proof.
  unfold bufs_getitem, Py.bind, Py.get, getitem. cbv beta iota.
  rewrite bufs_of_with_objs. reflexivity.
Qed.

Lemma bufs_setitem_with_objs sel identifier objs oid ob st :
  bufs_setitem sel identifier oid ob (with_objs sel identifier objs st)
  = (with_objs sel identifier (<[oid := ob]> objs) st, Ok tt).
Proof.
  unfold bufs_setitem, Py.bind. rewrite bufs_getitem_with_objs.
  unfold modify. fold (with_objs sel identifier (<[oid := ob]> objs) (with_objs sel identifier objs st)).
  rewrite with_objs_with_objs. reflexivity.
Qed.

Lemma bufs_getobj_with_objs sel identifier objs oid ob st :
  objs !! oid = Some ob ->
  bufs_getobj sel identifier oid (with_objs sel identifier objs st)
  = (with_objs sel identifier objs st, Ok ob).
Proof.
  intros H. unfold bufs_getobj, Py.bind. rewrite bufs_getitem_with_objs.
  unfold getitem. rewrite H. reflexivity.
Qed.

Lemma bufs_popobj_with_objs sel identifier objs oid ob st :
  objs !! oid = Some ob ->
  bufs_popobj sel identifier oid (with_objs sel identifier objs st)
  = (with_objs sel identifier (delete oid objs) st, Ok tt).
Proof.
  intros H. unfold bufs_popobj, Py.bind. rewrite bufs_getitem_with_objs.
  unfold getitem. rewrite H. unfold Py.ret, modify.
  fold (with_objs sel identifier (delete oid objs) (with_objs sel identifier objs st)).
  rewrite with_objs_with_objs. reflexivity.
Qed.

(** [_append_frag_data] for an identifier that is tracked. *)
Lemma append_frag_data_tracked
    (has_identifier_func : Ident -> M PSRPDefragmenter bool)
    (new_ident_func : Ident -> M PSRPDefragmenter unit)
    (message_complete_callback : Ident -> Z -> bytes -> Ident -> M PSRPDefragmenter unit)
    (sel : BufSel) (identifier : Ident) (objs : gmap Z ObjBuf)
    (oid fid : Z) (s_flag e_flag : bool) (data : bytes) (cid : Ident) (st : PSRPDefragmenter) :
  has_identifier_func identifier st = (st, Ok true) ->
  bufs_of sel st !! identifier = Some objs ->
  _append_frag_data oid fid s_flag e_flag data identifier has_identifier_func new_ident_func
    sel message_complete_callback cid st
  = let ob := default fresh_buf (objs !! oid) in
    if last_fragment_id ob + 1 =? fid then
      let ob' := {| last_fragment_id := last_fragment_id ob; buffer := buffer ob ++ data;
                    command_id := cid |} in
      if e_flag then
        (message_complete_callback identifier oid (buffer ob') cid ;;;
         bufs_popobj sel identifier oid) (with_objs sel identifier (<[oid := ob']> objs) st)
      else (with_objs sel identifier (<[oid := ob']> objs) st, Ok tt)
    else
      (with_objs sel identifier
         (<[oid := {| last_fragment_id := last_fragment_id ob; buffer := buffer ob;
                      command_id := cid |}]> objs) st, Ok tt).
Proof.
  intros Hhas Hobjs. unfold _append_frag_data.
  unfold Py.bind at 1. rewrite Hhas. cbn [negb].
  unfold Py.bind at 1. unfold Py.ret at 1.
  rewrite <- (with_objs_id sel identifier objs st Hobjs) at 1.
  unfold Py.bind at 1. rewrite bufs_getitem_with_objs.
  set (ob := default fresh_buf (objs !! oid)).
  assert (Hstep : forall o1, o1 !! oid = Some ob ->
    (let* ob0 := bufs_getobj sel identifier oid in
     bufs_setitem sel identifier oid
       {| last_fragment_id := last_fragment_id ob0; buffer := buffer ob0; command_id := cid |} ;;;
     let* ob1 := bufs_getobj sel identifier oid in
     if negb (last_fragment_id ob1 + 1 =? fid) then ret tt
     else
       bufs_setitem sel identifier oid
         {| last_fragment_id := last_fragment_id ob1; buffer := buffer ob1 ++ data;
            command_id := PSRP.command_id ob1 |} ;;;
       if e_flag then
         let* ob2 := bufs_getobj sel identifier oid in
         message_complete_callback identifier oid (buffer ob2) (PSRP.command_id ob2) ;;;
         bufs_popobj sel identifier oid
       else ret tt) (with_objs sel identifier o1 st)
    = if last_fragment_id ob + 1 =? fid then
        let ob' := {| last_fragment_id := last_fragment_id ob; buffer := buffer ob ++ data;
                      command_id := cid |} in
        if e_flag then
          (message_complete_callback identifier oid (buffer ob') cid ;;;
           bufs_popobj sel identifier oid) (with_objs sel identifier (<[oid := ob']> o1) st)
        else (with_objs sel identifier (<[oid := ob']> o1) st, Ok tt)
      else
        (with_objs sel identifier
           (<[oid := {| last_fragment_id := last_fragment_id ob; buffer := buffer ob;
                        command_id := cid |}]> o1) st, Ok tt)).
  { intros o1 Ho1.
    unfold Py.bind at 1. rewrite (bufs_getobj_with_objs _ _ _ _ _ _ Ho1).
    unfold Py.bind at 1. rewrite bufs_setitem_with_objs.
    unfold Py.bind at 1. rewrite (bufs_getobj_with_objs _ _ _ _ _ _ (lookup_insert_eq _ _ _)).
    cbn [last_fragment_id buffer PSRP.command_id].
    destruct (last_fragment_id ob + 1 =? fid); cbn [negb].
    - unfold Py.bind at 1. rewrite bufs_setitem_with_objs, insert_insert_eq.
      destruct e_flag; [|reflexivity].
      unfold Py.bind at 1. rewrite (bufs_getobj_with_objs _ _ _ _ _ _ (lookup_insert_eq _ _ _)).
      reflexivity.
    - reflexivity. }
  unfold contains. subst ob.
  destruct (objs !! oid) as [ob|] eqn:Hob; cbn [negb default].
  - unfold Py.bind at 1. unfold Py.ret at 1. apply (Hstep objs Hob).
  - unfold Py.bind at 1. rewrite bufs_setitem_with_objs.
    rewrite (Hstep (<[oid := fresh_buf]> objs) (lookup_insert_eq _ _ _)).
    cbv zeta. cbn [default]. rewrite !insert_insert_eq. reflexivity.
Qed.

Lemma add_delivery_with_objs d sel identifier objs st :
  add_delivery d (with_objs sel identifier objs st) = with_objs sel identifier objs (add_delivery d st).
Proof. destruct sel; reflexivity. Qed.

Lemma stash_message_with_objs m entry sel identifier objs st :
  stash_message m entry (with_objs sel identifier objs st)
  = with_objs sel identifier objs (stash_message m entry st).
Proof. destruct sel; reflexivity. Qed.

Lemma pending_shell_message_callback_spec m oid msg cid st :
  pending_shell_message_callback m oid msg cid st = (stash_message m (oid, msg, cid) st, Ok tt).
Proof.
  unfold pending_shell_message_callback, modify, stash_message, contains. f_equal.
  destruct (pending_shell_completed_messages st !! m) as [l|] eqn:Hl.
  - rewrite Hl. reflexivity.
  - rewrite lookup_insert_eq, insert_insert_eq. reflexivity.
Qed.

Lemma path_callback_spec p identifier oid msg cid st :
  path_callback p identifier oid msg cid st = deliver p identifier oid msg cid st.
Proof.
  destruct p as [cb|]; cbn [path_callback deliver].
  - unfold completed_psrp_callback, Py.bind, gets, modify. cbv beta iota.
    fold (add_delivery {| d_shell := identifier; d_object_id := oid; d_message := msg;
                          d_command_id := cid |} st).
    destruct (cb (delivered st) _); reflexivity.
  - apply pending_shell_message_callback_spec.
Qed.

Lemma deliver_with_objs p identifier oid msg cid sel id' objs st :
  deliver p identifier oid msg cid (with_objs sel id' objs st)
  = (with_objs sel id' objs (fst (deliver p identifier oid msg cid st)),
     snd (deliver p identifier oid msg cid st)).
Proof.
  destruct p as [cb|]; cbn [deliver fst snd].
  - rewrite add_delivery_with_objs, delivered_with_objs. reflexivity.
  - rewrite stash_message_with_objs. reflexivity.
Qed.

Lemma path_has_tracked p identifier objs st :
  bufs_of (path_bufs p) st !! identifier = Some objs ->
  path_has p identifier st = (st, Ok true).
Proof.
  intros H. destruct p; cbn [path_has path_bufs bufs_of] in *;
    unfold has_shell, has_pending_shell, gets, contains; rewrite H; reflexivity.
Qed.

Lemma path_has_untracked p identifier st :
  bufs_of (path_bufs p) st !! identifier = None ->
  path_has p identifier st = (st, Ok false).
Proof.
  intros H. destruct p; cbn [path_has path_bufs bufs_of] in *;
    unfold has_shell, has_pending_shell, gets, contains; rewrite H; reflexivity.
Qed.

(** The call made for a tracked identifier. *)
Lemma append_via_tracked p identifier objs oid fid s_flag e_flag data cid st :
  bufs_of (path_bufs p) st !! identifier = Some objs ->
  append_via p identifier oid fid s_flag e_flag data cid st
  = append_tracked p identifier objs oid fid e_flag data cid st.
Proof.
  intros Hobjs. unfold append_via.
  rewrite (append_frag_data_tracked _ _ _ _ _ objs _ _ _ _ _ _ _
             (path_has_tracked p identifier objs st Hobjs) Hobjs).
  unfold append_tracked. cbv zeta.
  destruct (last_fragment_id (default fresh_buf (objs !! oid)) + 1 =? fid); [|reflexivity].
  destruct e_flag; [|reflexivity].
  unfold Py.bind. rewrite path_callback_spec. cbn [buffer].
  rewrite deliver_with_objs.
  destruct (deliver p identifier oid _ cid st) as [st1 [[]|ex]]; cbn [fst snd].
  - rewrite (bufs_popobj_with_objs _ _ _ _ _ _ (lookup_insert_eq _ _ _)), delete_insert_eq.
    reflexivity.
  - reflexivity.
Qed.

(** An identifier that is not tracked is registered first, unless it is
    [None]: then [bufs[identifier]] raises [KeyError]. *)
Lemma append_via_untracked p (i : string) oid fid s_flag e_flag data cid st :
  bufs_of (path_bufs p) st !! Some i = None ->
  append_via p (Some i) oid fid s_flag e_flag data cid st
  = append_tracked p (Some i) ∅ oid fid e_flag data cid st.
Proof.
  intros Hnone.
  assert (Hnew : path_new p (Some i) st = (with_objs (path_bufs p) (Some i) ∅ st, Ok tt)).
  { destruct p; cbn [path_new path_bufs bufs_of] in *;
      unfold new_shell, new_pending_shell, modify, contains; rewrite Hnone; reflexivity. }
  unfold append_via, _append_frag_data.
  unfold Py.bind at 1. rewrite (path_has_untracked p _ st Hnone). cbn [negb].
  unfold Py.bind at 1. rewrite Hnew.
  set (st0 := with_objs (path_bufs p) (Some i) ∅ st).
  assert (Hobjs : bufs_of (path_bufs p) st0 !! Some i = Some ∅) by apply bufs_of_with_objs.
  pose proof (append_via_tracked p (Some i) ∅ oid fid s_flag e_flag data cid st0 Hobjs) as Ht.
  unfold append_via, _append_frag_data in Ht.
  unfold Py.bind at 1 in Ht. rewrite (path_has_tracked p _ ∅ st0 Hobjs) in Ht. cbn [negb] in Ht.
  unfold Py.bind at 1 in Ht. unfold Py.ret at 1 in Ht.
  rewrite Ht.
  unfold append_tracked. cbv zeta. subst st0.
  destruct (last_fragment_id (default fresh_buf (∅ !! oid)) + 1 =? fid);
    [|rewrite with_objs_with_objs; reflexivity].
  destruct e_flag; [|rewrite with_objs_with_objs; reflexivity].
  rewrite deliver_with_objs.
  destruct (deliver p (Some i) oid _ cid st) as [st1 [[]|ex]]; cbn [fst snd];
    rewrite with_objs_with_objs; reflexivity.
Qed.

Lemma append_via_untracked_None p oid fid s_flag e_flag data cid st :
  bufs_of (path_bufs p) st !! None = None ->
  append_via p None oid fid s_flag e_flag data cid st = (st, Raise KeyError).
Proof.
  intros Hnone. unfold append_via, _append_frag_data.
  unfold Py.bind at 1. rewrite (path_has_untracked p _ st Hnone). cbn [negb].
  assert (Hnew : path_new p None st = (st, Ok tt)) by (destruct p; reflexivity).
  unfold Py.bind at 1. rewrite Hnew.
  unfold Py.bind at 1. unfold bufs_getitem, Py.bind, Py.get, getitem. cbv beta iota.
  rewrite Hnone. reflexivity.
Qed.

(** ** Fragment reassembly *)

Lemma new_fragment_via cb shell_id oid fid s_flag e_flag len data st :
  new_fragment cb shell_id oid fid s_flag e_flag len data st
  = append_via (ShellPath cb) shell_id oid fid s_flag e_flag data None st.
Proof. reflexivity. Qed.

(** [last_fragment_id] is written once, when the buffer is created:
    [_append_frag_data] never advances it.  After fragment 0 of a new
    object, fragment 1 is therefore refused: nothing is delivered and the
    buffer keeps the first payload only. *)
Lemma second_fragment_refused
    (cb : Callback) (s : string) (objs : gmap Z ObjBuf) (oid len1 len2 : Z)
    (p1 p2 : bytes) (s1 s2 e2 : bool) (st : PSRPDefragmenter) :
  shell_bufs st !! Some s = Some objs ->
  objs !! oid = None ->
  let st1 := fst (new_fragment cb (Some s) oid 0 s1 false len1 p1 st) in
  let st2 := fst (new_fragment cb (Some s) oid 1 s2 e2 len2 p2 st1) in
  delivered st2 = delivered st
  /\ shell_bufs st2 !! Some s
     = Some (<[oid := {| last_fragment_id := -1; buffer := p1; command_id := None |}]> objs).
Proof.
  intros Hobjs Hoid st1 st2.
  set (ob1 := {| last_fragment_id := -1; buffer := p1; command_id := None |}).
  assert (H1 : new_fragment cb (Some s) oid 0 s1 false len1 p1 st
               = (with_objs ShellBufs (Some s) (<[oid := ob1]> objs) st, Ok tt)).
  { rewrite new_fragment_via, (append_via_tracked (ShellPath cb) (Some s) objs _ _ _ _ _ _ st Hobjs).
    unfold append_tracked. rewrite Hoid. reflexivity. }
  assert (H2 : new_fragment cb (Some s) oid 1 s2 e2 len2 p2
                 (with_objs ShellBufs (Some s) (<[oid := ob1]> objs) st)
               = (with_objs ShellBufs (Some s) (<[oid := ob1]> objs) st, Ok tt)).
  { rewrite new_fragment_via,
      (append_via_tracked (ShellPath cb) (Some s) _ _ _ _ _ _ _ _
         (bufs_of_with_objs ShellBufs (Some s) _ st)).
    unfold append_tracked. rewrite lookup_insert_eq.
    change (default fresh_buf (Some ob1)) with ob1.
    change (last_fragment_id ob1 + 1 =? 1) with false. cbv beta iota. cbn [path_bufs buffer].
    rewrite with_objs_with_objs, insert_insert_eq. reflexivity. }
  subst st2 st1. rewrite H1. cbn [fst]. rewrite H2. cbn [fst].
  split; [apply delivered_with_objs|apply (bufs_of_with_objs ShellBufs)].
Qed.

(** C1 at a failing input, scenario S1: after the three in-order
    fragments no message has been delivered, and the buffer of object 7
    is still there, holding the payload of fragment 0 only; the same
    holds when the fragments arrive as one stream. *)
Theorem C1_S1_fragments_not_reassembled :
  delivered (S1_run (fun _ _ => None)) = []
  /\ shell_bufs (S1_run (fun _ _ => None)) !! Some "S"%string
     = Some {[ 7 := {| last_fragment_id := -1; buffer := [Byte.x01; Byte.x02];
                       command_id := None |} ]}
  /\ delivered (fst (new_fragment_data (fun _ _ => None) (Some "S"%string) S1_stream None
                       PSRP.init)) = [].
Proof. vm_compute. repeat split; reflexivity. Qed.

(** ** Out-of-order fragments *)

Lemma objs_equiv_refl o : objs_equiv o o.
Proof. intros oid. reflexivity. Qed.

Lemma bufs_equiv_refl b : bufs_equiv b b.
Proof. intros i. destruct (b !! i); constructor. apply objs_equiv_refl. Qed.

Lemma equiv_refl st : equiv st st.
Proof. repeat split; try apply bufs_equiv_refl. Qed.

Lemma objs_equiv_insert o1 o2 oid ob1 ob2 :
  objs_equiv o1 o2 ->
  last_fragment_id ob1 = last_fragment_id ob2 -> buffer ob1 = buffer ob2 ->
  objs_equiv (<[oid := ob1]> o1) (<[oid := ob2]> o2).
Proof.
  intros He Hl Hb k. destruct (decide (k = oid)) as [->|Hk].
  - rewrite !lookup_insert_eq. unfold buf_state. cbn. congruence.
  - rewrite !lookup_insert_ne by congruence. apply He.
Qed.

Lemma objs_equiv_delete o1 o2 oid :
  objs_equiv o1 o2 -> objs_equiv (delete oid o1) (delete oid o2).
Proof.
  intros He k. destruct (decide (k = oid)) as [->|Hk].
  - rewrite !lookup_delete_eq. reflexivity.
  - rewrite !lookup_delete_ne by congruence. apply He.
Qed.

Lemma bufs_equiv_insert b1 b2 i o1 o2 :
  bufs_equiv b1 b2 -> objs_equiv o1 o2 -> bufs_equiv (<[i := o1]> b1) (<[i := o2]> b2).
Proof.
  intros He Ho k. destruct (decide (k = i)) as [->|Hk].
  - rewrite !lookup_insert_eq. constructor. exact Ho.
  - rewrite !lookup_insert_ne by congruence. apply He.
Qed.

Lemma bufs_equiv_delete b1 b2 i :
  bufs_equiv b1 b2 -> bufs_equiv (delete i b1) (delete i b2).
Proof.
  intros He k. destruct (decide (k = i)) as [->|Hk].
  - rewrite !lookup_delete_eq. constructor.
  - rewrite !lookup_delete_ne by congruence. apply He.
Qed.

Lemma bufs_equiv_contains b1 b2 i : bufs_equiv b1 b2 -> contains b1 i = contains b2 i.
Proof. intros He. unfold contains. destruct (He i); reflexivity. Qed.

Lemma equiv_bufs_of sel st1 st2 : equiv st1 st2 -> bufs_equiv (bufs_of sel st1) (bufs_of sel st2).
Proof. intros (Hs & Hp & _). destruct sel; assumption. Qed.

Lemma equiv_set_bufs sel b1 b2 st1 st2 :
  equiv st1 st2 -> bufs_equiv b1 b2 -> equiv (set_bufs sel b1 st1) (set_bufs sel b2 st2).
Proof.
  intros (Hs & Hp & Hc & Hd) Hb. destruct sel; repeat split; assumption.
Qed.

Lemma equiv_with_objs sel i o1 o2 st1 st2 :
  equiv st1 st2 -> objs_equiv o1 o2 ->
  equiv (with_objs sel i o1 st1) (with_objs sel i o2 st2).
Proof.
  intros He Ho. unfold with_objs. apply equiv_set_bufs; [exact He|].
  apply bufs_equiv_insert; [apply equiv_bufs_of; exact He|exact Ho].
Qed.

Lemma equiv_deliver p identifier oid msg cid st1 st2 :
  equiv st1 st2 ->
  same_result equiv (deliver p identifier oid msg cid st1) (deliver p identifier oid msg cid st2).
Proof.
  intros (Hs & Hp & Hc & Hd). destruct p as [cb|]; cbn [deliver]; split; cbn [fst snd].
  - repeat split; try assumption. cbn. rewrite Hd. reflexivity.
  - rewrite Hd. reflexivity.
  - unfold stash_message. repeat split; try assumption. cbn. rewrite Hc. reflexivity.
  - reflexivity.
Qed.

Lemma equiv_append_tracked p identifier o1 o2 oid fid e_flag data cid st1 st2 :
  equiv st1 st2 -> objs_equiv o1 o2 ->
  same_result equiv (append_tracked p identifier o1 oid fid e_flag data cid st1)
              (append_tracked p identifier o2 oid fid e_flag data cid st2).
Proof.
  intros He Ho. unfold append_tracked. cbv zeta.
  pose proof (Ho oid) as Hoid. unfold buf_state in Hoid.
  injection Hoid as Hl Hb. rewrite Hl, Hb.
  destruct (last_fragment_id (default fresh_buf (o2 !! oid)) + 1 =? fid).
  - destruct e_flag.
    + destruct (equiv_deliver p identifier oid (buffer (default fresh_buf (o2 !! oid)) ++ data)
                  cid st1 st2 He) as [Hd1 Hd2].
      destruct (deliver p identifier oid _ cid st1) as [t1 r1].
      destruct (deliver p identifier oid _ cid st2) as [t2 r2].
      cbn [fst snd] in Hd1, Hd2. subst r2.
      destruct r1 as [[]|ex]; split; cbn [fst snd]; try reflexivity.
      * apply equiv_with_objs; [exact Hd1|]. apply objs_equiv_delete. exact Ho.
      * apply equiv_with_objs; [exact Hd1|]. apply objs_equiv_insert; [exact Ho| |]; reflexivity.
    + split; [|reflexivity]. cbn [fst].
      apply equiv_with_objs; [exact He|]. apply objs_equiv_insert; [exact Ho| |]; reflexivity.
  - split; [|reflexivity]. cbn [fst].
    apply equiv_with_objs; [exact He|]. apply objs_equiv_insert; [exact Ho| |]; reflexivity.
Qed.

(** One call of [_append_frag_data] keeps two equivalent states equivalent. *)
Lemma sim_append_via p identifier oid fid s_flag e_flag data cid :
  sim (append_via p identifier oid fid s_flag e_flag data cid)
      (append_via p identifier oid fid s_flag e_flag data cid).
Proof.
  intros st1 st2 He.
  pose proof (equiv_bufs_of (path_bufs p) st1 st2 He identifier) as Hi.
  destruct (bufs_of (path_bufs p) st1 !! identifier) as [o1|] eqn:H1;
    destruct (bufs_of (path_bufs p) st2 !! identifier) as [o2|] eqn:H2;
    inversion Hi; subst.
  - rewrite (append_via_tracked p identifier o1 _ _ _ _ _ _ st1 H1),
      (append_via_tracked p identifier o2 _ _ _ _ _ _ st2 H2).
    apply equiv_append_tracked; assumption.
  - destruct identifier as [i|].
    + rewrite (append_via_untracked p i _ _ _ _ _ _ st1 H1),
        (append_via_untracked p i _ _ _ _ _ _ st2 H2).
      apply equiv_append_tracked; [assumption|apply objs_equiv_refl].
    + rewrite (append_via_untracked_None p _ _ _ _ _ _ st1 H1),
        (append_via_untracked_None p _ _ _ _ _ _ st2 H2).
      split; [exact He|reflexivity].
Qed.

Lemma sim_bind {A B} (R : PSRPDefragmenter -> PSRPDefragmenter -> Prop)
    (c1 c2 : M PSRPDefragmenter A) (k1 k2 : A -> M PSRPDefragmenter B) :
  sim_rel R c1 c2 -> (forall a, sim_rel R (k1 a) (k2 a)) ->
  sim_rel R (Py.bind c1 k1) (Py.bind c2 k2).
Proof.
  intros Hc Hk st1 st2 He. unfold Py.bind.
  destruct (Hc st1 st2 He) as [He' Hr].
  destruct (c1 st1) as [t1 r1], (c2 st2) as [t2 r2]. cbn [fst snd] in He', Hr. subst r2.
  destruct r1 as [a|ex]; [apply Hk; exact He'|split; [exact He'|reflexivity]].
Qed.

Lemma sim_ret {A} (R : PSRPDefragmenter -> PSRPDefragmenter -> Prop) (a : A) :
  sim_rel R (Py.ret a) (Py.ret a).
Proof. intros st1 st2 He. split; [exact He|reflexivity]. Qed.

(** Two parse loops over the same bytes stay related when the calls of
    [_append_frag_data] they make do. *)
Lemma sim_feed_loop (R : PSRPDefragmenter -> PSRPDefragmenter -> Prop)
    p1 identifier1 p2 identifier2 data cid :
  (forall oid fid s_flag e_flag frag_data,
      sim_rel R (append_via p1 identifier1 oid fid s_flag e_flag frag_data cid)
                (append_via p2 identifier2 oid fid s_flag e_flag frag_data cid)) ->
  forall (fuel off : nat),
    sim_rel R
      (_new_fragment_data_loop fuel off identifier1 (path_has p1) (path_new p1) (path_bufs p1)
         (path_callback p1) data cid)
      (_new_fragment_data_loop fuel off identifier2 (path_has p2) (path_new p2) (path_bufs p2)
         (path_callback p2) data cid).
Proof.
  intros Happend.
  induction fuel as [|fuel IH]; intros off; cbn [_new_fragment_data_loop].
  - destruct (off <? length data)%nat; apply sim_ret.
  - destruct (off <? length data)%nat; [|apply sim_ret].
    apply sim_bind.
    + intros st1 st2 He. unfold unpack_qqbI.
      destruct (length (slice off (off + FRAG_HEADER_LEN) data) =? 21)%nat;
        (split; [exact He|reflexivity]).
    + intros [[[oid fid] e_s] len]. apply sim_bind.
      * apply (Happend oid fid (_start_bit_set e_s) (_end_bit_set e_s)).
      * intros _. apply IH.
Qed.

Lemma sim_feed_via p identifier data cid :
  sim (feed_via p identifier data cid) (feed_via p identifier data cid).
Proof.
  apply sim_feed_loop. intros oid fid s_flag e_flag frag_data. apply sim_append_via.
Qed.

Lemma sim_new_shell shell_id : sim (new_shell shell_id) (new_shell shell_id).
Proof.
  intros st1 st2 He. destruct shell_id as [i|]; [|split; [exact He|reflexivity]].
  unfold new_shell, modify. split; [|reflexivity]. cbn [fst].
  destruct He as (Hs & Hp & Hc & Hd).
  rewrite (bufs_equiv_contains _ _ (Some i) Hs).
  destruct (contains (shell_bufs st2) (Some i)); [repeat split; assumption|].
  apply (equiv_set_bufs ShellBufs); [repeat split; assumption|].
  apply bufs_equiv_insert; [exact Hs|apply objs_equiv_refl].
Qed.

Lemma sim_new_pending_shell message_id :
  sim (new_pending_shell message_id) (new_pending_shell message_id).
Proof.
  intros st1 st2 He. destruct message_id as [i|]; [|split; [exact He|reflexivity]].
  unfold new_pending_shell, modify. split; [|reflexivity]. cbn [fst].
  destruct He as (Hs & Hp & Hc & Hd).
  rewrite (bufs_equiv_contains _ _ (Some i) Hp).
  destruct (contains (pending_shell_bufs st2) (Some i)); [repeat split; assumption|].
  apply (equiv_set_bufs PendingShellBufs); [repeat split; assumption|].
  apply bufs_equiv_insert; [exact Hp|apply objs_equiv_refl].
Qed.

Lemma sim_delete_shell shell_id : sim (delete_shell shell_id) (delete_shell shell_id).
Proof.
  intros st1 st2 He. unfold delete_shell, modify. split; [|reflexivity]. cbn [fst].
  destruct He as (Hs & Hp & Hc & Hd).
  rewrite (bufs_equiv_contains _ _ shell_id Hs).
  destruct (contains (shell_bufs st2) shell_id); [|repeat split; assumption].
  apply (equiv_set_bufs ShellBufs); [repeat split; assumption|].
  apply bufs_equiv_delete. exact Hs.
Qed.

Lemma sim_completed_psrp_callback cb shell_id oid msg cid :
  sim (completed_psrp_callback cb shell_id oid msg cid)
      (completed_psrp_callback cb shell_id oid msg cid).
Proof.
  intros st1 st2 He.
  rewrite (path_callback_spec (ShellPath cb) shell_id oid msg cid st1 : completed_psrp_callback _ _ _ _ _ _ = _).
  rewrite (path_callback_spec (ShellPath cb) shell_id oid msg cid st2 : completed_psrp_callback _ _ _ _ _ _ = _).
  apply equiv_deliver. exact He.
Qed.

Lemma sim_for_each {A} (l : list A) (body : A -> M PSRPDefragmenter unit) :
  (forall a, sim (body a) (body a)) -> sim (for_each l body) (for_each l body).
Proof.
  intros Hb. induction l as [|a l IH]; cbn [for_each].
  - apply sim_ret.
  - apply sim_bind; [apply Hb|intros _; exact IH].
Qed.

Lemma set_pending_shell_id_unfold cb message_id shell_id st :
  set_pending_shell_id cb message_id shell_id st
  = match pending_shell_bufs st !! message_id with
    | None => new_shell shell_id st
    | Some bufs =>
        (modify (set_pending_shell_bufs (delete message_id (pending_shell_bufs st))) ;;;
         modify (fun st =>
           if contains (shell_bufs st) shell_id then st
           else set_shell_bufs (<[shell_id := bufs]> (shell_bufs st)) st) ;;;
         let* stash := gets pending_shell_completed_messages in
         (if contains stash message_id then
            for_each (default [] (stash !! message_id))
              (fun '(object_id, message, command_id) =>
                 completed_psrp_callback cb shell_id object_id message command_id)
          else ret tt) ;;;
         let* stash := gets pending_shell_completed_messages in
         let* _msgs := getitem stash message_id in
         modify (set_completed (delete message_id stash))) st
    end.
Proof.
  unfold set_pending_shell_id, Py.bind at 1, Py.get.
  destruct (pending_shell_bufs st !! message_id); reflexivity.
Qed.

Lemma sim_set_pending_shell_id cb message_id shell_id :
  sim (set_pending_shell_id cb message_id shell_id) (set_pending_shell_id cb message_id shell_id).
Proof.
  intros st1 st2 He. rewrite !set_pending_shell_id_unfold.
  pose proof He as (Hs & Hp & Hc & Hd).
  pose proof (Hp message_id) as Hm.
  destruct (pending_shell_bufs st1 !! message_id) as [b1|] eqn:H1;
    destruct (pending_shell_bufs st2 !! message_id) as [b2|] eqn:H2;
    inversion Hm; subst.
  - revert st1 st2 He Hs Hp Hc Hd H1 H2 Hm.
    intros st1 st2 He Hs Hp Hc Hd H1 H2 Hm.
    refine (sim_bind equiv _ _ _ _ _ _ st1 st2 He).
    + intros t1 t2 Ht. unfold modify. split; [|reflexivity]. cbn [fst].
      apply (equiv_set_bufs PendingShellBufs); [exact Ht|].
      apply bufs_equiv_delete. exact Hp.
    + intros _. apply sim_bind.
      * intros t1 t2 Ht. unfold modify. split; [|reflexivity]. cbn [fst].
        pose proof Ht as (Hs' & _).
        rewrite (bufs_equiv_contains _ _ shell_id Hs').
        destruct (contains (shell_bufs t2) shell_id); [exact Ht|].
        apply (equiv_set_bufs ShellBufs); [exact Ht|].
        apply bufs_equiv_insert; assumption.
      * intros _. apply sim_bind.
        -- intros t1 t2 Ht. unfold gets. split; [exact Ht|]. cbn [snd].
           destruct Ht as (_ & _ & Hc' & _). rewrite Hc'. reflexivity.
        -- intros stash. apply sim_bind.
           ++ destruct (contains stash message_id); [|apply sim_ret].
              apply sim_for_each. intros [[oid msg] cid]. apply sim_completed_psrp_callback.
           ++ intros _. apply sim_bind.
              ** intros t1 t2 Ht. unfold gets. split; [exact Ht|]. cbn [snd].
                 destruct Ht as (_ & _ & Hc' & _). rewrite Hc'. reflexivity.
              ** intros stash'. apply sim_bind.
                 --- intros t1 t2 Ht. unfold getitem.
                     destruct (stash' !! message_id); (split; [exact Ht|reflexivity]).
                 --- intros _ t1 t2 Ht. unfold modify. split; [|reflexivity]. cbn [fst].
                     destruct Ht as (Hs' & Hp' & Hc' & Hd'). repeat split; assumption.
  - apply sim_new_shell. exact He.
Qed.

(** Every operation keeps two equivalent states equivalent and ends the
    same way in both. *)
Lemma sim_run_op cb op : sim (run_op cb op) (run_op cb op).
Proof.
  destruct op as [sid|mid|sid oid fid s_flag e_flag len data|sid data cid|mid data cid|mid sid|sid];
    cbn [run_op].
  - apply sim_new_shell.
  - apply sim_new_pending_shell.
  - exact (sim_append_via (ShellPath cb) sid oid fid s_flag e_flag data None).
  - exact (sim_feed_via (ShellPath cb) sid data cid).
  - exact (sim_feed_via PendingPath mid data cid).
  - apply sim_set_pending_shell_id.
  - apply sim_delete_shell.
Qed.

Lemma equiv_run_ops cb ops :
  forall st1 st2, equiv st1 st2 -> equiv (run_ops cb ops st1) (run_ops cb ops st2).
Proof.
  induction ops as [|op ops IH]; intros st1 st2 He; cbn [run_ops fold_left].
  - exact He.
  - apply IH. apply (sim_run_op cb op st1 st2 He).
Qed.

(** An out-of-order fragment for a shell that is not tracked yet registers
    the shell; the later promotion of a pending shell to that id then
    discards the pending buffers, and the message delivered afterwards
    lacks the bytes they held: the claim of C4 fails there. *)
Lemma C4_counterexample :
  let cb : Callback := fun _ _ => None in
  let st := pending_M_holds_fragment in
  let st' := fst (new_fragment cb (Some "S"%string) 7 5 false false 1 [Byte.x09] st) in
  delivered st' = delivered st
  /\ delivered (run_ops cb promote_then_close st)
     = [ {| d_shell := Some "S"%string; d_object_id := 7;
            d_message := [Byte.x01; Byte.x02]; d_command_id := None |} ]
  /\ delivered (run_ops cb promote_then_close st')
     = [ {| d_shell := Some "S"%string; d_object_id := 7;
            d_message := [Byte.x02]; d_command_id := None |} ]
  /\ delivered (run_ops cb promote_then_close st') <> delivered (run_ops cb promote_then_close st).
Proof. vm_compute. repeat split; try reflexivity. discriminate. Qed.

(** C4, amended.  A fragment whose id is not [last_fragment_id + 1] of
    its buffer (a new buffer starts at -1), inserted under an identifier
    that is already tracked, delivers nothing, and every later sequence
    of operations delivers exactly what it would have delivered without
    that fragment. *)
Theorem C4_out_of_order_fragment_under_tracked_identifier
    (cb : Callback) (pending : bool) (identifier : Ident) (objs : gmap Z ObjBuf)
    (oid fid : Z) (s_flag e_flag : bool) (data : bytes) (cid : Ident)
    (st : PSRPDefragmenter) :
  let p := if pending then PendingPath else ShellPath cb in
  bufs_of (path_bufs p) st !! identifier = Some objs ->
  fid <> last_fragment_id (default fresh_buf (objs !! oid)) + 1 ->
  let st' := fst (append_via p identifier oid fid s_flag e_flag data cid st) in
  delivered st' = delivered st
  /\ (forall ops : list Op, delivered (run_ops cb ops st') = delivered (run_ops cb ops st)).
Proof.
  intros p Hobjs Hne st'.
  assert (He : equiv st' st).
  { subst st'. rewrite (append_via_tracked p identifier objs _ _ _ _ _ _ st Hobjs).
    unfold append_tracked. cbv zeta.
    assert (Hb : (last_fragment_id (default fresh_buf (objs !! oid)) + 1 =? fid) = false)
      by (apply Z.eqb_neq; congruence).
    rewrite Hb. cbn [fst].
    rewrite <- (with_objs_id (path_bufs p) identifier objs st Hobjs) at 2.
    apply equiv_with_objs; [apply equiv_refl|].
    intros k. destruct (decide (k = oid)) as [->|Hk].
    - rewrite lookup_insert_eq. reflexivity.
    - rewrite lookup_insert_ne by congruence. reflexivity. }
  split.
  - apply He.
  - intros ops. apply (equiv_run_ops cb ops st' st He).
Qed.

Lemma C4_witness :
  let cb : Callback := fun _ _ => None in
  let st := fst (new_fragment cb (Some "S"%string) 7 0 true false 1 [Byte.x01] PSRP.init) in
  let st' := fst (new_fragment cb (Some "S"%string) 7 5 false false 1 [Byte.x09] st) in
  delivered (run_ops cb [OpNewFragment (Some "S"%string) 7 0 false true 1 [Byte.x02]] st')
  = delivered (run_ops cb [OpNewFragment (Some "S"%string) 7 0 false true 1 [Byte.x02]] st).
Proof.
  intros cb st st'.
  set (objs := ({[ 7 := {| last_fragment_id := -1; buffer := [Byte.x01]; command_id := None |} ]}
                : gmap Z ObjBuf)).
  assert (Hobjs : bufs_of (path_bufs (ShellPath cb)) st !! Some "S"%string = Some objs)
    by (vm_compute; reflexivity).
  assert (Hne : 5 <> last_fragment_id (default fresh_buf (objs !! 7)) + 1)
    by (vm_compute; discriminate).
  destruct (C4_out_of_order_fragment_under_tracked_identifier cb false (Some "S"%string)
              objs 7 5 false false [Byte.x09] None st Hobjs Hne) as [_ Hops].
  apply Hops.
Defined.

(** ** Promotion to a shell id that is tracked already *)

(** When the shell id is already tracked at promotion the pending
    buffers are dropped, and the fragment that closes the object then
    delivers a message without the bytes received before promotion: the
    claim of C2 fails there.  (The pending shell received one fragment,
    with id 0, in order.) *)
Lemma C2_counterexample :
  let cb : Callback := fun _ _ => None in
  let closing := [ OpNewFragment (Some "S"%string) 7 0 false true 1 [Byte.x02] ] in
  let promoted :=
    run_ops cb (OpSetPendingShellId (Some "M"%string) (Some "S"%string) :: closing)
      S_tracked_M_pending in
  let direct :=
    run_ops cb (OpNewShell (Some "S"%string)
                :: shell_feeds (Some "S"%string) [(fragment_0_of_7, None)] ++ closing)
      PSRP.init in
  delivered promoted
  = [ {| d_shell := Some "S"%string; d_object_id := 7; d_message := [Byte.x02];
         d_command_id := None |} ]
  /\ delivered direct
     = [ {| d_shell := Some "S"%string; d_object_id := 7; d_message := [Byte.x01; Byte.x02];
            d_command_id := None |} ]
  /\ delivered promoted <> delivered direct.
Proof. vm_compute. repeat split; try reflexivity. discriminate. Qed.

(** ** More on the PSRP defragmenter *)

(** [_append_frag_data] under an identifier that is not [None], tracked
    or not. *)
Lemma append_via_Some p (i : string) oid fid s_flag e_flag data cid st :
  append_via p (Some i) oid fid s_flag e_flag data cid st
  = append_tracked p (Some i) (objs_of (path_bufs p) (Some i) st) oid fid e_flag data cid st.
Proof.
  unfold objs_of.
  destruct (bufs_of (path_bufs p) st !! Some i) as [objs|] eqn:Hobjs.
  - apply append_via_tracked. exact Hobjs.
  - apply append_via_untracked. exact Hobjs.
Qed.

Lemma objs_of_with_objs sel identifier objs st :
  objs_of sel identifier (with_objs sel identifier objs st) = objs.
Proof. unfold objs_of. rewrite bufs_of_with_objs. reflexivity. Qed.

Lemma bufs_of_with_objs_ne sel identifier identifier' objs st :
  identifier' <> identifier ->
  bufs_of sel (with_objs sel identifier objs st) !! identifier' = bufs_of sel st !! identifier'.
Proof. intros H. unfold with_objs. rewrite bufs_of_set_bufs. apply lookup_insert_ne. congruence. Qed.

Lemma bufs_of_with_objs_other sel sel' identifier objs st :
  sel' <> sel -> bufs_of sel' (with_objs sel identifier objs st) = bufs_of sel' st.
Proof. intros H. destruct sel, sel'; try contradiction; reflexivity. Qed.

Lemma bufs_of_deliver sel p identifier oid msg cid st :
  bufs_of sel (fst (deliver p identifier oid msg cid st)) = bufs_of sel st.
Proof. destruct p, sel; reflexivity. Qed.

(** X1. A fragment with id 0 and the end flag, for an object that has no
    buffer yet, on whose payload the completion callback returns
    normally, is delivered at once: the callback gets exactly the
    payload, the call returns normally, the shell is tracked afterwards
    and holds no buffer for the object. *)
Theorem single_fragment_is_delivered
    (cb : Callback) (s : string) (oid len : Z) (s_flag : bool) (data : bytes)
    (st : PSRPDefragmenter) :
  objs_of ShellBufs (Some s) st !! oid = None ->
  cb (delivered st)
     {| d_shell := Some s; d_object_id := oid; d_message := data; d_command_id := None |} = None ->
  let r := new_fragment cb (Some s) oid 0 s_flag true len data st in
  snd r = Ok tt
  /\ delivered (fst r)
     = delivered st
       ++ [ {| d_shell := Some s; d_object_id := oid; d_message := data; d_command_id := None |} ]
  /\ shell_bufs (fst r) = <[Some s := objs_of ShellBufs (Some s) st]> (shell_bufs st)
  /\ pending_shell_bufs (fst r) = pending_shell_bufs st.
Proof.
  intros Hoid Hcb r. subst r.
  rewrite new_fragment_via, append_via_Some. cbn [path_bufs].
  unfold append_tracked. rewrite Hoid. cbn [default from_option id].
  change (last_fragment_id fresh_buf + 1 =? 0) with true. cbv beta iota zeta.
  cbn [deliver buffer fresh_buf app]. rewrite Hcb.
  cbn [fst snd]. rewrite (delete_id _ _ Hoid).
  repeat split; reflexivity.
Qed.

Lemma single_fragment_is_delivered_witness :
  delivered (fst (new_fragment wired_callback (Some "S"%string) 7 0 true true 40
                    session_capability_message PSRP.init))
  = [ {| d_shell := Some "S"%string; d_object_id := 7;
         d_message := session_capability_message; d_command_id := None |} ].
Proof.
  destruct (single_fragment_is_delivered wired_callback "S" 7 40 true
              session_capability_message PSRP.init eq_refl eq_refl) as (_ & Hd & _).
  exact Hd.
Defined.

(** *** [last_fragment_id] is never advanced *)

Lemma preserves_bind {S A B} (P : S -> Prop) (c : M S A) (k : A -> M S B) :
  preserves P c -> (forall a, preserves P (k a)) -> preserves P (Py.bind c k).
Proof.
  intros Hc Hk st HP. unfold Py.bind. specialize (Hc st HP).
  destruct (c st) as [st' [a|e]]; cbn [fst] in *; [apply Hk; exact Hc|exact Hc].
Qed.

Lemma preserves_ret {S A} (P : S -> Prop) (a : A) : preserves P (Py.ret a).
Proof. intros st HP. exact HP. Qed.

Lemma preserves_raise {S A} (P : S -> Prop) (e : exn) : preserves P (@Py.raise S A e).
Proof. intros st HP. exact HP. Qed.

Lemma preserves_gets {S A} (P : S -> Prop) (f : S -> A) : preserves P (Py.gets f).
Proof. intros st HP. exact HP. Qed.

Lemma preserves_getitem `{Countable K} {S V} (P : S -> Prop) (d : gmap K V) (k : K) :
  preserves P (@Py.getitem K _ _ S V d k).
Proof. intros st HP. unfold getitem. destruct (d !! k); exact HP. Qed.

Lemma preserves_modify {S} (P : S -> Prop) (f : S -> S) :
  (forall st, P st -> P (f st)) -> preserves P (Py.modify f).
Proof. intros Hf st HP. apply Hf. exact HP. Qed.

Lemma preserves_for_each {S A} (P : S -> Prop) (l : list A) (body : A -> M S unit) :
  (forall a, preserves P (body a)) -> preserves P (for_each l body).
Proof.
  intros Hb. induction l as [|a l IH]; cbn [for_each].
  - apply preserves_ret.
  - apply preserves_bind; [apply Hb|intros _; exact IH].
Qed.

Lemma never_advanced_set_bufs sel b st :
  never_advanced st ->
  (forall identifier objs oid ob,
      b !! identifier = Some objs -> objs !! oid = Some ob -> last_fragment_id ob = -1) ->
  never_advanced (set_bufs sel b st).
Proof.
  intros Hst Hb sel' identifier objs oid ob Hl Ho.
  destruct sel, sel'; cbn in Hl;
    first [exact (Hb _ _ _ _ Hl Ho) | exact (Hst ShellBufs _ _ _ _ Hl Ho)
          | exact (Hst PendingShellBufs _ _ _ _ Hl Ho)].
Qed.

Lemma never_advanced_with_objs sel identifier objs st :
  never_advanced st ->
  (forall oid ob, objs !! oid = Some ob -> last_fragment_id ob = -1) ->
  never_advanced (with_objs sel identifier objs st).
Proof.
  intros Hst Hobjs. apply never_advanced_set_bufs; [exact Hst|].
  intros i o oid ob Hl Ho. destruct (decide (i = identifier)) as [->|Hne].
  - rewrite lookup_insert_eq in Hl. injection Hl as <-. exact (Hobjs _ _ Ho).
  - rewrite lookup_insert_ne in Hl by congruence. exact (Hst sel i o oid ob Hl Ho).
Qed.

Lemma never_advanced_deliver p identifier oid msg cid st :
  never_advanced st -> never_advanced (fst (deliver p identifier oid msg cid st)).
Proof.
  intros Hst sel i o k ob Hl Ho. rewrite bufs_of_deliver in Hl. exact (Hst sel i o k ob Hl Ho).
Qed.

Lemma never_advanced_append_tracked p identifier objs oid fid e_flag data cid st :
  never_advanced st ->
  (forall k ob, objs !! k = Some ob -> last_fragment_id ob = -1) ->
  never_advanced (fst (append_tracked p identifier objs oid fid e_flag data cid st)).
Proof.
  intros Hst Hobjs.
  assert (Hlast : last_fragment_id (default fresh_buf (objs !! oid)) = -1).
  { destruct (objs !! oid) as [ob|] eqn:Hob; [exact (Hobjs _ _ Hob)|reflexivity]. }
  assert (Hins : forall ob', last_fragment_id ob' = -1 ->
             forall k ob, <[oid := ob']> objs !! k = Some ob -> last_fragment_id ob = -1).
  { intros ob' Hob' k ob Hk. destruct (decide (k = oid)) as [->|Hne].
    - rewrite lookup_insert_eq in Hk. injection Hk as <-. exact Hob'.
    - rewrite lookup_insert_ne in Hk by congruence. exact (Hobjs _ _ Hk). }
  unfold append_tracked. cbv zeta.
  destruct (last_fragment_id (default fresh_buf (objs !! oid)) + 1 =? fid).
  - destruct e_flag.
    + pose proof (never_advanced_deliver p identifier oid
                    (buffer (default fresh_buf (objs !! oid)) ++ data) cid st Hst) as Hd.
      destruct (deliver p identifier oid _ cid st) as [st1 [[]|ex]]; cbn [fst] in *.
      * apply never_advanced_with_objs; [exact Hd|].
        intros k ob Hk. apply lookup_delete_Some in Hk as [_ Hk]. exact (Hobjs _ _ Hk).
      * apply never_advanced_with_objs; [exact Hd|]. apply Hins. exact Hlast.
    + cbn [fst]. apply never_advanced_with_objs; [exact Hst|]. apply Hins. exact Hlast.
  - cbn [fst]. apply never_advanced_with_objs; [exact Hst|]. apply Hins. exact Hlast.
Qed.

Lemma never_advanced_append_via p identifier oid fid s_flag e_flag data cid :
  preserves never_advanced (append_via p identifier oid fid s_flag e_flag data cid).
Proof.
  intros st Hst.
  destruct (bufs_of (path_bufs p) st !! identifier) as [objs|] eqn:Hobjs.
  - rewrite (append_via_tracked p identifier objs _ _ _ _ _ _ st Hobjs).
    apply never_advanced_append_tracked; [exact Hst|].
    intros k ob Hk. exact (Hst _ _ _ _ _ Hobjs Hk).
  - destruct identifier as [i|].
    + rewrite (append_via_untracked p i _ _ _ _ _ _ st Hobjs).
      apply never_advanced_append_tracked; [exact Hst|].
      intros k ob Hk. rewrite lookup_empty in Hk. discriminate.
    + rewrite (append_via_untracked_None p _ _ _ _ _ _ st Hobjs). exact Hst.
Qed.

Lemma never_advanced_feed_via p identifier data cid :
  preserves never_advanced (feed_via p identifier data cid).
Proof.
  unfold feed_via, _new_fragment_data. generalize (length data) at 1 as fuel. generalize 0%nat as off.
  intros off fuel. revert off.
  induction fuel as [|fuel IH]; intros off; cbn [_new_fragment_data_loop].
  - destruct (off <? length data)%nat; apply preserves_ret.
  - destruct (off <? length data)%nat; [|apply preserves_ret].
    apply preserves_bind.
    + intros st Hst. unfold unpack_qqbI.
      destruct (length (slice off (off + FRAG_HEADER_LEN) data) =? 21)%nat; exact Hst.
    + intros [[[oid fid] e_s] len]. apply preserves_bind.
      * exact (never_advanced_append_via p identifier oid fid (_start_bit_set e_s)
                 (_end_bit_set e_s) _ cid).
      * intros _. apply IH.
Qed.

Lemma never_advanced_run_op cb op : preserves never_advanced (run_op cb op).
Proof.
  destruct op as [sid|mid|sid oid fid s_flag e_flag len data|sid data cid|mid data cid|mid sid|sid];
    cbn [run_op].
  - intros st Hst. destruct sid as [i|]; [|exact Hst].
    unfold new_shell, modify. cbn [fst].
    destruct (contains (shell_bufs st) (Some i)); [exact Hst|].
    apply (never_advanced_with_objs ShellBufs (Some i) ∅ st Hst).
    intros k ob Hk. rewrite lookup_empty in Hk. discriminate.
  - intros st Hst. destruct mid as [i|]; [|exact Hst].
    unfold new_pending_shell, modify. cbn [fst].
    destruct (contains (pending_shell_bufs st) (Some i)); [exact Hst|].
    apply (never_advanced_with_objs PendingShellBufs (Some i) ∅ st Hst).
    intros k ob Hk. rewrite lookup_empty in Hk. discriminate.
  - exact (never_advanced_append_via (ShellPath cb) sid oid fid s_flag e_flag data None).
  - exact (never_advanced_feed_via (ShellPath cb) sid data cid).
  - exact (never_advanced_feed_via PendingPath mid data cid).
  - intros st Hst. rewrite set_pending_shell_id_unfold.
    destruct (pending_shell_bufs st !! mid) as [objs|] eqn:Hobjs.
    + revert st Hst Hobjs. intros st Hst Hobjs.
      assert (Hobjs_ok : forall k ob, objs !! k = Some ob -> last_fragment_id ob = -1)
        by (intros k ob Hk; exact (Hst PendingShellBufs mid objs k ob Hobjs Hk)).
      refine (preserves_bind never_advanced _ _ _ _ st Hst).
      * apply preserves_modify. intros t Ht.
        apply (never_advanced_set_bufs PendingShellBufs); [exact Ht|].
        intros i o k ob Hl Ho. apply lookup_delete_Some in Hl as [_ Hl].
        exact (Hst PendingShellBufs i o k ob Hl Ho).
      * intros _. apply preserves_bind.
        -- apply preserves_modify. intros t Ht.
           destruct (contains (shell_bufs t) sid); [exact Ht|].
           apply (never_advanced_with_objs ShellBufs sid objs t Ht). exact Hobjs_ok.
        -- intros _. apply preserves_bind; [apply preserves_gets|].
           intros stash. apply preserves_bind.
           ++ destruct (contains stash mid); [|apply preserves_ret].
              apply preserves_for_each. intros [[oid msg] cid] t Ht.
              rewrite (path_callback_spec (ShellPath cb) sid oid msg cid t
                       : completed_psrp_callback _ _ _ _ _ _ = _).
              apply never_advanced_deliver. exact Ht.
           ++ intros _. apply preserves_bind; [apply preserves_gets|].
              intros stash'. apply preserves_bind; [apply preserves_getitem|].
              intros _. apply preserves_modify. intros t Ht sel i o k ob Hl Ho.
              apply (Ht sel i o k ob); [|exact Ho]. destruct sel; exact Hl.
    + intros. destruct sid as [i|]; [|assumption].
      unfold new_shell, modify. cbn [fst].
      destruct (contains (shell_bufs st) (Some i)); [exact Hst|].
      apply (never_advanced_with_objs ShellBufs (Some i) ∅ st Hst).
      intros k ob Hk. rewrite lookup_empty in Hk. discriminate.
  - intros st Hst. unfold delete_shell, modify. cbn [fst].
    destruct (contains (shell_bufs st) sid); [|exact Hst].
    apply (never_advanced_set_bufs ShellBufs); [exact Hst|].
    intros i o k ob Hl Ho. apply lookup_delete_Some in Hl as [_ Hl].
    exact (Hst ShellBufs i o k ob Hl Ho).
Qed.

Lemma never_advanced_run_ops cb ops :
  forall st, never_advanced st -> never_advanced (run_ops cb ops st).
Proof.
  induction ops as [|op ops IH]; intros st Hst; cbn [run_ops fold_left].
  - exact Hst.
  - apply IH. apply never_advanced_run_op. exact Hst.
Qed.

Lemma never_advanced_init : never_advanced PSRP.init.
Proof.
  intros sel i o k ob Hl. destruct sel; cbn in Hl; rewrite lookup_empty in Hl; discriminate.
Qed.

Lemma last_fragment_id_never_advances_reach (cb : Callback) (ops : list Op) :
  never_advanced (run_ops cb ops PSRP.init).
Proof. apply never_advanced_run_ops. apply never_advanced_init. Qed.

(** X2. In every state that a sequence of operations reaches from a new
    defragmenter, every buffer of the known and of the pending shells
    still has [last_fragment_id] -1: the field is set when a buffer is
    created and never advanced. *)
Theorem last_fragment_id_never_advances
    (cb : Callback) (ops : list Op) (bufs : BufSel) (identifier : Ident)
    (objs : gmap Z ObjBuf) (oid : Z) (ob : ObjBuf) :
  bufs_of bufs (run_ops cb ops PSRP.init) !! identifier = Some objs ->
  objs !! oid = Some ob ->
  last_fragment_id ob = -1.
Proof. apply (never_advanced_run_ops cb ops PSRP.init never_advanced_init). Qed.

Lemma last_fragment_id_never_advances_witness :
  last_fragment_id
    {| last_fragment_id := -1; buffer := [Byte.x01; Byte.x02]; command_id := None |} = -1.
Proof.
  apply (last_fragment_id_never_advances (fun _ _ => None)
           [OpNewFragment (Some "S"%string) 7 0 true false 2 [Byte.x01; Byte.x02]]
           ShellBufs (Some "S"%string)
           {[ 7 := {| last_fragment_id := -1; buffer := [Byte.x01; Byte.x02];
                      command_id := None |} ]} 7).
  - vm_compute. reflexivity.
  - vm_compute. reflexivity.
Defined.

(** X3. In every state reached from a new defragmenter, a fragment whose
    id is not 0 is refused whatever came before it: nothing is delivered
    and no buffer gains or loses a byte. *)
Theorem nonzero_fragment_is_refused
    (cb : Callback) (ops : list Op) (s : string) (oid fid len : Z) (s_flag e_flag : bool)
    (data : bytes) :
  fid <> 0 ->
  let st := run_ops cb ops PSRP.init in
  let r := new_fragment cb (Some s) oid fid s_flag e_flag len data st in
  snd r = Ok tt
  /\ delivered (fst r) = delivered st
  /\ (forall identifier k,
        buf_state (objs_of ShellBufs identifier (fst r) !! k)
        = buf_state (objs_of ShellBufs identifier st !! k))
  /\ pending_shell_bufs (fst r) = pending_shell_bufs st.
Proof.
  intros Hfid st r. subst r.
  pose proof (last_fragment_id_never_advances_reach cb ops) as Hinv. fold st in Hinv.
  rewrite new_fragment_via, append_via_Some. cbn [path_bufs].
  set (objs := objs_of ShellBufs (Some s) st).
  assert (Hlast : last_fragment_id (default fresh_buf (objs !! oid)) = -1).
  { destruct (objs !! oid) as [ob|] eqn:Hob; [|reflexivity].
    subst objs. unfold objs_of in Hob.
    destruct (bufs_of ShellBufs st !! Some s) as [o|] eqn:Ho.
    - exact (Hinv ShellBufs (Some s) o oid ob Ho Hob).
    - cbn in Hob. rewrite lookup_empty in Hob. discriminate. }
  unfold append_tracked. cbv zeta. rewrite Hlast.
  assert (Hb : (-1 + 1 =? fid) = false) by (apply Z.eqb_neq; lia).
  rewrite Hb. cbn [fst snd].
  split; [reflexivity|]. split; [reflexivity|]. split; [|reflexivity].
  intros identifier k. destruct (decide (identifier = Some s)) as [->|Hne].
  - rewrite objs_of_with_objs. fold objs. destruct (decide (k = oid)) as [->|Hk].
    + rewrite lookup_insert_eq. unfold buf_state. cbn. rewrite Hlast. reflexivity.
    + rewrite lookup_insert_ne by congruence. reflexivity.
  - unfold objs_of. rewrite bufs_of_with_objs_ne by exact Hne. reflexivity.
Qed.

Lemma nonzero_fragment_is_refused_witness :
  let st := run_ops (fun _ _ => None)
              [OpNewFragment (Some "S"%string) 7 0 true false 2 [Byte.x01; Byte.x02]] PSRP.init in
  delivered (fst (new_fragment (fun _ _ => None) (Some "S"%string) 7 1 false true 1
                    [Byte.x03] st))
  = delivered st.
Proof.
  intros st.
  destruct (nonzero_fragment_is_refused (fun _ _ => None)
              [OpNewFragment (Some "S"%string) 7 0 true false 2 [Byte.x01; Byte.x02]]
              "S" 7 1 1 false true [Byte.x03] ltac:(discriminate)) as (_ & Hd & _).
  exact Hd.
Defined.

(** X4. A fragment touches one buffer only: the buffers of every other
    shell, the other objects of the same shell, the pending shells and
    the stash of completed messages stay as they were. *)
Theorem new_fragment_touches_one_buffer
    (cb : Callback) (shell_id : Ident) (oid fid len : Z) (s_flag e_flag : bool) (data : bytes)
    (st : PSRPDefragmenter) :
  let st' := fst (new_fragment cb shell_id oid fid s_flag e_flag len data st) in
  (forall other, other <> shell_id -> shell_bufs st' !! other = shell_bufs st !! other)
  /\ (forall k, k <> oid ->
        objs_of ShellBufs shell_id st' !! k = objs_of ShellBufs shell_id st !! k)
  /\ pending_shell_bufs st' = pending_shell_bufs st
  /\ pending_shell_completed_messages st' = pending_shell_completed_messages st.
Proof.
  intros st'. subst st'. rewrite new_fragment_via.
  assert (Htracked : forall objs,
             objs_of ShellBufs shell_id st = objs ->
             let st' := fst (append_tracked (ShellPath cb) shell_id objs oid fid e_flag data None st) in
             (forall other, other <> shell_id -> shell_bufs st' !! other = shell_bufs st !! other)
             /\ (forall k, k <> oid -> objs_of ShellBufs shell_id st' !! k = objs !! k)
             /\ pending_shell_bufs st' = pending_shell_bufs st
             /\ pending_shell_completed_messages st' = pending_shell_completed_messages st).
  { intros objs Hobjs. unfold append_tracked. cbv zeta. cbn [path_bufs deliver].
    assert (Hw : forall o' t,
               shell_bufs t = shell_bufs st -> pending_shell_bufs t = pending_shell_bufs st ->
               pending_shell_completed_messages t = pending_shell_completed_messages st ->
               (forall k, k <> oid -> o' !! k = objs !! k) ->
               let st' := with_objs ShellBufs shell_id o' t in
               (forall other, other <> shell_id -> shell_bufs st' !! other = shell_bufs st !! other)
               /\ (forall k, k <> oid -> objs_of ShellBufs shell_id st' !! k = objs !! k)
               /\ pending_shell_bufs st' = pending_shell_bufs st
               /\ pending_shell_completed_messages st' = pending_shell_completed_messages st).
    { intros o' t H1 H2 H3 H4 st'. subst st'. split; [|split; [|split]].
      - intros other Hne. rewrite <- H1. apply (bufs_of_with_objs_ne ShellBufs). exact Hne.
      - intros k Hk. rewrite objs_of_with_objs. apply H4. exact Hk.
      - cbn. exact H2.
      - cbn. exact H3. }
    destruct (last_fragment_id (default fresh_buf (objs !! oid)) + 1 =? fid).
    - destruct e_flag.
      + destruct (cb (delivered st) _); cbn [fst]; apply Hw; try reflexivity;
          intros k Hk; first [apply lookup_delete_ne | apply lookup_insert_ne]; congruence.
      + cbn [fst]. apply Hw; try reflexivity. intros k Hk. apply lookup_insert_ne. congruence.
    - cbn [fst]. apply Hw; try reflexivity. intros k Hk. apply lookup_insert_ne. congruence. }
  destruct (bufs_of ShellBufs st !! shell_id) as [objs|] eqn:Hobjs.
  - rewrite (append_via_tracked (ShellPath cb) shell_id objs _ _ _ _ _ _ st Hobjs).
    assert (Ho : objs_of ShellBufs shell_id st = objs) by (unfold objs_of; rewrite Hobjs; reflexivity).
    rewrite Ho. apply (Htracked objs Ho).
  - destruct shell_id as [i|].
    + rewrite (append_via_untracked (ShellPath cb) i _ _ _ _ _ _ st Hobjs).
      assert (Ho : objs_of ShellBufs (Some i) st = ∅) by (unfold objs_of; rewrite Hobjs; reflexivity).
      rewrite Ho. apply (Htracked ∅ Ho).
    + rewrite (append_via_untracked_None (ShellPath cb) _ _ _ _ _ _ st Hobjs). cbn [fst].
      repeat split; reflexivity.
Qed.

(** X5. When the completion callback raises, the exception leaves
    [new_fragment] before the buffer is removed: the delivery was made,
    the exception propagates and the completed buffer stays behind with
    all its bytes. *)
Theorem callback_exception_keeps_buffer
    (cb : Callback) (s : string) (oid len : Z) (s_flag : bool) (data : bytes) (e : exn)
    (st : PSRPDefragmenter) :
  objs_of ShellBufs (Some s) st !! oid = None ->
  cb (delivered st)
     {| d_shell := Some s; d_object_id := oid; d_message := data; d_command_id := None |}
  = Some e ->
  let r := new_fragment cb (Some s) oid 0 s_flag true len data st in
  snd r = Raise e
  /\ delivered (fst r)
     = delivered st
       ++ [ {| d_shell := Some s; d_object_id := oid; d_message := data; d_command_id := None |} ]
  /\ objs_of ShellBufs (Some s) (fst r) !! oid
     = Some {| last_fragment_id := -1; buffer := data; command_id := None |}.
Proof.
  intros Hoid Hcb r. subst r.
  rewrite new_fragment_via, append_via_Some. cbn [path_bufs].
  unfold append_tracked. rewrite Hoid. cbn [default from_option id].
  change (last_fragment_id fresh_buf + 1 =? 0) with true. cbv beta iota zeta.
  cbn [deliver buffer fresh_buf app]. rewrite Hcb. cbn [fst snd].
  split; [reflexivity|]. split; [reflexivity|].
  rewrite objs_of_with_objs. apply lookup_insert_eq.
Qed.

Lemma callback_exception_keeps_buffer_witness :
  snd (new_fragment (fun _ _ => Some KeyError) (Some "S"%string) 7 0 true true 2
         [Byte.x41; Byte.x42] PSRP.init) = Raise KeyError.
Proof.
  destruct (callback_exception_keeps_buffer (fun _ _ => Some KeyError) "S" 7 2 true
              [Byte.x41; Byte.x42] KeyError PSRP.init eq_refl eq_refl) as (Hr & _).
  exact Hr.
Defined.

(** *** Fragments that all carry id 0 *)

Section ZeroRun.
Variable cb : Callback.
Variable s : string.
Variable oid : Z.
Variable cid : Ident.
Variable objs0 : gmap Z ObjBuf.
Variable st : PSRPDefragmenter.
Hypothesis objs0_is : objs_of ShellBufs (Some s) st = objs0.
Hypothesis no_buffer : objs0 !! oid = None.

Lemma objs_of_holding acc c : objs_of ShellBufs (Some s) (holding (Some s) objs0 oid acc c st)
  = <[oid := {| last_fragment_id := -1; buffer := acc; command_id := c |}]> objs0.
Proof. apply objs_of_with_objs. Qed.

(** The first fragment finds no buffer; it behaves as if an empty one
    were there. *)
Lemma append_first_as_holding fid s_flag e_flag data :
  append_via (ShellPath cb) (Some s) oid fid s_flag e_flag data cid st
  = append_via (ShellPath cb) (Some s) oid fid s_flag e_flag data cid
      (holding (Some s) objs0 oid [] None st).
Proof.
  rewrite !append_via_Some. cbn [path_bufs]. rewrite objs_of_holding, objs0_is.
  unfold append_tracked. rewrite no_buffer, lookup_insert_eq.
  cbn [default from_option id fresh_buf last_fragment_id buffer]. cbv zeta.
  unfold holding. rewrite !insert_insert_eq, !delete_insert_eq.
  cbn [path_bufs]. rewrite !with_objs_with_objs.
  destruct (-1 + 1 =? fid); [|reflexivity].
  destruct e_flag; [|reflexivity].
  rewrite deliver_with_objs.
  destruct (deliver (ShellPath cb) (Some s) oid ([] ++ data) cid st) as [st1 [[]|ex]];
    cbn [fst snd]; rewrite with_objs_with_objs; reflexivity.
Qed.

Lemma append_zero_no_end acc c s_flag data :
  append_via (ShellPath cb) (Some s) oid 0 s_flag false data cid (holding (Some s) objs0 oid acc c st)
  = (holding (Some s) objs0 oid (acc ++ data) cid st, Ok tt).
Proof.
  rewrite append_via_Some. cbn [path_bufs]. rewrite objs_of_holding.
  unfold append_tracked. rewrite lookup_insert_eq.
  cbn [default from_option id last_fragment_id buffer]. cbv zeta.
  change (-1 + 1 =? 0) with true. cbv iota.
  unfold holding. cbn [path_bufs]. rewrite insert_insert_eq, with_objs_with_objs. reflexivity.
Qed.

Lemma append_zero_end acc c s_flag data :
  cb (delivered st)
     {| d_shell := Some s; d_object_id := oid; d_message := acc ++ data; d_command_id := cid |}
  = None ->
  append_via (ShellPath cb) (Some s) oid 0 s_flag true data cid (holding (Some s) objs0 oid acc c st)
  = (add_delivery
       {| d_shell := Some s; d_object_id := oid; d_message := acc ++ data; d_command_id := cid |}
       (with_objs ShellBufs (Some s) objs0 st), Ok tt).
Proof.
  intros Hcb.
  rewrite append_via_Some. cbn [path_bufs]. rewrite objs_of_holding.
  unfold append_tracked. rewrite lookup_insert_eq.
  cbn [default from_option id last_fragment_id buffer]. cbv zeta.
  change (-1 + 1 =? 0) with true. cbv iota.
  unfold holding. cbn [path_bufs]. rewrite deliver_with_objs. cbn [deliver fst snd]. rewrite Hcb.
  rewrite with_objs_with_objs, delete_insert_eq, (delete_id _ _ no_buffer).
  rewrite add_delivery_with_objs. reflexivity.
Qed.

Lemma zero_run_body (body : list (bytes * bytes)) :
  Forall (zero_fragment_of oid) body ->
  Forall (fun hp => has_end_flag hp = false) body ->
  forall acc c,
    for_each body (append_parsed (Some s) has_shell new_shell ShellBufs
                     (completed_psrp_callback cb) cid)
      (holding (Some s) objs0 oid acc c st)
    = (holding (Some s) objs0 oid (acc ++ concat (map snd body))
         (if body is [] then c else cid) st, Ok tt).
Proof.
  induction body as [|[h p] body IH]; intros Hz He acc c.
  - cbn. rewrite app_nil_r. reflexivity.
  - apply Forall_cons in Hz as [[Hoid Hfid] Hz']. apply Forall_cons in He as [Hend He'].
    cbn [for_each]. unfold Py.bind.
    unfold append_parsed at 1. unfold hdr_object_id, hdr_fragment_id, has_end_flag, hdr_flags in *.
    cbn [fst snd] in *.
    destruct (fields_qqbI h) as [[[o f] e_s] len] eqn:Hf.
    rewrite ?Hf in *. cbn [fst snd] in *. subst o f.
    rewrite Hend.
    pose proof (append_zero_no_end acc c (_start_bit_set e_s) p) as Ha.
    unfold append_via in Ha. cbn [path_has path_new path_bufs path_callback] in Ha.
    rewrite Ha.
    rewrite (IH Hz' He' (acc ++ p) cid).
    cbn [map concat snd]. rewrite <- app_assoc.
    destruct body; reflexivity.
Qed.

End ZeroRun.

(** X6. The rule the code applies is "fragment id 0", not "next id":
    fragments of one object that all carry id 0, the last one with the
    end flag, are concatenated and delivered as one message, and the
    buffer is removed, provided the completion callback returns normally
    on the concatenation. *)
Theorem zero_id_fragments_are_concatenated
    (cb : Callback) (s : string) (oid : Z) (cid : Ident)
    (body : list (bytes * bytes)) (final : bytes * bytes) (st : PSRPDefragmenter) :
  Forall complete_fragment (body ++ [final]) ->
  Forall (zero_fragment_of oid) (body ++ [final]) ->
  Forall (fun hp => has_end_flag hp = false) body ->
  has_end_flag final = true ->
  objs_of ShellBufs (Some s) st !! oid = None ->
  cb (delivered st)
     {| d_shell := Some s; d_object_id := oid;
        d_message := concat (map snd (body ++ [final])); d_command_id := cid |} = None ->
  new_fragment_data cb (Some s) (concat (map fragment_bytes (body ++ [final]))) cid st
  = (add_delivery
       {| d_shell := Some s; d_object_id := oid;
          d_message := concat (map snd (body ++ [final])); d_command_id := cid |}
       (with_objs ShellBufs (Some s) (objs_of ShellBufs (Some s) st) st), Ok tt).
Proof.
  intros Hc Hz He Hend Hno Hcb.
  unfold new_fragment_data.
  rewrite (new_fragment_data_complete (Some s) has_shell new_shell ShellBufs
             (completed_psrp_callback cb) cid (body ++ [final]) Hc st).
  apply Forall_app in Hz as [Hzb Hzf]. apply Forall_cons in Hzf as [[Hoid Hfid] _].
  subst oid.
  set (objs0 := objs_of ShellBufs (Some s) st) in *.
  assert (Hfinal : forall acc c,
             cb (delivered st)
                {| d_shell := Some s; d_object_id := hdr_object_id final.1;
                   d_message := acc ++ final.2; d_command_id := cid |} = None ->
             append_parsed (Some s) has_shell new_shell ShellBufs (completed_psrp_callback cb) cid
               final (holding (Some s) objs0 (hdr_object_id final.1) acc c st)
             = (add_delivery
                  {| d_shell := Some s; d_object_id := hdr_object_id final.1;
                     d_message := acc ++ final.2; d_command_id := cid |}
                  (with_objs ShellBufs (Some s) objs0 st), Ok tt)).
  { intros acc c Hcb'. unfold append_parsed.
    unfold hdr_object_id, hdr_fragment_id, has_end_flag, hdr_flags in *.
    destruct (fields_qqbI final.1) as [[[o f] e_s] len] eqn:Hf.
    rewrite ?Hf in *. cbn [fst snd] in *. subst f.
    rewrite Hend.
    exact (append_zero_end cb s o cid objs0 st Hno acc c (_start_bit_set e_s) final.2 Hcb'). }
  rewrite map_app, concat_app in Hcb |- *. cbn [map concat] in Hcb |- *.
  rewrite app_nil_r in Hcb |- *.
  destruct body as [|first body].
  - cbn [app for_each map concat] in *. rewrite bind_ret_tt.
    assert (H1 : append_parsed (Some s) has_shell new_shell ShellBufs (completed_psrp_callback cb)
                   cid final st
                 = append_parsed (Some s) has_shell new_shell ShellBufs
                     (completed_psrp_callback cb) cid final
                     (holding (Some s) objs0 (hdr_object_id final.1) [] None st)).
    { unfold append_parsed. destruct (fields_qqbI final.1) as [[[o f] e_s] len] eqn:Hf.
      unfold hdr_object_id in *. rewrite Hf in *. cbn [fst] in *.
      exact (append_first_as_holding cb s o cid objs0 st eq_refl Hno f (_start_bit_set e_s)
               (_end_bit_set e_s) final.2). }
    rewrite H1. apply Hfinal. exact Hcb.
  - rewrite for_each_app. unfold Py.bind at 1.
    cbn [for_each]. unfold Py.bind at 1.
    apply Forall_cons in Hzb as [[Hoid1 Hfid1] Hzb'].
    apply Forall_cons in He as [Hend1 He'].
    assert (H1 : append_parsed (Some s) has_shell new_shell ShellBufs (completed_psrp_callback cb)
                   cid first st
                 = (holding (Some s) objs0 (hdr_object_id final.1) first.2 cid st, Ok tt)).
    { unfold append_parsed.
      unfold hdr_object_id, hdr_fragment_id, has_end_flag, hdr_flags in *.
      destruct (fields_qqbI first.1) as [[[o f] e_s] len] eqn:Hf.
      rewrite ?Hf in *. cbn [fst snd] in *. subst f.
      rewrite Hend1, <- Hoid1.
      assert (Hno' : objs0 !! o = None) by (rewrite Hoid1; exact Hno).
      pose proof (append_first_as_holding cb s o cid objs0 st eq_refl Hno' 0
                    (_start_bit_set e_s) false first.2) as Ha.
      unfold append_via in Ha. cbn [path_has path_new path_bufs path_callback] in Ha.
      rewrite Ha.
      exact (append_zero_no_end cb s o cid objs0 st [] None (_start_bit_set e_s) first.2). }
    rewrite H1.
    change (fun hp : bytes * bytes =>
              append_parsed (Some s) has_shell new_shell ShellBufs
                (completed_psrp_callback cb) cid hp)
      with (append_parsed (Some s) has_shell new_shell ShellBufs (completed_psrp_callback cb) cid).
    rewrite (zero_run_body cb s (hdr_object_id final.1) cid objs0 st body Hzb' He' first.2 cid).
    cbn [for_each]. rewrite bind_ret_tt.
    rewrite Hfinal.
    + cbn [map concat]. rewrite <- app_assoc. reflexivity.
    + cbn [map concat] in Hcb. exact Hcb.
Qed.

Lemma zero_id_fragments_are_concatenated_witness :
  new_fragment_data wired_callback (Some "S"%string)
    (concat (map fragment_bytes ([capability_first] ++ [capability_last]))) None PSRP.init
  = (add_delivery
       {| d_shell := Some "S"%string; d_object_id := 7;
          d_message := concat (map snd ([capability_first] ++ [capability_last]));
          d_command_id := None |}
       (with_objs ShellBufs (Some "S"%string) (objs_of ShellBufs (Some "S"%string) PSRP.init)
          PSRP.init), Ok tt).
Proof.
  apply (zero_id_fragments_are_concatenated wired_callback "S" 7 None
           [capability_first] capability_last PSRP.init).
  - repeat constructor.
  - repeat constructor.
  - repeat constructor.
  - reflexivity.
  - reflexivity.
  - reflexivity.
Defined.

(** X7. One call with two fragment streams, the first made of complete
    fragments, is the same as two calls, one per stream (the second call
    being skipped when the first raises). *)
Theorem new_fragment_data_of_concatenation
    (cb : Callback) (shell_id command_id : Ident) (frs : list (bytes * bytes)) (rest : bytes)
    (st : PSRPDefragmenter) :
  Forall complete_fragment frs ->
  new_fragment_data cb shell_id (concat (map fragment_bytes frs) ++ rest) command_id st
  = (new_fragment_data cb shell_id (concat (map fragment_bytes frs)) command_id ;;;
     new_fragment_data cb shell_id rest command_id) st.
Proof.
  intros Hfrs. unfold new_fragment_data.
  rewrite (new_fragment_data_complete_app shell_id has_shell new_shell ShellBufs
             (completed_psrp_callback cb) command_id frs rest Hfrs st).
  unfold Py.bind.
  rewrite (new_fragment_data_complete shell_id has_shell new_shell ShellBufs
             (completed_psrp_callback cb) command_id frs Hfrs st).
  reflexivity.
Qed.

Lemma new_fragment_data_of_concatenation_witness :
  new_fragment_data (fun _ _ => None) (Some "S"%string)
    (concat (map fragment_bytes [zero_id_first]) ++ fragment_bytes zero_id_last) None PSRP.init
  = (new_fragment_data (fun _ _ => None) (Some "S"%string)
       (concat (map fragment_bytes [zero_id_first])) None ;;;
     new_fragment_data (fun _ _ => None) (Some "S"%string) (fragment_bytes zero_id_last) None)
      PSRP.init.
Proof.
  apply (new_fragment_data_of_concatenation (fun _ _ => None) (Some "S"%string) None
           [zero_id_first] (fragment_bytes zero_id_last) PSRP.init).
  repeat constructor.
Defined.

(** X8. Fragment data for the shell id [None], which [new_shell] refuses
    to register, raises [KeyError] at the first fragment and changes
    nothing. *)
Theorem new_fragment_data_without_shell_id
    (cb : Callback) (data : bytes) (command_id : Ident) (st : PSRPDefragmenter) :
  shell_bufs st !! None = None ->
  (FRAG_HEADER_LEN <= length data)%nat ->
  new_fragment_data cb None data command_id st = (st, Raise KeyError).
Proof.
  intros Hnone Hlen. unfold new_fragment_data.
  rewrite <- (take_drop FRAG_HEADER_LEN data).
  rewrite (new_fragment_data_cons None has_shell new_shell ShellBufs (completed_psrp_callback cb)
             command_id (take FRAG_HEADER_LEN data) (drop FRAG_HEADER_LEN data) st)
    by (rewrite length_take; lia).
  unfold Py.bind, append_parsed. cbn [fst snd].
  destruct (fields_qqbI (take FRAG_HEADER_LEN data)) as [[[oid fid] e_s] len].
  pose proof (append_via_untracked_None (ShellPath cb) oid fid (_start_bit_set e_s)
                (_end_bit_set e_s)
                (take (hdr_length (take FRAG_HEADER_LEN data)) (drop FRAG_HEADER_LEN data))
                command_id st Hnone) as Ha.
  unfold append_via in Ha. cbn [path_has path_new path_bufs path_callback] in Ha.
  rewrite Ha. reflexivity.
Qed.

Lemma new_fragment_data_without_shell_id_witness :
  new_fragment_data (fun _ _ => None) None (fragment_bytes zero_id_last) None PSRP.init
  = (PSRP.init, Raise KeyError).
Proof.
  apply (new_fragment_data_without_shell_id (fun _ _ => None) (fragment_bytes zero_id_last)
           None PSRP.init).
  - reflexivity.
  - vm_compute. lia.
Defined.

(** ** Edge cases of the PSRP defragmenter *)

Lemma preserves_feed_via (P : PSRPDefragmenter -> Prop) p identifier data cid :
  (forall oid fid s_flag e_flag frag,
      preserves P (append_via p identifier oid fid s_flag e_flag frag cid)) ->
  preserves P (feed_via p identifier data cid).
Proof.
  intros Happ.
  unfold feed_via, _new_fragment_data. generalize (length data) at 1 as fuel. generalize 0%nat as off.
  intros off fuel. revert off.
  induction fuel as [|fuel IH]; intros off; cbn [_new_fragment_data_loop].
  - destruct (off <? length data)%nat; apply preserves_ret.
  - destruct (off <? length data)%nat; [|apply preserves_ret].
    apply preserves_bind.
    + intros st Hst. unfold unpack_qqbI.
      destruct (length (slice off (off + FRAG_HEADER_LEN) data) =? 21)%nat; exact Hst.
    + intros [[[oid fid] e_s] len]. apply preserves_bind.
      * exact (Happ oid fid (_start_bit_set e_s) (_end_bit_set e_s) _).
      * intros _. apply IH.
Qed.

Lemma known_side_with_objs_pending identifier objs st :
  known_side (with_objs PendingShellBufs identifier objs st) = known_side st.
Proof. reflexivity. Qed.

Lemma known_side_append_tracked_pending identifier objs oid fid e_flag data cid st :
  known_side (fst (append_tracked PendingPath identifier objs oid fid e_flag data cid st))
  = known_side st.
Proof.
  unfold append_tracked. cbv zeta.
  destruct (_ =? fid); [destruct e_flag|]; reflexivity.
Qed.

(** X9. Data fed for a pending shell never reaches the completion
    callback and never touches the buffers of the known shells, whatever
    the bytes are and however the call ends. *)
Theorem pending_shell_data_is_never_delivered
    (message_id : Ident) (fragment_data : bytes) (command_id : Ident) (st : PSRPDefragmenter) :
  let st' := fst (new_fragment_data_pending_shell message_id fragment_data command_id st) in
  delivered st' = delivered st /\ shell_bufs st' = shell_bufs st.
Proof.
  intros st'. subst st'.
  assert (H : known_side (fst (feed_via PendingPath message_id fragment_data command_id st))
              = known_side st).
  { apply (preserves_feed_via (fun t => known_side t = known_side st)); [|reflexivity].
    intros oid fid s_flag e_flag frag t Ht.
    destruct (bufs_of (path_bufs PendingPath) t !! message_id) as [objs|] eqn:Hobjs.
    - rewrite (append_via_tracked PendingPath message_id objs _ _ _ _ _ _ t Hobjs).
      rewrite known_side_append_tracked_pending. exact Ht.
    - destruct message_id as [i|].
      + rewrite (append_via_untracked PendingPath i _ _ _ _ _ _ t Hobjs).
        rewrite known_side_append_tracked_pending. exact Ht.
      + rewrite (append_via_untracked_None PendingPath _ _ _ _ _ _ t Hobjs). exact Ht. }
  unfold known_side in H. injection H as Hd Hs. split; assumption.
Qed.

(** X10. Promoting a pending shell for which no message was stashed
    raises [KeyError] at the final [pop]: by then the buffers have been
    moved to the shell and the pending entry is gone, and nothing was
    delivered. *)
Theorem promotion_without_stash_raises
    (cb : Callback) (message_id shell_id : Ident) (objs : gmap Z ObjBuf) (st : PSRPDefragmenter) :
  pending_shell_bufs st !! message_id = Some objs ->
  pending_shell_completed_messages st !! message_id = None ->
  shell_bufs st !! shell_id = None ->
  set_pending_shell_id cb message_id shell_id st
  = (moved message_id shell_id objs st, Raise KeyError).
Proof.
  intros Hp Hs Hsh. rewrite set_pending_shell_id_unfold, Hp.
  unfold Py.bind, modify, gets, getitem, contains, raise, ret. cbn [fst snd].
  cbn [shell_bufs set_pending_shell_bufs pending_shell_completed_messages set_shell_bufs].
  rewrite Hsh.
  cbn [pending_shell_completed_messages set_shell_bufs set_pending_shell_bufs]. rewrite Hs.
  change (pending_shell_completed_messages
            (set_shell_bufs (<[shell_id:=objs]> (shell_bufs st))
               (set_pending_shell_bufs (delete message_id (pending_shell_bufs st)) st)))
    with (pending_shell_completed_messages st).
  rewrite Hs. reflexivity.
Qed.

Lemma promotion_without_stash_raises_witness :
  snd (set_pending_shell_id (fun _ _ => None) (Some "M"%string) (Some "S"%string)
         (fst (new_pending_shell (Some "M"%string) PSRP.init)))
  = Raise KeyError.
Proof.
  rewrite (promotion_without_stash_raises (fun _ _ => None) (Some "M"%string) (Some "S"%string) ∅
             (fst (new_pending_shell (Some "M"%string) PSRP.init))).
  - reflexivity.
  - vm_compute. reflexivity.
  - vm_compute. reflexivity.
  - vm_compute. reflexivity.
Defined.

(** X11. When the completion callback raises on the first stashed
    message, promotion stops there: the exception propagates, the other
    stashed messages are not delivered, and the whole stash, the first
    message included, stays under the message id of the pending shell,
    whose buffers are already gone from the pending dictionary. *)
Theorem promotion_interrupted_by_callback
    (cb : Callback) (message_id shell_id : Ident) (objs : gmap Z ObjBuf)
    (entry : Z * bytes * Ident) (rest : list (Z * bytes * Ident)) (e : exn)
    (st : PSRPDefragmenter) :
  pending_shell_bufs st !! message_id = Some objs ->
  pending_shell_completed_messages st !! message_id = Some (entry :: rest) ->
  cb (delivered st) (relabel shell_id entry) = Some e ->
  let r := set_pending_shell_id cb message_id shell_id st in
  snd r = Raise e
  /\ delivered (fst r) = delivered st ++ [relabel shell_id entry]
  /\ pending_shell_completed_messages (fst r) = pending_shell_completed_messages st
  /\ pending_shell_bufs (fst r) = delete message_id (pending_shell_bufs st).
Proof.
  intros Hp Hs Hcb r. subst r. rewrite set_pending_shell_id_unfold, Hp.
  destruct entry as [[oid msg] cid]. cbn [relabel] in *.
  unfold Py.bind, modify, gets, getitem, contains, raise, ret. cbn [fst snd].
  set (st1 := if match shell_bufs (set_pending_shell_bufs _ st) !! shell_id with
                 | Some _ => true | None => false end
              then set_pending_shell_bufs (delete message_id (pending_shell_bufs st)) st
              else set_shell_bufs _ (set_pending_shell_bufs _ st)).
  assert (H1 : pending_shell_completed_messages st1 = pending_shell_completed_messages st
               /\ delivered st1 = delivered st
               /\ pending_shell_bufs st1 = delete message_id (pending_shell_bufs st)).
  { subst st1. destruct (shell_bufs _ !! shell_id); repeat split; reflexivity. }
  destruct H1 as (Hst & Hd & Hpb). clearbody st1. rewrite Hst, Hs.
  cbn [default from_option id for_each]. unfold Py.bind, completed_psrp_callback.
  unfold Py.bind, modify, gets, ret, raise. cbn [fst snd]. rewrite Hd, Hcb.
  cbn [fst snd delivered pending_shell_completed_messages pending_shell_bufs].
  repeat split; assumption.
Qed.

Lemma promotion_interrupted_by_callback_witness :
  snd (set_pending_shell_id (fun _ _ => Some ValueError) (Some "M"%string) (Some "S"%string)
         (stash_message (Some "M"%string) (7, [Byte.x01], None)
            (fst (new_pending_shell (Some "M"%string) PSRP.init))))
  = Raise ValueError.
Proof.
  destruct (promotion_interrupted_by_callback (fun _ _ => Some ValueError)
              (Some "M"%string) (Some "S"%string) ∅ (7, [Byte.x01], None) [] ValueError
              (stash_message (Some "M"%string) (7, [Byte.x01], None)
                 (fst (new_pending_shell (Some "M"%string) PSRP.init))))
    as (Hr & _).
  - vm_compute. reflexivity.
  - vm_compute. reflexivity.
  - reflexivity.
  - exact Hr.
Defined.

(** X12. Promoting a message id that has no pending shell only
    registers the shell: the call returns normally, nothing is
    delivered, and messages stashed under that message id stay stashed. *)
Theorem promotion_of_unknown_message_id
    (cb : Callback) (message_id : Ident) (s : string) (st : PSRPDefragmenter) :
  pending_shell_bufs st !! message_id = None ->
  set_pending_shell_id cb message_id (Some s) st
  = (with_objs ShellBufs (Some s) (objs_of ShellBufs (Some s) st) st, Ok tt).
Proof.
  intros Hp. rewrite set_pending_shell_id_unfold, Hp.
  unfold new_shell, modify, contains, objs_of, with_objs. cbn [bufs_of set_bufs].
  destruct (shell_bufs st !! Some s) as [objs|] eqn:Hs; cbn [default from_option id].
  - rewrite insert_id by exact Hs. destruct st; reflexivity.
  - reflexivity.
Qed.

Lemma promotion_of_unknown_message_id_witness :
  set_pending_shell_id (fun _ _ => None) (Some "M"%string) (Some "S"%string) PSRP.init
  = (with_objs ShellBufs (Some "S"%string) (objs_of ShellBufs (Some "S"%string) PSRP.init)
       PSRP.init, Ok tt).
Proof.
  apply (promotion_of_unknown_message_id (fun _ _ => None) (Some "M"%string) "S" PSRP.init).
  reflexivity.
Defined.

(** X13. [delete_shell] forgets the partial data of the shell but not
    the shell for good: the next fragment for it is handled exactly as
    for a shell that is tracked with no buffer at all. *)
Theorem fragment_after_delete_shell
    (cb : Callback) (s : string) (oid fid len : Z) (s_flag e_flag : bool) (data : bytes)
    (st : PSRPDefragmenter) :
  new_fragment cb (Some s) oid fid s_flag e_flag len data (fst (delete_shell (Some s) st))
  = new_fragment cb (Some s) oid fid s_flag e_flag len data (with_objs ShellBufs (Some s) ∅ st).
Proof.
  rewrite !new_fragment_via, !append_via_Some. cbn [path_bufs].
  rewrite objs_of_with_objs.
  assert (Hobjs : objs_of ShellBufs (Some s) (fst (delete_shell (Some s) st)) = ∅).
  { unfold objs_of, delete_shell, modify, contains. cbn [fst bufs_of].
    destruct (shell_bufs st !! Some s) eqn:Hs.
    - cbn [shell_bufs set_shell_bufs]. rewrite lookup_delete_eq. reflexivity.
    - rewrite Hs. reflexivity. }
  rewrite Hobjs.
  assert (Hw : forall o t t',
             delivered t = delivered t' ->
             pending_shell_bufs t = pending_shell_bufs t' ->
             pending_shell_completed_messages t = pending_shell_completed_messages t' ->
             <[Some s := o]> (shell_bufs t) = <[Some s := o]> (shell_bufs t') ->
             with_objs ShellBufs (Some s) o t = with_objs ShellBufs (Some s) o t').
  { intros o t t' Hd Hpb Hst Hsb. unfold with_objs, set_bufs, bufs_of, set_shell_bufs.
    rewrite Hd, Hpb, Hst, Hsb. reflexivity. }
  assert (Hsb : forall o,
             <[Some s := o]> (shell_bufs (fst (delete_shell (Some s) st)))
             = <[Some s := o]> (shell_bufs (with_objs ShellBufs (Some s) ∅ st))).
  { intros o. unfold delete_shell, modify, contains, with_objs. cbn [fst set_bufs bufs_of].
    destruct (shell_bufs st !! Some s) eqn:Hs.
    - cbn [shell_bufs set_shell_bufs]. rewrite insert_delete_eq, insert_insert_eq. reflexivity.
    - cbn [shell_bufs set_shell_bufs]. rewrite insert_insert_eq. reflexivity. }
  assert (Hrest : delivered (fst (delete_shell (Some s) st)) = delivered st
                  /\ pending_shell_bufs (fst (delete_shell (Some s) st)) = pending_shell_bufs st
                  /\ pending_shell_completed_messages (fst (delete_shell (Some s) st))
                     = pending_shell_completed_messages st).
  { unfold delete_shell, modify. cbn [fst].
    destruct (contains (shell_bufs st) (Some s)); repeat split; reflexivity. }
  destruct Hrest as (Hd & Hpb & Hst).
  set (t := fst (delete_shell (Some s) st)) in *. clearbody t.
  unfold append_tracked. cbv zeta. cbn [path_bufs].
  destruct (_ =? fid).
  - destruct e_flag.
    + cbn [deliver]. rewrite Hd.
      change (delivered (with_objs ShellBufs (Some s) ∅ st)) with (delivered st).
      destruct (cb (delivered st) _); f_equal; apply Hw; cbn; rewrite ?Hd, ?Hpb, ?Hst;
        try reflexivity; apply Hsb.
    + f_equal. apply Hw; try assumption. apply Hsb.
  - f_equal. apply Hw; try assumption. apply Hsb.
Qed.

Lemma flag_bits_of_byte (b : Byte.byte) :
  _end_bit_set (to_signed 1 (byte_val b)) = Z.testbit (byte_val b) 1
  /\ _start_bit_set (to_signed 1 (byte_val b)) = Z.testbit (byte_val b) 0.
Proof. destruct b; vm_compute; split; reflexivity. Qed.

(** X14. The end and start flags of a fragment are bits 1 and 0 of the
    seventeenth byte of its header, whatever the other bits of that byte
    and although the byte is unpacked as a signed value. *)
Theorem flags_are_bits_of_the_flag_byte (pre suf : bytes) (b : Byte.byte) :
  length pre = 16%nat ->
  _end_bit_set (hdr_flags (pre ++ b :: suf)) = Z.testbit (byte_val b) 1
  /\ _start_bit_set (hdr_flags (pre ++ b :: suf)) = Z.testbit (byte_val b) 0.
Proof.
  intros Hpre. unfold hdr_flags, fields_qqbI. cbn [fst snd].
  assert (Hs : slice 16 17 (pre ++ b :: suf) = [b]).
  { unfold slice. rewrite (drop_app_length' pre (b :: suf) 16 (eq_sym Hpre)). reflexivity. }
  rewrite Hs. change (be_unsigned [b]) with (0 * 256 + byte_val b).
  rewrite Z.mul_0_l, Z.add_0_l. apply flag_bits_of_byte.
Qed.

Lemma flags_are_bits_of_the_flag_byte_witness :
  _end_bit_set (hdr_flags (repeat Byte.x00 16 ++ Byte.xfe :: repeat Byte.x00 4))
  = Z.testbit (byte_val Byte.xfe) 1
  /\ _start_bit_set (hdr_flags (repeat Byte.x00 16 ++ Byte.xfe :: repeat Byte.x00 4))
     = Z.testbit (byte_val Byte.xfe) 0.
Proof.
  apply (flags_are_bits_of_the_flag_byte (repeat Byte.x00 16) (repeat Byte.x00 4) Byte.xfe).
  reflexivity.
Defined.

(** ** The parser *)

Lemma length_slice {A} (a b : nat) (s : list A) :
  length (slice a b s) = Nat.min (b - a) (length s - a).
Proof. unfold slice. rewrite length_take, length_drop. reflexivity. Qed.

(** X15. A completed message of fewer than 40 bytes is refused before
    the callback is called: with [struct.error] when it has fewer than 8
    bytes, with [ValueError] (from the UUID constructor) otherwise. *)
Theorem short_message_is_refused
    (decode_utf8_sig : bytes -> option string) (callback : PSRPMessage -> option exn)
    (shell_id : Ident) (object_id : Z) (message : bytes) (command_id : Ident) (log : ParserLog) :
  (length message < 40)%nat ->
  new_psrp_message decode_utf8_sig callback shell_id object_id message command_id log
  = (log, Raise (if (length message <? 8)%nat then StructError else ValueError)).
Proof.
  intros Hlen. unfold new_psrp_message, Py.bind, unpack_II, uuid_bytes_le.
  rewrite !length_slice.
  destruct (length message <? 8)%nat eqn:H8.
  - apply Nat.ltb_lt in H8.
    replace (Nat.min (8 - 0) (length message - 0) =? 8)%nat with false
      by (symmetry; apply Nat.eqb_neq; lia).
    reflexivity.
  - apply Nat.ltb_ge in H8.
    replace (Nat.min (8 - 0) (length message - 0) =? 8)%nat with true
      by (symmetry; apply Nat.eqb_eq; lia).
    cbn [ret fst snd].
    destruct (Nat.min (24 - 8) (length message - 8) =? 16)%nat eqn:H24; [|reflexivity].
    apply Nat.eqb_eq in H24.
    replace (Nat.min (40 - 24) (length message - 24) =? 16)%nat with false
      by (symmetry; apply Nat.eqb_neq; lia).
    reflexivity.
Qed.

Lemma short_message_is_refused_witness :
  new_psrp_message (fun _ => Some ""%string) (fun _ => None) (Some "S"%string) 7
    (repeat Byte.x00 39) None []
  = ([], Raise ValueError).
Proof.
  apply (short_message_is_refused (fun _ => Some ""%string) (fun _ => None) (Some "S"%string) 7
           (repeat Byte.x00 39) None []).
  vm_compute. lia.
Defined.

(** X16. A message of at least 40 bytes whose type is in the registry
    and whose body decodes reaches the callback exactly once, with the
    destination and the type read little-endian from bytes 0-3 and 4-7,
    the two identifiers being bytes 8-23 and 24-39 and the data the
    decoded rest; the call ends as the callback does. *)
Theorem well_formed_message_reaches_callback
    (decode_utf8_sig : bytes -> option string) (callback : PSRPMessage -> option exn)
    (shell_id : Ident) (object_id : Z) (message : bytes) (command_id : Ident) (log : ParserLog)
    (d name : string) :
  (40 <= length message)%nat ->
  decode_utf8_sig (drop 40 message) = Some d ->
  msg_types_lookup MSG_TYPES (le_unsigned (slice 4 8 message)) = Some name ->
  let m := {| destination := le_unsigned (slice 0 4 message);
              message_type := le_unsigned (slice 4 8 message);
              rpid := slice 8 24 message;
              pipeline_id := slice 24 40 message;
              data := d |} in
  new_psrp_message decode_utf8_sig callback shell_id object_id message command_id log
  = (log ++ [m], match callback m with None => Ok tt | Some e => Raise e end).
Proof.
  intros Hlen Hdec Hty m. subst m.
  unfold new_psrp_message, Py.bind, unpack_II, uuid_bytes_le.
  rewrite !length_slice.
  replace (Nat.min (8 - 0) (length message - 0) =? 8)%nat with true
    by (symmetry; apply Nat.eqb_eq; lia).
  replace (Nat.min (24 - 8) (length message - 8) =? 16)%nat with true
    by (symmetry; apply Nat.eqb_eq; lia).
  replace (Nat.min (40 - 24) (length message - 24) =? 16)%nat with true
    by (symmetry; apply Nat.eqb_eq; lia).
  cbn [ret fst snd]. rewrite Hdec. cbn [ret fst snd].
  assert (H04 : slice 0 4 (slice 0 8 message) = slice 0 4 message).
  { unfold slice. rewrite !drop_0. change (4 - 0)%nat with 4%nat. change (8 - 0)%nat with 8%nat.
    rewrite take_take. reflexivity. }
  assert (H48 : slice 4 8 (slice 0 8 message) = slice 4 8 message).
  { unfold slice. rewrite !drop_0. change (8 - 4)%nat with 4%nat. change (8 - 0)%nat with 8%nat.
    rewrite !take_drop_commute. change (4 + 4)%nat with 8%nat.
    rewrite take_take. reflexivity. }
  rewrite H04, H48.
  unfold _msg_type_name. rewrite Hty. cbn [ret fst snd].
  unfold call_callback, Py.bind, modify. cbn [fst snd].
  destruct (callback _); reflexivity.
Qed.

Lemma well_formed_message_reaches_callback_witness :
  fst (new_psrp_message (fun _ => Some ""%string) (fun _ => None) (Some "S"%string) 7
         session_capability_message None [])
  = [ {| destination := 0; message_type := 0x00010002;
         rpid := repeat Byte.x00 16; pipeline_id := repeat Byte.x00 16; data := ""%string |} ].
Proof.
  rewrite (well_formed_message_reaches_callback (fun _ => Some ""%string) (fun _ => None)
             (Some "S"%string) 7 session_capability_message None [] ""%string
             "SESSION_CAPABILITY"%string).
  - reflexivity.
  - vm_compute. lia.
  - reflexivity.
  - reflexivity.
Defined.

(** ** [deserialize_string] *)

Lemma re_sub_escapes_cons_ne (c0 : Z) (t : ustr) :
  c0 <> 95 -> re_sub_escapes (c0 :: t) = cons_outcome c0 (re_sub_escapes t).
Proof.
  intros Hc. apply Z.eqb_neq in Hc.
  destruct t as [|c1 [|h1 [|h2 [|h3 [|h4 [|c6 rest]]]]]]; try reflexivity.
  change (re_sub_escapes (c0 :: c1 :: h1 :: h2 :: h3 :: h4 :: c6 :: rest))
    with (if escape_matches c0 c1 h1 h2 h3 h4 c6 then
            match decode_utf16be_unit (fromhex4 h1 h2 h3 h4) with
            | Some ch => cons_outcome ch (re_sub_escapes rest)
            | None => Raise UnicodeDecodeError
            end
          else cons_outcome c0 (re_sub_escapes (c1 :: h1 :: h2 :: h3 :: h4 :: c6 :: rest))).
  unfold escape_matches. rewrite Hc. reflexivity.
Qed.

Lemma re_sub_escapes_escape (h1 h2 h3 h4 : Z) (post : ustr) :
  is_hex_digit h1 = true -> is_hex_digit h2 = true -> is_hex_digit h3 = true ->
  is_hex_digit h4 = true ->
  re_sub_escapes (escape_of h1 h2 h3 h4 ++ post)
  = match decode_utf16be_unit (fromhex4 h1 h2 h3 h4) with
    | Some ch => cons_outcome ch (re_sub_escapes post)
    | None => Raise UnicodeDecodeError
    end.
Proof.
  intros H1 H2 H3 H4. unfold escape_of. cbn [app].
  change (re_sub_escapes (95 :: 120 :: h1 :: h2 :: h3 :: h4 :: 95 :: post))
    with (if escape_matches 95 120 h1 h2 h3 h4 95 then
            match decode_utf16be_unit (fromhex4 h1 h2 h3 h4) with
            | Some ch => cons_outcome ch (re_sub_escapes post)
            | None => Raise UnicodeDecodeError
            end
          else cons_outcome 95 (re_sub_escapes (120 :: h1 :: h2 :: h3 :: h4 :: 95 :: post))).
  unfold escape_matches. rewrite H1, H2, H3, H4. reflexivity.
Qed.

Lemma re_sub_escapes_prefix (pre s : ustr) :
  no_underscore pre -> re_sub_escapes (pre ++ s) = prepend pre (re_sub_escapes s).
Proof.
  intros Hpre. induction Hpre as [|c pre Hc Hpre IH]; cbn [app].
  - destruct (re_sub_escapes s); reflexivity.
  - rewrite re_sub_escapes_cons_ne by exact Hc. rewrite IH.
    destruct (re_sub_escapes s); reflexivity.
Qed.

(** X17. Text without an underscore is returned as it is. *)
Theorem plain_text_is_unchanged (html_unescape : ustr -> ustr) (s : ustr) :
  no_underscore s -> deserialize_string html_unescape s false = Ok s.
Proof.
  intros Hs. unfold deserialize_string.
  rewrite <- (app_nil_r s) at 1. rewrite re_sub_escapes_prefix by exact Hs.
  cbn [re_sub_escapes prepend]. rewrite app_nil_r. reflexivity.
Qed.

Lemma plain_text_is_unchanged_witness :
  deserialize_string (fun s => s) [71; 101; 116] false = Ok [71; 101; 116].
Proof.
  apply (plain_text_is_unchanged (fun s => s) [71; 101; 116]).
  repeat constructor; discriminate.
Defined.

(** X18. An escape [_xHHHH_] that follows text without underscore and
    names a code unit outside the surrogates becomes the one character
    with that code; the text before it is kept and the text after it is
    deserialized on its own, the underscore that closes the escape not
    being read again. *)
Theorem escape_is_decoded
    (html_unescape : ustr -> ustr) (pre post : ustr) (h1 h2 h3 h4 : Z) :
  no_underscore pre ->
  is_hex_digit h1 = true -> is_hex_digit h2 = true -> is_hex_digit h3 = true ->
  is_hex_digit h4 = true ->
  ~ (0xD800 <= fromhex4 h1 h2 h3 h4 <= 0xDFFF) ->
  deserialize_string html_unescape (pre ++ escape_of h1 h2 h3 h4 ++ post) false
  = prepend (pre ++ [fromhex4 h1 h2 h3 h4]) (deserialize_string html_unescape post false).
Proof.
  intros Hpre H1 H2 H3 H4 Hu. unfold deserialize_string.
  rewrite re_sub_escapes_prefix by exact Hpre.
  rewrite re_sub_escapes_escape by assumption.
  unfold decode_utf16be_unit.
  replace ((0xD800 <=? fromhex4 h1 h2 h3 h4) && (fromhex4 h1 h2 h3 h4 <=? 0xDFFF)) with false
    by (symmetry; apply andb_false_iff;
        destruct (Z.leb_spec 0xD800 (fromhex4 h1 h2 h3 h4)); [right; apply Z.leb_gt; lia|left; reflexivity]).
  destruct (re_sub_escapes post) as [r|e]; cbn [cons_outcome prepend]; [|reflexivity].
  rewrite <- app_assoc. reflexivity.
Qed.

Lemma escape_is_decoded_witness :
  deserialize_string (fun s => s) ([97] ++ escape_of 48 48 48 65 ++ [120; 48; 48; 48; 66; 95])
    false
  = Ok [97; 10; 120; 48; 48; 48; 66; 95].
Proof.
  rewrite (escape_is_decoded (fun s => s) [97] [120; 48; 48; 48; 66; 95] 48 48 48 65).
  - reflexivity.
  - repeat constructor; discriminate.
  - reflexivity.
  - reflexivity.
  - reflexivity.
  - reflexivity.
  - vm_compute. intros [H _]. apply H. reflexivity.
Defined.

(** X19. An escape that names a surrogate code unit, D800 to DFFF,
    makes the whole call raise [UnicodeDecodeError], whatever follows it
    and whether HTML decoding was asked for or not. *)
Theorem surrogate_escape_raises
    (html_unescape : ustr -> ustr) (pre post : ustr) (h1 h2 h3 h4 : Z) (htmldecode : bool) :
  no_underscore pre ->
  is_hex_digit h1 = true -> is_hex_digit h2 = true -> is_hex_digit h3 = true ->
  is_hex_digit h4 = true ->
  0xD800 <= fromhex4 h1 h2 h3 h4 <= 0xDFFF ->
  deserialize_string html_unescape (pre ++ escape_of h1 h2 h3 h4 ++ post) htmldecode
  = Raise UnicodeDecodeError.
Proof.
  intros Hpre H1 H2 H3 H4 [Hlo Hhi]. unfold deserialize_string.
  rewrite re_sub_escapes_prefix by exact Hpre.
  rewrite re_sub_escapes_escape by assumption.
  unfold decode_utf16be_unit.
  apply Z.leb_le in Hlo. apply Z.leb_le in Hhi. rewrite Hlo, Hhi. reflexivity.
Qed.

Lemma surrogate_escape_raises_witness :
  deserialize_string (fun s => s) ([] ++ escape_of 68 56 51 68 ++ escape_of 68 69 48 48) true
  = Raise UnicodeDecodeError.
Proof.
  apply (surrogate_escape_raises (fun s => s) [] (escape_of 68 69 48 48) 68 56 51 68 true).
  - constructor.
  - reflexivity.
  - reflexivity.
  - reflexivity.
  - reflexivity.
  - vm_compute. split; discriminate.
Defined.

Lemma re_sub_escapes_length (n : nat) :
  forall s : ustr, (length s <= n)%nat -> result_length_le (re_sub_escapes s) (length s).
Proof.
  induction n as [|n IH]; intros s Hs.
  - destruct s; [exact (le_n 0)|cbn in Hs; lia].
  - destruct s as [|c0 t]; [exact (le_n 0)|].
    cbn [length] in Hs.
    assert (Ht : result_length_le (re_sub_escapes t) (length t)) by (apply IH; lia).
    assert (Hcons : result_length_le (cons_outcome c0 (re_sub_escapes t)) (length (c0 :: t))).
    { destruct (re_sub_escapes t); cbn in *; [lia|exact I]. }
    destruct t as [|c1 [|h1 [|h2 [|h3 [|h4 [|c6 rest]]]]]]; try exact Hcons.
    change (re_sub_escapes (c0 :: c1 :: h1 :: h2 :: h3 :: h4 :: c6 :: rest))
      with (if escape_matches c0 c1 h1 h2 h3 h4 c6 then
              match decode_utf16be_unit (fromhex4 h1 h2 h3 h4) with
              | Some ch => cons_outcome ch (re_sub_escapes rest)
              | None => Raise UnicodeDecodeError
              end
            else cons_outcome c0 (re_sub_escapes (c1 :: h1 :: h2 :: h3 :: h4 :: c6 :: rest))).
    destruct (escape_matches c0 c1 h1 h2 h3 h4 c6); [|exact Hcons].
    destruct (decode_utf16be_unit (fromhex4 h1 h2 h3 h4)); [|exact I].
    assert (Hr : result_length_le (re_sub_escapes rest) (length rest))
      by (apply IH; cbn [length] in Hs; lia).
    destruct (re_sub_escapes rest); cbn in *; [lia|exact I].
Qed.

(** X20. Without HTML decoding the result is never longer than the
    input: an escape of seven characters is replaced by one character
    and nothing else is changed. *)
Theorem deserialized_is_not_longer
    (html_unescape : ustr -> ustr) (serialized deserialized : ustr) :
  deserialize_string html_unescape serialized false = Ok deserialized ->
  (length deserialized <= length serialized)%nat.
Proof.
  intros H. unfold deserialize_string in H.
  pose proof (re_sub_escapes_length (length serialized) serialized (le_n _)) as Hl.
  destruct (re_sub_escapes serialized) as [r|e]; [|discriminate].
  injection H as <-. exact Hl.
Qed.

Lemma deserialized_is_not_longer_witness :
  (length [10] <= length (escape_of 48 48 48 65))%nat.
Proof.
  apply (deserialized_is_not_longer (fun s => s) (escape_of 48 48 48 65) [10]).
  reflexivity.
Defined.

(** ** More on the XPRESS stream framing *)

Section XpressBlocks.
Context {S : Type}.
Variable f : bytes -> Z -> Z -> Z * bytes.
Variable rest : bytes.
Variable K : bytes -> S -> S * outcome bytes.
Hypothesis rest_done :
  forall (fuel : nat) (acc : bytes) (s : S),
    (length rest <= fuel)%nat -> _decompress_stream_data_loop fuel f rest acc s = K acc s.

Lemma decompress_loop_blocks (blocks : list (bytes * bytes)) :
  Forall sized_block blocks ->
  forall (fuel : nat) (acc : bytes) (s : S),
    (length (concat (map block_bytes blocks) ++ rest) <= fuel)%nat ->
    _decompress_stream_data_loop fuel f (concat (map block_bytes blocks) ++ rest) acc s
    = K (acc ++ concat (map (block_output f) blocks)) s.
Proof.
  induction 1 as [|[h body] blocks [Hlen Hc] _ IH]; intros fuel acc s Hfuel.
  - cbn [map concat app] in *. rewrite app_nil_r. apply rest_done. exact Hfuel.
  - cbn [fst snd] in Hlen, Hc.
    change (concat (map block_bytes ((h, body) :: blocks)))
      with ((h ++ body) ++ concat (map block_bytes blocks)) in *.
    rewrite !length_app in Hfuel.
    destruct fuel as [|fuel]; [lia|].
    rewrite <- !app_assoc.
    destruct h as [|b0 h']; [discriminate Hlen|].
    cbn [app _decompress_stream_data_loop].
    change (b0 :: h' ++ body ++ concat (map block_bytes blocks) ++ rest)
      with ((b0 :: h') ++ body ++ concat (map block_bytes blocks) ++ rest).
    rewrite slice_0, (take_app_length' (b0 :: h') _ 4 (eq_sym Hlen)),
      (drop_app_length' (b0 :: h') _ 4 (eq_sym Hlen)).
    unfold unpack_HH. rewrite Hlen. cbn [Nat.eqb].
    unfold Py.bind at 1, Py.ret at 1. cbv beta iota.
    rewrite Hc.
    rewrite Nat2Z.id, (slice_0 (length body)), take_app_length, drop_app_length.
    rewrite IH by (rewrite length_app; simpl in Hfuel; lia).
    cbn [map concat]. unfold block_output at 2. cbn [fst snd]. rewrite Hc.
    rewrite <- app_assoc. reflexivity.
Qed.

End XpressBlocks.

(** X21. A stream made of blocks whose bodies have the declared
    compressed size decompresses to the concatenation of the blocks'
    outputs: the body itself for a block whose two sizes agree, the
    output buffer of the decompressor otherwise, even when the
    decompressor reports a failure. *)
Theorem xpress_stream_is_decoded_block_by_block
    (S : Type) (ext : Extern) (f : bytes -> Z -> Z -> Z * bytes)
    (blocks : list (bytes * bytes)) (s : S) :
  libwim ext = Some f ->
  Forall sized_block blocks ->
  _decompress_stream_data ext (concat (map block_bytes blocks)) s
  = (s, Ok (concat (map (block_output f) blocks))).
Proof.
  intros Hlib Hblocks. unfold _decompress_stream_data. rewrite Hlib.
  rewrite <- (app_nil_r (concat (map block_bytes blocks))) at 2.
  rewrite (decompress_loop_blocks f [] (fun acc s => (s, Ok acc))).
  - reflexivity.
  - intros fuel acc s' _. destruct fuel; reflexivity.
  - exact Hblocks.
  - rewrite app_nil_r. lia.
Qed.

Lemma xpress_stream_is_decoded_block_by_block_witness :
  _decompress_stream_data (extern_with failing_decompressor)
    (concat (map block_bytes compressed_then_stored)) tt
  = (tt, Ok (concat (map (block_output failing_decompressor) compressed_then_stored))).
Proof.
  apply (xpress_stream_is_decoded_block_by_block unit (extern_with failing_decompressor)
           failing_decompressor compressed_then_stored tt).
  - reflexivity.
  - repeat constructor.
Defined.



(** ** More on SOAP chunk defragmentation *)

Lemma string_app_assoc (a b c : string) : ((a ++ b) ++ c = a ++ (b ++ c))%string.
Proof.
  induction a as [|x a IH]; [reflexivity|].
  change (String x ((a ++ b) ++ c) = String x (a ++ (b ++ c)))%string. f_equal. exact IH.
Qed.

Section SoapChunks.
Variable cb : SoapDelivery -> option exn.
Variable activity_id : Ident.
Variable pid tid : Z.
Variable p0 : gmap string SoapAssembly.
Hypothesis fresh_key : p0 !! format_mkey activity_id pid tid = None.

Let mkey := format_mkey activity_id pid tid.

Lemma new_event_next_chunk (total total' last : Z) (acc doc : string) (done : list SoapDelivery) :
  last + 1 <> total ->
  new_event cb (chunk activity_id pid tid total' (last + 1) doc)
    (assembling p0 mkey total last pid tid acc done)
  = (assembling p0 mkey total (last + 1) pid tid (acc ++ doc)%string done, Ok tt).
Proof.
  intros Hne. unfold new_event, chunk, assembling. cbn [ev_ThreadId ev_ActivityId ev_ProcessId].
  fold mkey.
  unfold try_except, Py.bind, gets, modify, of_option, getitem, Py.ret, Py.raise, contains.
  cbn [partial_messages ev_index ev_totalChunks ev_SoapDocument].
  rewrite lookup_insert_eq. cbn [negb partial_messages set_partial_messages completed fst snd].
  rewrite lookup_insert_eq. cbn [last_chunk]. rewrite Z.eqb_refl.
  cbn [negb partial_messages set_partial_messages completed fst snd total_chunks last_chunk
       sa_pid sa_tid soap].
  assert (Hb : (last + 1 =? total) = false) by (apply Z.eqb_neq; exact Hne).
  rewrite Hb. cbn [fst snd]. rewrite !insert_insert_eq. reflexivity.
Qed.

Lemma new_event_last_chunk (total' last : Z) (acc doc : string) (done : list SoapDelivery) :
  cb {| sd_activity_id := activity_id; sd_pid := pid; sd_tid := tid;
        sd_soap := (acc ++ doc)%string |} = None ->
  new_event cb (chunk activity_id pid tid total' (last + 1) doc)
    (assembling p0 mkey (last + 1) last pid tid acc done)
  = ({| partial_messages := p0;
        completed := done ++ [ {| sd_activity_id := activity_id; sd_pid := pid; sd_tid := tid;
                                  sd_soap := (acc ++ doc)%string |} ] |}, Ok tt).
Proof.
  intros Hcb. unfold new_event, chunk, assembling. cbn [ev_ThreadId ev_ActivityId ev_ProcessId].
  fold mkey.
  unfold try_except, Py.bind, gets, modify, of_option, getitem, Py.ret, Py.raise, contains,
    completed_soap_callback.
  cbn [partial_messages ev_index ev_totalChunks ev_SoapDocument].
  rewrite lookup_insert_eq. cbn [negb partial_messages set_partial_messages completed fst snd].
  rewrite lookup_insert_eq. cbn [last_chunk]. rewrite Z.eqb_refl.
  cbn [negb partial_messages set_partial_messages completed fst snd total_chunks last_chunk
       sa_pid sa_tid soap].
  rewrite Z.eqb_refl. unfold Py.bind, modify. cbn [fst snd]. rewrite Hcb.
  cbn [partial_messages set_partial_messages completed fst snd].
  unfold Py.ret. cbn [partial_messages set_partial_messages completed fst snd].
  rewrite !insert_insert_eq, lookup_insert_eq.
  cbn [partial_messages set_partial_messages completed fst snd].
  rewrite delete_insert_eq, delete_id by exact fresh_key. reflexivity.
Qed.

Lemma new_event_first_chunk (total : Z) (doc : string) (done : list SoapDelivery) :
  new_event cb (chunk activity_id pid tid total 1 doc)
    {| partial_messages := p0; completed := done |}
  = new_event cb (chunk activity_id pid tid total (0 + 1) doc)
      (assembling p0 mkey total 0 pid tid ""%string done).
Proof.
  unfold new_event, chunk, assembling. cbn [ev_ThreadId ev_ActivityId ev_ProcessId].
  fold mkey.
  unfold try_except, Py.bind, gets, modify, of_option, getitem, Py.ret, Py.raise, contains.
  cbn [partial_messages ev_index ev_totalChunks ev_SoapDocument].
  fold mkey in fresh_key. rewrite fresh_key, lookup_insert_eq.
  cbn [negb partial_messages set_partial_messages completed fst snd].
  rewrite !lookup_insert_eq. cbn [last_chunk Z.add].
  cbn [negb partial_messages set_partial_messages completed fst snd total_chunks last_chunk
       sa_pid sa_tid soap].
  rewrite !insert_insert_eq. reflexivity.
Qed.

Lemma chunks_from_reassembled (docs : list string) :
  forall (last : Z) (acc : string) (doc : string) (done : list SoapDelivery) (total' : Z),
    cb {| sd_activity_id := activity_id; sd_pid := pid; sd_tid := tid;
          sd_soap := (acc ++ join (doc :: docs))%string |} = None ->
    for_each (chunks_from activity_id pid tid total' (last + 1) (doc :: docs)) (new_event cb)
      (assembling p0 mkey (last + 1 + Z.of_nat (length docs)) last pid tid acc done)
    = ({| partial_messages := p0;
          completed := done ++ [ {| sd_activity_id := activity_id; sd_pid := pid; sd_tid := tid;
                                    sd_soap := (acc ++ join (doc :: docs))%string |} ] |}, Ok tt).
Proof.
  induction docs as [|doc' docs IH]; intros last acc doc done total' Hcb.
  - cbn [chunks_from for_each length Z.of_nat]. rewrite Z.add_0_r.
    unfold Py.bind. cbn [join fold_right] in *.
    assert (Hd : (doc ++ "")%string = doc).
    { clear. induction doc as [|x d IHd]; [reflexivity|].
      change (String x (d ++ "") = String x d)%string. f_equal. exact IHd. }
    rewrite Hd in *. rewrite (new_event_last_chunk total' last acc doc done Hcb). reflexivity.
  - cbn [chunks_from for_each]. unfold Py.bind at 1.
    rewrite new_event_next_chunk by (cbn [length]; lia).
    cbn [join fold_right] in *. rewrite <- string_app_assoc in Hcb.
    replace (last + 1 + Z.of_nat (length (doc' :: docs)))
      with (last + 1 + 1 + Z.of_nat (length docs)) by (cbn [length]; lia).
    rewrite <- string_app_assoc.
    apply (IH (last + 1) (acc ++ doc)%string doc' done total'). exact Hcb.
Qed.

End SoapChunks.

(** X23. The chunks of a document, numbered from 1 and delivered in
    order for a key without an assembly, are put together again: the
    callback is called once, after the last chunk, with the
    concatenation of the chunks, and the key is free again. *)
Theorem in_order_chunks_are_reassembled
    (cb : SoapDelivery -> option exn) (activity_id : Ident) (pid tid : Z)
    (docs : list string) (st : SoapDefragmenter) :
  docs <> [] ->
  partial_messages st !! format_mkey activity_id pid tid = None ->
  cb {| sd_activity_id := activity_id; sd_pid := pid; sd_tid := tid; sd_soap := join docs |}
  = None ->
  for_each (chunks activity_id pid tid docs) (new_event cb) st
  = ({| partial_messages := partial_messages st;
        completed := completed st
                     ++ [ {| sd_activity_id := activity_id; sd_pid := pid; sd_tid := tid;
                             sd_soap := join docs |} ] |}, Ok tt).
Proof.
  intros Hdocs Hkey Hcb. destruct docs as [|doc docs]; [contradiction|].
  destruct st as [p0 done]. cbn [partial_messages completed] in *.
  unfold chunks.
  pose proof (chunks_from_reassembled cb activity_id pid tid p0 Hkey docs 0 ""%string doc done
                (Z.of_nat (length (doc :: docs)))) as H.
  cbn [String.append] in H. specialize (H Hcb).
  change (0 + 1) with 1 in H.
  cbn [chunks_from for_each] in *. unfold Py.bind at 1 in H. unfold Py.bind at 1.
  rewrite (new_event_first_chunk cb activity_id pid tid p0 Hkey).
  replace (Z.of_nat (length (doc :: docs))) with (1 + Z.of_nat (length docs))
    by (cbn [length]; lia).
  replace (Z.of_nat (length (doc :: docs))) with (1 + Z.of_nat (length docs)) in H
    by (cbn [length]; lia).
  exact H.
Qed.

Lemma in_order_chunks_are_reassembled_witness :
  for_each (chunks (Some "A"%string) 100 200 ["<a>"%string; "<b/>"%string; "</a>"%string])
    (new_event (fun _ => None)) {| partial_messages := ∅; completed := [] |}
  = ({| partial_messages := ∅;
        completed := [] ++ [ {| sd_activity_id := Some "A"%string; sd_pid := 100; sd_tid := 200;
                                sd_soap := join ["<a>"%string; "<b/>"%string; "</a>"%string] |} ] |},
     Ok tt).
Proof.
  apply (in_order_chunks_are_reassembled (fun _ => None) (Some "A"%string) 100 200
           ["<a>"%string; "<b/>"%string; "</a>"%string]
           {| partial_messages := ∅; completed := [] |}).
  - discriminate.
  - apply lookup_empty.
  - reflexivity.
Defined.

Ltac soap_step :=
  cbn [negb partial_messages set_partial_messages completed fst snd total_chunks last_chunk
       sa_pid sa_tid soap];
  rewrite ?lookup_insert_eq, ?lookup_delete_eq;
  cbn [negb partial_messages set_partial_messages completed fst snd total_chunks last_chunk
       sa_pid sa_tid soap].

Ltac soap_frame :=
  soap_step;
  split; [reflexivity|];
  split;
  [ let k := fresh "k" in
    let Hk := fresh "Hk" in
    intros k Hk; soap_step;
    repeat first [ rewrite lookup_delete_ne by (apply not_eq_sym; exact Hk)
                 | rewrite lookup_insert_ne by (apply not_eq_sym; exact Hk) ];
    reflexivity
  | first [ left; reflexivity | right; eexists; reflexivity ] ].

(** X24. [new_event] never lets an exception out, not even one of the
    callback; it calls the callback at most once, and it leaves the
    assemblies under every key but the event's own as they were. *)
Theorem new_event_is_contained
    (cb : SoapDelivery -> option exn) (event : Event) (st : SoapDefragmenter) :
  let r := new_event cb event st in
  snd r = Ok tt
  /\ (forall k,
        (forall tid, ev_ThreadId event = Some tid ->
                     k <> format_mkey (ev_ActivityId event) (ev_ProcessId event) tid) ->
        partial_messages (fst r) !! k = partial_messages st !! k)
  /\ (completed (fst r) = completed st \/ exists d, completed (fst r) = completed st ++ [d]).
Proof.
  intros r. subst r. unfold new_event.
  destruct (ev_ThreadId event) as [tid|] eqn:Htid.
  2:{ cbn. repeat split; [left; reflexivity]. }
  set (mkey := format_mkey (ev_ActivityId event) (ev_ProcessId event) tid).
  cut (let r := new_event cb event st in
       snd r = Ok tt
       /\ (forall k, k <> mkey -> partial_messages (fst r) !! k = partial_messages st !! k)
       /\ (completed (fst r) = completed st \/ exists d, completed (fst r) = completed st ++ [d])).
  { unfold new_event. rewrite Htid. fold mkey. intros (H1 & H2 & H3).
    split; [exact H1|]. split; [|exact H3].
    intros k Hk. apply H2. apply (Hk tid). reflexivity. }
  unfold new_event. rewrite Htid. fold mkey. cbv zeta.
  unfold try_except, Py.bind, gets, modify, of_option, getitem, Py.ret, Py.raise, contains,
    completed_soap_callback.
  destruct st as [partial done]. cbn [partial_messages completed].
  destruct (partial !! mkey) as [pm|] eqn:Hpm; soap_step.
  - destruct (ev_index event) as [index|]; soap_step; rewrite ?Hpm; soap_step.
    2:{ soap_frame. }
    destruct (index =? last_chunk pm + 1); soap_step.
    2:{ rewrite ?Hpm. soap_frame. }
    destruct (ev_SoapDocument event) as [doc|]; soap_step.
    2:{ soap_frame. }
    destruct (index =? total_chunks pm); soap_step.
    2:{ soap_frame. }
    unfold Py.bind, modify. cbn [fst snd].
    destruct (cb _); unfold Py.ret, Py.raise; soap_step; soap_frame.
  - destruct (ev_totalChunks event) as [total|]; soap_step; rewrite ?Hpm; soap_step.
    2:{ soap_frame. }
    destruct (ev_index event) as [index|]; soap_step.
    2:{ soap_frame. }
    destruct (index =? 0 + 1); soap_step.
    2:{ soap_frame. }
    destruct (ev_SoapDocument event) as [doc|]; soap_step.
    2:{ soap_frame. }
    destruct (index =? total); soap_step.
    2:{ soap_frame. }
    unfold Py.bind, modify. cbn [fst snd].
    destruct (cb _); unfold Py.ret, Py.raise; soap_step; soap_frame.
Qed.

(** ** The PowerShell trace parser *)

Section ETWParser.
Context {V CS : Type}.
Variable ext : ETW.Extern V CS.

Lemma track_shell_consistent (shell_id : string) (st : ETW.PowerShellETWParser CS) :
  consistent st ->
  consistent (fst (ETW.track_shell shell_id st))
  /\ shell_id ∈ ETW.shells (fst (ETW.track_shell shell_id st))
  /\ ETW.activity_shell_contexts (fst (ETW.track_shell shell_id st))
     = ETW.activity_shell_contexts st.
Proof.
  intros [Hnd Hb]. unfold ETW.track_shell, modify. cbn [fst].
  destruct (bool_decide (shell_id ∈ ETW.shells st)) eqn:Hin.
  - apply bool_decide_eq_true_1 in Hin. repeat split; assumption.
  - apply bool_decide_eq_false_1 in Hin. cbn [ETW.set_shells ETW.shells ETW.activity_shell_contexts].
    repeat split.
    + apply NoDup_app. repeat split; [exact Hnd| |apply NoDup_singleton].
      intros x Hx Hx'. apply list_elem_of_singleton in Hx'. subst x. contradiction.
    + intros a s Has. apply elem_of_app. left. exact (Hb a s Has).
    + apply elem_of_app. right. apply list_elem_of_singleton. reflexivity.
Qed.

Lemma consistent_log_error entry (st : ETW.PowerShellETWParser CS) :
  consistent st -> consistent (ETW.log_error entry st).
Proof. intros H. exact H. Qed.

Lemma consistent_set_callback_state cs (st : ETW.PowerShellETWParser CS) :
  consistent st -> consistent (ETW.set_callback_state cs st).
Proof. intros H. exact H. Qed.

Lemma preserves_item {S A} (P : S -> Prop) (o : option A) : preserves P (@ETW.item S A o).
Proof. intros st HP. destruct o; exact HP. Qed.

Lemma consistent_psrp_frag_event (event : ETW.Event V) :
  preserves consistent (ETW._psrp_frag_event ext event).
Proof.
  unfold ETW._psrp_frag_event.
  repeat (apply preserves_bind; [first [apply preserves_item | apply preserves_gets]|intros ?]).
  apply preserves_bind.
  { intros st Hst. destruct (ETW.py_int ext _); exact Hst. }
  intros ?.
  repeat (apply preserves_bind; [first [apply preserves_item | apply preserves_gets]|intros ?]).
  apply preserves_bind.
  { intros st Hst. destruct (ETW.bytes_fromhex ext _); exact Hst. }
  intros ?. apply preserves_bind; [apply preserves_gets|]. intros contexts.
  destruct (_ ≫= _).
  - intros st Hst. unfold zoom. destruct (ETW.completed_callback ext _ _) as [cs' r].
    cbn [fst]. exact Hst.
  - apply preserves_modify. intros st Hst. exact Hst.
Qed.

Lemma consistent_shell_context_event (event : ETW.Event V) :
  preserves consistent (@ETW._shell_context_event V CS event).
Proof.
  unfold ETW._shell_context_event.
  apply preserves_bind; [apply preserves_item|]. intros header.
  destruct (ETW.ActivityId header) as [activity_id|]; [|apply preserves_ret].
  apply preserves_bind; [apply preserves_item|]. intros description.
  destruct (ETW.substring_in _ description).
  { apply preserves_bind; [apply preserves_item|]. intros shell_id.
    apply preserves_bind; [apply preserves_item|]. intros _.
    intros st Hst. unfold Py.bind.
    destruct (track_shell_consistent shell_id st Hst) as ([Hnd Hb] & Hin & Hctx).
    unfold ETW.track_shell, modify in *. cbn [fst snd] in *.
    set (st1 := if bool_decide (shell_id ∈ ETW.shells st) then st else _) in *.
    split; [exact Hnd|]. cbn [ETW.set_contexts ETW.activity_shell_contexts ETW.shells].
    intros a s Has. destruct (decide (a = activity_id)) as [->|Hne].
    - rewrite lookup_insert_eq in Has. injection Has as <-. exact Hin.
    - rewrite lookup_insert_ne in Has by congruence. exact (Hb a s Has). }
  destruct (ETW.substring_in _ description).
  { apply preserves_bind; [apply preserves_item|]. intros shell_id.
    intros st Hst. unfold Py.bind.
    destruct (track_shell_consistent shell_id st Hst) as ([Hnd Hb] & Hin & Hctx).
    unfold ETW.track_shell, modify in *. cbn [fst snd] in *.
    set (st1 := if bool_decide (shell_id ∈ ETW.shells st) then st else _) in *.
    destruct (contains (ETW.activity_shell_contexts st1) activity_id); [split; assumption|].
    split; [exact Hnd|]. cbn [ETW.set_contexts ETW.activity_shell_contexts ETW.shells].
    intros a s Has. destruct (decide (a = activity_id)) as [->|Hne].
    - rewrite lookup_insert_eq in Has. injection Has as <-. exact Hin.
    - rewrite lookup_insert_ne in Has by congruence. exact (Hb a s Has). }
  destruct (ETW.substring_in _ description); [|apply preserves_ret].
  apply preserves_bind; [apply preserves_item|]. intros request_id.
  apply preserves_modify. intros st [Hnd Hb].
  destruct (bool_decide (request_id ∈ ETW.shells st)); [|split; assumption].
  cbn [ETW.set_contexts ETW.set_shells ETW.activity_shell_contexts ETW.shells]. split.
  - apply NoDup_filter. exact Hnd.
  - intros a s Has. apply map_lookup_filter_Some in Has as [Has Hs]. cbn [snd] in Hs.
    apply list_elem_of_filter. split; [exact Hs|exact (Hb a s Has)].
Qed.

Lemma consistent_new_event (event : ETW.Event V) :
  preserves consistent (ETW.new_event ext event).
Proof.
  intros st Hst. unfold ETW.new_event, try_except.
  match goal with
  | |- consistent (fst (match ?c st with _ => _ end)) =>
      assert (Hbody : preserves consistent c);
      [|specialize (Hbody st Hst);
        destruct (c st) as [st' [[]|e]]; cbn [fst] in *; exact Hbody]
  end.
  apply preserves_bind; [apply preserves_item|]. intros header.
  apply preserves_bind; [apply preserves_item|]. intros descriptor.
  apply preserves_bind; [apply preserves_item|]. intros keyword.
  apply preserves_bind.
  - destruct (keyword =? _); [|apply preserves_ret].
    apply preserves_bind; [apply preserves_item|]. intros ?. apply preserves_ret.
  - intros [|]; [apply consistent_psrp_frag_event|].
    destruct (keyword =? _); [apply consistent_shell_context_event|apply preserves_ret].
Qed.

Lemma consistent_run_events (events : list (ETW.Event V)) :
  forall st, consistent st -> consistent (run_events ext events st).
Proof.
  induction events as [|event events IH]; intros st Hst; cbn [run_events fold_left].
  - exact Hst.
  - apply IH. apply consistent_new_event. exact Hst.
Qed.

Lemma consistent_init (cs : CS) : consistent (ETW.init cs).
Proof.
  split; [apply NoDup_nil_2|]. intros a s H. cbn in H. rewrite lookup_empty in H. discriminate.
Qed.

End ETWParser.

(** X25. After any sequence of events, no shell is listed twice and
    every activity is bound to a shell that is listed. *)
Theorem bound_shells_are_listed
    (V CS : Type) (ext : ETW.Extern V CS) (events : list (ETW.Event V)) (cs : CS) :
  let st := run_events ext events (ETW.init cs) in
  NoDup (ETW.shells st)
  /\ forall a s, ETW.activity_shell_contexts st !! a = Some s -> s ∈ ETW.shells st.
Proof.
  intros st. apply (consistent_run_events ext events (ETW.init cs) (consistent_init cs)).
Qed.

Lemma new_event_completion
    {V CS : Type} (ext : ETW.Extern V CS) (event : ETW.Event V) (a r : string)
    (st : ETW.PowerShellETWParser CS) :
  completion_event event a r ->
  ETW.new_event ext event st
  = (if bool_decide (r ∈ ETW.shells st) then
       ETW.set_contexts
         (filter (fun kv : string * string => snd kv <> r) (ETW.activity_shell_contexts st))
         (ETW.set_shells (filter (fun v => v <> r) (ETW.shells st)) st)
     else st, Ok tt).
Proof.
  intros (header & descriptor & description & Hh & Hd & Hk & Ha & Hdesc & H1 & H2 & H3 & Hp).
  unfold ETW.new_event, ETW._shell_context_event, try_except, Py.bind, ETW.item.
  rewrite Hh. cbn [ret]. rewrite Hd. cbn [ret]. rewrite Hk. cbn [ret Z.eqb Pos.eqb].
  rewrite Ha, Hdesc. cbn [ret]. rewrite H1, H2, H3, Hp. reflexivity.
Qed.

(** X26. When the completion of request [r] is reported by an event of
    keyword 0x4000000000000100 that carries an ActivityId, whose
    Description holds the completion pattern and neither of the two
    shell context patterns, and whose [param1] is [r], then [r] is
    forgotten: afterwards it is not listed and no activity is bound to
    it, while the other shells and the bindings to them are kept and
    the callback is not called. *)
Theorem completed_request_is_forgotten
    (V CS : Type) (ext : ETW.Extern V CS) (events : list (ETW.Event V)) (cs : CS)
    (event : ETW.Event V) (a r : string) :
  completion_event event a r ->
  let st := run_events ext events (ETW.init cs) in
  let st' := fst (ETW.new_event ext event st) in
  (r ∉ ETW.shells st')
  /\ (forall a', ETW.activity_shell_contexts st' !! a' <> Some r)
  /\ (forall a' s, s <> r ->
        (ETW.activity_shell_contexts st' !! a' = Some s
         <-> ETW.activity_shell_contexts st !! a' = Some s))
  /\ (forall s, s <> r -> (s ∈ ETW.shells st' <-> s ∈ ETW.shells st))
  /\ ETW.callback_state st' = ETW.callback_state st.
Proof.
  intros Hev st st'. subst st'.
  destruct (consistent_run_events ext events (ETW.init cs) (consistent_init cs)) as [Hnd Hb].
  fold st in Hnd, Hb.
  rewrite (new_event_completion ext event a r st Hev). cbn [fst].
  destruct (bool_decide (r ∈ ETW.shells st)) eqn:Hin.
  - cbn [ETW.set_contexts ETW.set_shells ETW.shells ETW.activity_shell_contexts
         ETW.callback_state].
    repeat split.
    + intros Hr. apply list_elem_of_filter in Hr as [Hr _]. apply Hr. reflexivity.
    + intros a' Ha'. apply map_lookup_filter_Some in Ha' as [_ Hr]. apply Hr. reflexivity.
    + intros Hs. apply map_lookup_filter_Some in Hs as [Hs _]. exact Hs.
    + intros Hs. apply map_lookup_filter_Some. split; [exact Hs|]. cbn [snd]. assumption.
    + intros Hs. apply list_elem_of_filter in Hs as [_ Hs]. exact Hs.
    + intros Hs. apply list_elem_of_filter. split; assumption.
  - apply bool_decide_eq_false_1 in Hin. repeat split; try tauto.
    intros a' Ha'. apply Hin. exact (Hb a' r Ha').
Qed.

Lemma completed_request_is_forgotten_witness :
  "S"%string ∉ ETW.shells
                 (fst (ETW.new_event recording_extern shell_completed
                         (run_events recording_extern [shell_created] (ETW.init [])))).
Proof.
  destruct (completed_request_is_forgotten Z (list (ETW.FragmentCall Z)) recording_extern
              [shell_created] [] shell_completed "B" "S") as (H & _).
  - exists (context_header 0x4000000000000100 (Some "B"%string)),
      {| ETW.Keyword := Some 0x4000000000000100; ETW.Level := Some 5 |},
      "Reporting operation complete for request: %1"%string.
    repeat split; reflexivity.
  - exact H.
Defined.

(** X27. A fragment event of an activity that is bound to a shell
    reaches the callback once, under that shell, with the fragment id
    converted and the payload decoded from its hexadecimal text after
    the first two characters; the parser's own tables do not change, and
    an exception of the callback is logged, not passed on. *)
Theorem fragment_of_bound_activity_is_forwarded
    (V CS : Type) (ext : ETW.Extern V CS) (event : ETW.Event V) (a s : string)
    (call : ETW.FragmentCall V) (st : ETW.PowerShellETWParser CS) :
  fragment_event ext event (Some a) s call ->
  ETW.activity_shell_contexts st !! a = Some s ->
  ETW.new_event ext event st
  = match ETW.completed_callback ext call (ETW.callback_state st) with
    | (cs', Ok _) => (ETW.set_callback_state cs' st, Ok tt)
    | (cs', Raise e) =>
        (ETW.log_error (ETW.ExceptionLogged e) (ETW.set_callback_state cs' st), Ok tt)
    end.
Proof.
  intros (header & descriptor & pid & tid & fid_raw & payload & Hh & Hd & Hk & Hl & Ha & Hpid
          & Htid & Ho & Hf & Hint & Hs & He & Hlen & Hp & Hhex & Hshell) Hctx.
  unfold ETW.new_event, ETW._psrp_frag_event, try_except, Py.bind, ETW.item.
  rewrite Hh. cbn [ret]. rewrite Hd. cbn [ret]. rewrite Hk. cbn [ret Z.eqb Pos.eqb].
  rewrite Hl. cbn [ret Z.eqb Pos.eqb]. rewrite Hpid. cbn [ret].
  rewrite Htid. cbn [ret]. rewrite Ho. cbn [ret]. rewrite Hf. cbn [ret]. rewrite Hint.
  cbn [ret]. rewrite Hs. cbn [ret]. rewrite He. cbn [ret]. rewrite Hlen. cbn [ret].
  rewrite Hp. cbn [ret]. rewrite Hhex. cbn [ret gets]. rewrite Ha. cbn [mbind option_bind].
  rewrite Hctx. unfold zoom. rewrite <- Hshell.
  destruct call as [cs0 co cf cs1 ce cl cd]. cbn [ETW.fc_shell_id ETW.fc_object_id
    ETW.fc_fragment_id ETW.fc_s_flag ETW.fc_e_flag ETW.fc_frag_len ETW.fc_frag_data].
  destruct (ETW.completed_callback ext _ _) as [cs' [[]|e]]; reflexivity.
Qed.

Lemma fragment_of_bound_activity_is_forwarded_witness :
  ETW.callback_state
    (fst (ETW.new_event recording_extern (fragment_of (Some "A"%string))
            (run_events recording_extern [shell_created] (ETW.init []))))
  = [ {| ETW.fc_shell_id := "S"%string; ETW.fc_object_id := 7; ETW.fc_fragment_id := 0;
         ETW.fc_s_flag := 1; ETW.fc_e_flag := 1; ETW.fc_frag_len := 2;
         ETW.fc_frag_data := [Byte.x01; Byte.x02] |} ].
Proof.
  rewrite (fragment_of_bound_activity_is_forwarded Z (list (ETW.FragmentCall Z))
             recording_extern (fragment_of (Some "A"%string)) "A" "S"
             {| ETW.fc_shell_id := "S"%string; ETW.fc_object_id := 7; ETW.fc_fragment_id := 0;
                ETW.fc_s_flag := 1; ETW.fc_e_flag := 1; ETW.fc_frag_len := 2;
                ETW.fc_frag_data := [Byte.x01; Byte.x02] |}).
  - reflexivity.
  - exists (context_header 0x4000000000000008 (Some "A"%string)),
      {| ETW.Keyword := Some 0x4000000000000008; ETW.Level := Some 5 |}, 100, 200, 0,
      "0x0102"%string.
    repeat split; reflexivity.
  - reflexivity.
Defined.

(** X28. An event whose activity is missing or not bound to a shell
    never reaches the callback, whatever else it holds. *)
Theorem event_of_unbound_activity_is_not_forwarded
    (V CS : Type) (ext : ETW.Extern V CS) (event : ETW.Event V)
    (st : ETW.PowerShellETWParser CS) :
  bound_shell event st = None ->
  ETW.callback_state (fst (ETW.new_event ext event st)) = ETW.callback_state st.
Proof.
  intros Hb. unfold bound_shell in Hb.
  assert (Hpres : preserves (fun t : ETW.PowerShellETWParser CS =>
                               ETW.callback_state t = ETW.callback_state st)
                    (@ETW._shell_context_event V CS event)).
  { unfold ETW._shell_context_event.
    apply preserves_bind; [apply preserves_item|]. intros header.
    destruct (ETW.ActivityId header) as [activity_id|]; [|apply preserves_ret].
    apply preserves_bind; [apply preserves_item|]. intros description.
    assert (Htrack : forall shell_id,
               preserves (fun t : ETW.PowerShellETWParser CS =>
                            ETW.callback_state t = ETW.callback_state st)
                 (ETW.track_shell shell_id)).
    { intros shell_id. apply preserves_modify. intros t Ht.
      destruct (bool_decide _); exact Ht. }
    destruct (ETW.substring_in _ description).
    { apply preserves_bind; [apply preserves_item|]. intros shell_id.
      apply preserves_bind; [apply preserves_item|]. intros _.
      apply preserves_bind; [apply Htrack|]. intros _.
      apply preserves_modify. intros t Ht. exact Ht. }
    destruct (ETW.substring_in _ description).
    { apply preserves_bind; [apply preserves_item|]. intros shell_id.
      apply preserves_bind; [apply Htrack|]. intros _.
      apply preserves_modify. intros t Ht. destruct (contains _ _); exact Ht. }
    destruct (ETW.substring_in _ description); [|apply preserves_ret].
    apply preserves_bind; [apply preserves_item|]. intros request_id.
    apply preserves_modify. intros t Ht. destruct (bool_decide _); exact Ht. }
  assert (Hctx : ETW.callback_state (fst (@ETW._shell_context_event V CS event st))
                 = ETW.callback_state st) by (apply Hpres; reflexivity).
  clear Hpres.
  assert (Hfrag : ETW.callback_state
                    (fst (match ETW._psrp_frag_event ext event st with
                          | (s', Ok a) => (s', Ok a)
                          | (s', Raise e) => modify (ETW.log_error (ETW.ExceptionLogged e)) s'
                          end)) = ETW.callback_state st).
  { unfold ETW._psrp_frag_event, Py.bind, ETW.item, gets, modify, ret, raise.
    destruct (ETW.Header event) as [header'|] eqn:Hh'; [|reflexivity].
    try rewrite Hh' in Hb.
    destruct (ETW.ProcessId header'); [|reflexivity].
    destruct (ETW.ThreadId header'); [|reflexivity].
    destruct (ETW.ObjectId event); [|reflexivity].
    destruct (ETW.FragmentId event) as [raw|]; [|reflexivity].
    destruct (ETW.py_int ext raw); [|reflexivity].
    destruct (ETW.sFlag event); [|reflexivity].
    destruct (ETW.eFlag event); [|reflexivity].
    destruct (ETW.FragmentLength event); [|reflexivity].
    destruct (ETW.FragmentPayload event) as [payload|]; [|reflexivity].
    destruct (ETW.bytes_fromhex ext _); [|reflexivity].
    cbn [fst snd].
    destruct (ETW.ActivityId header') as [a|]; cbn [mbind option_bind].
    - rewrite Hb. reflexivity.
    - reflexivity. }
  clear Hb.
  unfold ETW.new_event, try_except, Py.bind, ETW.item.
  destruct (ETW.Header event) as [header|]; [|reflexivity]. unfold Py.ret at 1. cbv beta iota.
  destruct (ETW.Descriptor header) as [descriptor|]; [|reflexivity].
  unfold Py.ret at 1. cbv beta iota.
  destruct (ETW.Keyword descriptor) as [keyword|]; [|reflexivity].
  unfold Py.ret at 1. cbv beta iota.
  assert (Hother : ETW.callback_state
                     (fst (match (if keyword =? 0x4000000000000100
                                  then ETW._shell_context_event event
                                  else ret tt) st with
                           | (s', Ok a) => (s', Ok a)
                           | (s', Raise e) => modify (ETW.log_error (ETW.ExceptionLogged e)) s'
                           end)) = ETW.callback_state st).
  { destruct (keyword =? 0x4000000000000100); [|reflexivity].
    destruct (ETW._shell_context_event event st) as [st' [[]|e]]; cbn [fst] in *; exact Hctx. }
  destruct (keyword =? 0x4000000000000008).
  - destruct (ETW.Level descriptor) as [level|]; [|reflexivity].
    unfold Py.ret at 1 2. cbv beta iota.
    destruct (level =? 5); [exact Hfrag|exact Hother].
  - unfold Py.ret at 1. cbv beta iota. exact Hother.
Qed.

Lemma event_of_unbound_activity_is_not_forwarded_witness :
  ETW.callback_state
    (fst (ETW.new_event recording_extern (fragment_of (Some "B"%string))
            (run_events recording_extern [shell_created] (ETW.init []))))
  = [].
Proof.
  apply (event_of_unbound_activity_is_not_forwarded Z (list (ETW.FragmentCall Z))
           recording_extern (fragment_of (Some "B"%string))
           (run_events recording_extern [shell_created] (ETW.init []))).
  reflexivity.
Defined.

(** ** The life of a shell in the dispatcher *)

Section ShellLifecycle.
Variable ext : Extern.

Lemma delete_request_tracked (soap : string) (M S : string) (st : WSManPS) :
  S <> ""%string ->
  ET_fromstring ext soap = Some (delete_request M S) ->
  let st' := fst (new_soap ext soap st) in
  delete_msgs st' = <[Some M := S]> (delete_msgs st)
  /\ shell_bufs (psrp_defrag st')
     = <[Some S := objs_of ShellBufs (Some S) (psrp_defrag st)]> (shell_bufs (psrp_defrag st))
  /\ delivered (psrp_defrag st') = delivered (psrp_defrag st)
  /\ logged_errors st' = logged_errors st.
Proof.
  intros HS Hparse st'. subst st'.
  unfold new_soap. rewrite Hparse.
  change (routing (delete_request M S)) with (Routed action_delete).
  unfold delete_request, empty_body, request_header, shell_selector.
  cbn [e_Header run_handler h_MessageID h_ResourceURI].
  unfold _action_delete, _known_shell_id_or_resource_uri, _get_shell_id.
  cbn [h_Selectors first_shell_id sel_Name sel_text].
  unfold _track_delete, _track_shell_id. cbn [h_Selectors for_each sel_Name sel_text].
  rewrite (bool_decide_eq_true_2 _ (eq_refl (Some "ShellId"%string))).
  rewrite (bool_decide_eq_true_2 _ (eq_refl (Some PS_RESOURCE_URI))).
  rewrite (bool_decide_eq_false_2 _ HS). cbn [negb].
  unfold try_except, defrag, zoom, has_shell, new_shell, gets, Py.bind, modify, Py.ret,
    contains, objs_of.
  cbv beta iota zeta. cbn [bufs_of].
  destruct (shell_bufs (psrp_defrag st) !! Some S) as [objs|] eqn:Hs.
  - cbv beta iota zeta. cbn [negb default from_option id].
    rewrite set_psrp_defrag_same. cbn.
    rewrite (insert_id (shell_bufs (psrp_defrag st)) (Some S) objs Hs).
    repeat split; reflexivity.
  - cbv beta iota zeta. rewrite set_psrp_defrag_same, Hs. cbn. repeat split; reflexivity.
Qed.

Lemma delete_response_forgets (soap : string) (M S : string) (st : WSManPS) :
  ET_fromstring ext soap = Some (delete_response M) ->
  delete_msgs st !! Some M = Some S ->
  let st' := fst (new_soap ext soap st) in
  delete_msgs st' = delete (Some M) (delete_msgs st)
  /\ shell_bufs (psrp_defrag st') = delete (Some S) (shell_bufs (psrp_defrag st))
  /\ delivered (psrp_defrag st') = delivered (psrp_defrag st)
  /\ logged_errors st' = logged_errors st.
Proof.
  intros Hparse Hdel st'. subst st'.
  unfold new_soap. rewrite Hparse.
  change (routing (delete_response M)) with (Routed action_delete_response).
  unfold delete_response, empty_body, response_header.
  cbn [e_Header run_handler h_MessageID h_ResourceURI].
  unfold _action_delete_response. cbn [h_RelatesTo].
  unfold try_except, defrag, zoom, has_shell, delete_shell, gets, Py.bind, modify, Py.ret,
    contains.
  cbv beta iota zeta. rewrite Hdel. cbv beta iota zeta.
  cbn [psrp_defrag set_delete_msgs].
  destruct (shell_bufs (psrp_defrag st) !! Some S) as [objs|] eqn:Hs.
  - cbv beta iota zeta. cbn [psrp_defrag set_delete_msgs]. rewrite ?Hs. cbn. rewrite ?Hs.
    repeat split; reflexivity.
  - cbv beta iota zeta. cbn.
    rewrite (delete_id (shell_bufs (psrp_defrag st)) (Some S) Hs).
    repeat split; reflexivity.
Qed.

End ShellLifecycle.

(** X29. A Delete request for shell [S] and the DeleteResponse to it
    make the dispatcher forget the shell: the request is tracked until
    the response arrives, and afterwards the defragmenter holds nothing
    for [S], partial data included; nothing is delivered and no error is
    logged on the way. *)
Theorem delete_exchange_forgets_the_shell
    (ext : Extern) (soap1 soap2 : string) (M S : string) (st0 : WSManPS) :
  S <> ""%string ->
  ET_fromstring ext soap1 = Some (delete_request M S) ->
  ET_fromstring ext soap2 = Some (delete_response M) ->
  let st1 := fst (new_soap ext soap1 st0) in
  let st2 := fst (new_soap ext soap2 st1) in
  delete_msgs st1 !! Some M = Some S
  /\ shell_bufs (psrp_defrag st2) = delete (Some S) (shell_bufs (psrp_defrag st0))
  /\ delete_msgs st2 = delete (Some M) (delete_msgs st0)
  /\ delivered (psrp_defrag st2) = delivered (psrp_defrag st0)
  /\ logged_errors st2 = logged_errors st0.
Proof.
  intros HS Hp1 Hp2 st1 st2.
  destruct (delete_request_tracked ext soap1 M S st0 HS Hp1) as (Hd1 & Hs1 & Hv1 & He1).
  fold st1 in Hd1, Hs1, Hv1, He1.
  assert (Hm : delete_msgs st1 !! Some M = Some S) by (rewrite Hd1; apply lookup_insert_eq).
  destruct (delete_response_forgets ext soap2 M S st1 Hp2 Hm) as (Hd2 & Hs2 & Hv2 & He2).
  fold st2 in Hd2, Hs2, Hv2, He2.
  split; [exact Hm|]. split; [|split; [|split]].
  - rewrite Hs2, Hs1. apply delete_insert_eq.
  - rewrite Hd2, Hd1. apply delete_insert_eq.
  - rewrite Hv2. exact Hv1.
  - rewrite He2. exact He1.
Qed.

Lemma delete_exchange_forgets_the_shell_witness :
  let ext := extern_of_exchange (delete_request "M" "S") (delete_response "M") in
  shell_bufs (psrp_defrag (fst (new_soap ext "2" (fst (new_soap ext "1" (tracking_shell "S"))))))
  = delete (Some "S"%string) (shell_bufs (psrp_defrag (tracking_shell "S"))).
Proof.
  intros ext.
  destruct (delete_exchange_forgets_the_shell ext "1" "2" "M" "S" (tracking_shell "S"))
    as (_ & H & _).
  - discriminate.
  - reflexivity.
  - reflexivity.
  - exact H.
Defined.

Lemma list_remove_last (x : Ident) (l : list Ident) :
  x ∉ l -> list_remove x (l ++ [x]) = l.
Proof.
  induction l as [|y l IH]; intros Hx; cbn [app list_remove].
  - rewrite bool_decide_eq_true_2 by reflexivity. reflexivity.
  - apply not_elem_of_cons in Hx as [Hne Hx].
    rewrite bool_decide_eq_false_2 by congruence. rewrite IH by exact Hx. reflexivity.
Qed.

(** A single complete fragment with id 0 and the end flag, fed for a
    pending shell that was just created, is stashed. *)
Lemma pending_single_fragment (M : string) (hp : bytes * bytes) (d0 : PSRPDefragmenter) :
  complete_fragment hp ->
  hdr_fragment_id (fst hp) = 0 ->
  has_end_flag hp = true ->
  pending_shell_bufs d0 !! Some M = None ->
  pending_shell_completed_messages d0 !! Some M = None ->
  exists d1,
    (new_pending_shell (Some M) ;;;
     new_fragment_data_pending_shell (Some M) (fragment_bytes hp) None) d0 = (d1, Ok tt)
    /\ pending_shell_bufs d1 = <[Some M := ∅]> (pending_shell_bufs d0)
    /\ pending_shell_completed_messages d1
       = <[Some M := [(hdr_object_id (fst hp), snd hp, None)]]>
           (pending_shell_completed_messages d0)
    /\ shell_bufs d1 = shell_bufs d0
    /\ delivered d1 = delivered d0.
Proof.
  intros Hc Hfid Hend Hp Hs.
  unfold Py.bind at 1. unfold new_pending_shell at 1, modify, contains. rewrite Hp.
  set (dA := set_pending_shell_bufs (<[Some M := ∅]> (pending_shell_bufs d0)) d0).
  unfold new_fragment_data_pending_shell.
  pose proof (new_fragment_data_complete (Some M) has_pending_shell new_pending_shell
                PendingShellBufs pending_shell_message_callback None [hp]
                ltac:(constructor; [exact Hc|constructor]) dA) as Hfeed.
  cbn [map concat] in Hfeed. rewrite app_nil_r in Hfeed. rewrite Hfeed. clear Hfeed.
  cbn [for_each]. rewrite bind_ret_tt.
  unfold append_parsed. unfold hdr_fragment_id, has_end_flag, hdr_flags, hdr_object_id in *.
  destruct (fields_qqbI (fst hp)) as [[[oid fid] e_s] len]. cbn [fst snd] in *. subst fid.
  rewrite Hend.
  pose proof (append_via_Some PendingPath M oid 0 (_start_bit_set e_s) true (snd hp) None dA)
    as Ha.
  unfold append_via in Ha. cbn [path_has path_new path_bufs path_callback] in Ha.
  rewrite Ha. clear Ha.
  assert (Hobjs : objs_of PendingShellBufs (Some M) dA = ∅).
  { unfold objs_of, dA. cbn [bufs_of pending_shell_bufs set_pending_shell_bufs].
    rewrite lookup_insert_eq. reflexivity. }
  rewrite Hobjs. unfold append_tracked. rewrite lookup_empty.
  cbn [default from_option id fresh_buf last_fragment_id buffer]. cbv zeta.
  change (-1 + 1 =? 0) with true. cbv beta iota. cbn [deliver app path_bufs].
  eexists. split; [reflexivity|].
  unfold with_objs, stash_message, dA.
  cbn [set_bufs bufs_of set_pending_shell_bufs set_completed pending_shell_bufs
       pending_shell_completed_messages shell_bufs delivered].
  rewrite Hs, delete_empty, insert_insert_eq. cbn [default from_option id app].
  repeat split; reflexivity.
Qed.

(** Promotion of a pending shell that holds one stashed message. *)
Lemma promotion_delivers_single (cb : Callback) (m s : Ident) (objs : gmap Z ObjBuf)
    (entry : Z * bytes * Ident) (d : PSRPDefragmenter) :
  pending_shell_bufs d !! m = Some objs ->
  pending_shell_completed_messages d !! m = Some [entry] ->
  shell_bufs d !! s = None ->
  cb (delivered d) (relabel s entry) = None ->
  exists d',
    set_pending_shell_id cb m s d = (d', Ok tt)
    /\ delivered d' = delivered d ++ [relabel s entry]
    /\ shell_bufs d' = <[s := objs]> (shell_bufs d)
    /\ pending_shell_bufs d' = delete m (pending_shell_bufs d)
    /\ pending_shell_completed_messages d' = delete m (pending_shell_completed_messages d).
Proof.
  intros Hp Hs Hsh Hcb. rewrite set_pending_shell_id_unfold, Hp.
  destruct entry as [[oid msg] cid]. cbn [relabel] in *.
  unfold Py.bind, modify, gets, getitem, contains, raise, ret. cbn [fst snd].
  cbn [shell_bufs set_pending_shell_bufs]. rewrite Hsh.
  cbn [pending_shell_completed_messages set_shell_bufs set_pending_shell_bufs]. rewrite Hs.
  cbn [default from_option id for_each]. unfold Py.bind, completed_psrp_callback.
  unfold Py.bind, modify, gets, ret, raise. cbn [fst snd delivered set_shell_bufs
    set_pending_shell_bufs]. rewrite Hcb.
  change (pending_shell_completed_messages
            (set_shell_bufs (<[s:=objs]> (shell_bufs d))
               (set_pending_shell_bufs (delete m (pending_shell_bufs d)) d)))
    with (pending_shell_completed_messages d).
  cbn [pending_shell_completed_messages]. rewrite Hs. cbv beta iota.
  eexists. split; [reflexivity|]. repeat split; reflexivity.
Qed.

Section ShellCreation.
Variable ext : Extern.

Lemma create_request_stashes (soap M xml : string) (hp : bytes * bytes) (st : WSManPS) :
  ET_fromstring ext soap = Some (create_request M xml) ->
  b64decode ext xml = Some (fragment_bytes hp) ->
  complete_fragment hp ->
  hdr_fragment_id (fst hp) = 0 ->
  has_end_flag hp = true ->
  Some M ∉ create_msgs st ->
  pending_shell_bufs (psrp_defrag st) !! Some M = None ->
  pending_shell_completed_messages (psrp_defrag st) !! Some M = None ->
  let st' := fst (new_soap ext soap st) in
  create_msgs st' = create_msgs st ++ [Some M]
  /\ logged_errors st' = logged_errors st
  /\ pending_shell_bufs (psrp_defrag st') = <[Some M := ∅]> (pending_shell_bufs (psrp_defrag st))
  /\ pending_shell_completed_messages (psrp_defrag st')
     = <[Some M := [(hdr_object_id (fst hp), snd hp, None)]]>
         (pending_shell_completed_messages (psrp_defrag st))
  /\ shell_bufs (psrp_defrag st') = shell_bufs (psrp_defrag st)
  /\ delivered (psrp_defrag st') = delivered (psrp_defrag st).
Proof.
  intros Hparse Hdec Hc Hfid Hend Hnew Hp Hs st'. subst st'.
  destruct (pending_single_fragment M hp (psrp_defrag st) Hc Hfid Hend Hp Hs)
    as (d1 & Hrun & Hp1 & Hs1 & Hsh1 & Hd1).
  unfold new_soap. rewrite Hparse.
  change (routing (create_request M xml)) with (Routed action_create).
  unfold create_request, request_header.
  cbn [e_Header run_handler h_MessageID h_ResourceURI].
  unfold _action_create. cbn [e_Shell sh_creationXml].
  rewrite (bool_decide_eq_true_2 _ (eq_refl (Some PS_RESOURCE_URI))). cbn [negb].
  rewrite Hdec. unfold _track_create.
  unfold Py.bind in Hrun.
  unfold try_except, defrag, zoom, Py.bind, modify. cbv beta iota zeta.
  rewrite (bool_decide_eq_false_2 _ Hnew).
  cbn [psrp_defrag set_create_msgs].
  destruct (new_pending_shell (Some M) (psrp_defrag st)) as [dA [[]|e]] eqn:HA;
    [|discriminate Hrun].
  cbv beta iota zeta. cbn [psrp_defrag set_psrp_defrag].
  rewrite Hrun. cbn [fst snd create_msgs logged_errors psrp_defrag set_psrp_defrag
    set_create_msgs].
  repeat split; assumption.
Qed.

Lemma create_response_promotes (soap M S : string) (objs : gmap Z ObjBuf)
    (entry : Z * bytes * Ident) (st : WSManPS) :
  ET_fromstring ext soap = Some (create_response M S) ->
  pending_shell_bufs (psrp_defrag st) !! Some M = Some objs ->
  pending_shell_completed_messages (psrp_defrag st) !! Some M = Some [entry] ->
  shell_bufs (psrp_defrag st) !! Some S = None ->
  psrp_callback ext (delivered (psrp_defrag st)) (relabel (Some S) entry) = None ->
  let st' := fst (new_soap ext soap st) in
  create_msgs st'
  = (if bool_decide (Some M ∈ create_msgs st) then list_remove (Some M) (create_msgs st)
     else create_msgs st)
  /\ logged_errors st' = logged_errors st
  /\ delivered (psrp_defrag st') = delivered (psrp_defrag st) ++ [relabel (Some S) entry]
  /\ shell_bufs (psrp_defrag st') = <[Some S := objs]> (shell_bufs (psrp_defrag st))
  /\ pending_shell_bufs (psrp_defrag st') = delete (Some M) (pending_shell_bufs (psrp_defrag st))
  /\ pending_shell_completed_messages (psrp_defrag st')
     = delete (Some M) (pending_shell_completed_messages (psrp_defrag st)).
Proof.
  intros Hparse Hp Hs Hsh Hcb st'. subst st'.
  destruct (promotion_delivers_single (psrp_callback ext) (Some M) (Some S) objs entry
              (psrp_defrag st) Hp Hs Hsh Hcb) as (d' & Hrun & Hd & Hsb & Hpb & Hst).
  unfold new_soap. rewrite Hparse.
  change (routing (create_response M S)) with (Routed action_create_response).
  unfold create_response, response_header, shell_selector.
  cbn [e_Header run_handler h_MessageID h_ResourceURI].
  unfold _action_create_response.
  cbn [h_RelatesTo e_ResourceCreated rc_ReferenceParameters rp_ResourceURI rp_Selectors
       first_shell_id sel_Name sel_text].
  rewrite (bool_decide_eq_true_2 _ (eq_refl (Some "ShellId"%string))).
  rewrite (bool_decide_eq_true_2 _ (eq_refl (Some PS_RESOURCE_URI))).
  cbv zeta. cbn [negb].
  unfold try_except, defrag, zoom, Py.bind, modify, gets, Py.ret. cbv beta iota zeta.
  rewrite andb_false_r.
  destruct (bool_decide (Some M ∈ create_msgs st)); cbv beta iota zeta;
    cbn [psrp_defrag set_create_msgs]; rewrite Hrun;
    cbn [fst snd create_msgs logged_errors psrp_defrag set_psrp_defrag set_create_msgs];
    repeat split; assumption.
Qed.

End ShellCreation.

(** X30. In a dispatcher where the request [M] is not tracked in
    [create_msgs], nothing is pending or stashed under [M] and the shell
    [S] is not tracked: a Create request [M] whose creation XML decodes
    to one complete fragment with id 0 and the end flag, followed by the
    CreateResponse to [M] that names [S], makes the message reach the
    callback under [S], provided the callback returns normally on it:
    nothing is delivered before the response, exactly that message
    after it; the shell is then tracked with no buffer, the pending
    entries and the tracking of the request are as before the request,
    and no error was logged. *)
Theorem create_exchange_delivers_under_the_shell
    (ext : Extern) (soap1 soap2 : string) (M S xml : string) (hp : bytes * bytes)
    (st0 : WSManPS) :
  ET_fromstring ext soap1 = Some (create_request M xml) ->
  ET_fromstring ext soap2 = Some (create_response M S) ->
  b64decode ext xml = Some (fragment_bytes hp) ->
  complete_fragment hp ->
  hdr_fragment_id (fst hp) = 0 ->
  has_end_flag hp = true ->
  Some M ∉ create_msgs st0 ->
  pending_shell_bufs (psrp_defrag st0) !! Some M = None ->
  pending_shell_completed_messages (psrp_defrag st0) !! Some M = None ->
  shell_bufs (psrp_defrag st0) !! Some S = None ->
  psrp_callback ext (delivered (psrp_defrag st0))
    {| d_shell := Some S; d_object_id := hdr_object_id (fst hp); d_message := snd hp;
       d_command_id := None |} = None ->
  let st1 := fst (new_soap ext soap1 st0) in
  let st2 := fst (new_soap ext soap2 st1) in
  (Some M ∈ create_msgs st1 /\ delivered (psrp_defrag st1) = delivered (psrp_defrag st0))
  /\ delivered (psrp_defrag st2)
     = delivered (psrp_defrag st0)
       ++ [ {| d_shell := Some S; d_object_id := hdr_object_id (fst hp); d_message := snd hp;
               d_command_id := None |} ]
  /\ shell_bufs (psrp_defrag st2) = <[Some S := ∅]> (shell_bufs (psrp_defrag st0))
  /\ pending_shell_bufs (psrp_defrag st2) = pending_shell_bufs (psrp_defrag st0)
  /\ pending_shell_completed_messages (psrp_defrag st2)
     = pending_shell_completed_messages (psrp_defrag st0)
  /\ create_msgs st2 = create_msgs st0
  /\ logged_errors st2 = logged_errors st0.
Proof.
  intros Hp1 Hp2 Hdec Hc Hfid Hend Hnew Hpend Hstash Hshell Hcb st1 st2.
  destruct (create_request_stashes ext soap1 M xml hp st0 Hp1 Hdec Hc Hfid Hend Hnew Hpend
              Hstash) as (Hc1 & He1 & Hpb1 & Hst1 & Hsb1 & Hd1).
  fold st1 in Hc1, He1, Hpb1, Hst1, Hsb1, Hd1.
  assert (HpM : pending_shell_bufs (psrp_defrag st1) !! Some M = Some ∅)
    by (rewrite Hpb1; apply lookup_insert_eq).
  assert (HsM : pending_shell_completed_messages (psrp_defrag st1) !! Some M
                = Some [(hdr_object_id (fst hp), snd hp, None)])
    by (rewrite Hst1; apply lookup_insert_eq).
  assert (HshS : shell_bufs (psrp_defrag st1) !! Some S = None) by (rewrite Hsb1; exact Hshell).
  assert (Hcb1 : psrp_callback ext (delivered (psrp_defrag st1))
                   (relabel (Some S) (hdr_object_id (fst hp), snd hp, None)) = None)
    by (rewrite Hd1; exact Hcb).
  destruct (create_response_promotes ext soap2 M S ∅ (hdr_object_id (fst hp), snd hp, None)
              st1 Hp2 HpM HsM HshS Hcb1) as (Hc2 & He2 & Hd2 & Hsb2 & Hpb2 & Hst2).
  fold st2 in Hc2, He2, Hd2, Hsb2, Hpb2, Hst2.
  split; [split; [rewrite Hc1; apply elem_of_app; right; apply list_elem_of_singleton;
                  reflexivity|exact Hd1]|].
  split; [rewrite Hd2, Hd1; reflexivity|].
  split; [rewrite Hsb2, Hsb1; reflexivity|].
  split; [rewrite Hpb2, Hpb1; rewrite delete_insert_eq; apply delete_id; exact Hpend|].
  split; [rewrite Hst2, Hst1; rewrite delete_insert_eq; apply delete_id; exact Hstash|].
  split; [|rewrite He2; exact He1].
  rewrite Hc2, Hc1.
  rewrite bool_decide_eq_true_2
    by (apply elem_of_app; right; apply list_elem_of_singleton; reflexivity).
  apply list_remove_last. exact Hnew.
Qed.

Lemma create_exchange_delivers_under_the_shell_witness :
  let ext := wired_exchange (create_request "M" "AAAA") (create_response "M" "S") in
  delivered (psrp_defrag (fst (new_soap ext "2" (fst (new_soap ext "1" WinRM.init)))))
  = [] ++ [ {| d_shell := Some "S"%string; d_object_id := 7;
               d_message := session_capability_message; d_command_id := None |} ].
Proof.
  intros ext.
  destruct (create_exchange_delivers_under_the_shell ext "1" "2" "M" "S" "AAAA"
              capability_fragment WinRM.init)
    as (_ & H & _).
  - reflexivity.
  - reflexivity.
  - reflexivity.
  - split; reflexivity.
  - reflexivity.
  - reflexivity.
  - apply not_elem_of_nil.
  - reflexivity.
  - reflexivity.
  - reflexivity.
  - reflexivity.
  - exact H.
Defined.

(** ** Truncated fragment streams *)

(** A truncated fragment whose id is not the expected one is dropped
    with its bytes, and under the shell id [None] the call raises: the
    claim of C10 fails there. *)
Lemma C10_counterexample :
  (let r := new_fragment_data (fun _ _ => None) (Some "S"%string) truncated_with_id_1 None
              PSRP.init in
   snd r = Ok tt
   /\ buffer <$> (objs_of ShellBufs (Some "S"%string) (fst r) !! 7) = Some []
   /\ delivered (fst r) = [])
  /\ new_fragment_data (fun _ _ => None) None truncated_with_id_0 None PSRP.init
     = (PSRP.init, Raise KeyError).
Proof. vm_compute. repeat split; reflexivity. Qed.

(** C10, amended.  In the byte string given to [new_fragment_data] for
    a named shell, after a run of complete fragments that were taken
    without an exception: a header that declares more payload bytes than
    remain has just the bytes present appended to the buffer of its
    object, and the call returns normally, when the fragment id is the
    expected one and the end flag is not set; with the end flag the
    shortened message is delivered and the call ends as the callback
    does; with another fragment id the bytes are dropped like those of
    any out-of-order fragment.  Fewer than 21 bytes where a header is
    expected raise [struct.error] once the fragments before them have
    been taken. *)
Theorem C10_truncated_payload_and_short_header
    (cb : Callback) (s : string) (cid : Ident) (frs : list (bytes * bytes))
    (st st1 : PSRPDefragmenter) :
  Forall complete_fragment frs ->
  new_fragment_data cb (Some s) (concat (map fragment_bytes frs)) cid st = (st1, Ok tt) ->
  (forall h p : bytes,
      length h = FRAG_HEADER_LEN -> (length p < hdr_length h)%nat ->
      let oid := hdr_object_id h in
      let objs := objs_of ShellBufs (Some s) st1 in
      let ob := default fresh_buf (objs !! oid) in
      let grown := {| last_fragment_id := last_fragment_id ob; buffer := buffer ob ++ p;
                      command_id := cid |} in
      let d := {| d_shell := Some s; d_object_id := oid; d_message := buffer ob ++ p;
                  d_command_id := cid |} in
      let r := new_fragment_data cb (Some s) (concat (map fragment_bytes frs) ++ h ++ p) cid st in
      (hdr_fragment_id h = last_fragment_id ob + 1 -> has_end_flag (h, p) = false ->
       r = (with_objs ShellBufs (Some s) (<[oid := grown]> objs) st1, Ok tt))
      /\ (hdr_fragment_id h = last_fragment_id ob + 1 -> has_end_flag (h, p) = true ->
          r = match cb (delivered st1) d with
              | None =>
                  (with_objs ShellBufs (Some s) (delete oid objs) (add_delivery d st1), Ok tt)
              | Some e =>
                  (with_objs ShellBufs (Some s) (<[oid := grown]> objs) (add_delivery d st1),
                   Raise e)
              end)
      /\ (hdr_fragment_id h <> last_fragment_id ob + 1 ->
          r = (with_objs ShellBufs (Some s)
                 (<[oid := {| last_fragment_id := last_fragment_id ob; buffer := buffer ob;
                              command_id := cid |}]> objs) st1, Ok tt)))
  /\
  (forall r : bytes,
      (0 < length r < FRAG_HEADER_LEN)%nat ->
      new_fragment_data cb (Some s) (concat (map fragment_bytes frs) ++ r) cid st
      = (st1, Raise StructError)).
Proof.
  intros Hfrs Hprefix. split.
  - intros h p Hlen Hp oid objs ob grown d r.
    assert (Hr : r = append_tracked (ShellPath cb) (Some s) objs oid (hdr_fragment_id h)
                       (has_end_flag (h, p)) p cid st1).
    { subst r. unfold new_fragment_data in *.
      rewrite (new_fragment_data_truncated (Some s) has_shell new_shell ShellBufs
                 (completed_psrp_callback cb) cid frs h p st Hfrs Hlen Hp).
      unfold Py.bind. rewrite Hprefix.
      unfold append_parsed. cbn [fst snd].
      subst oid objs. unfold hdr_object_id, hdr_fragment_id, has_end_flag, hdr_flags.
      cbn [fst snd].
      destruct (fields_qqbI h) as [[[o f] e_s] len]. cbn [fst snd].
      pose proof (append_via_Some (ShellPath cb) s o f (_start_bit_set e_s) (_end_bit_set e_s)
                    p cid st1) as Ha.
      unfold append_via in Ha. cbn [path_has path_new path_bufs path_callback] in Ha.
      exact Ha. }
    rewrite Hr. unfold append_tracked. cbv zeta. fold ob. cbn [path_bufs deliver].
    fold d. fold grown.
    split; [|split].
    + intros Hfid Hend. rewrite Hfid, Z.eqb_refl, Hend. reflexivity.
    + intros Hfid Hend. rewrite Hfid, Z.eqb_refl, Hend.
      destruct (cb (delivered st1) d); reflexivity.
    + intros Hfid.
      replace (last_fragment_id ob + 1 =? hdr_fragment_id h) with false
        by (symmetry; apply Z.eqb_neq; congruence).
      reflexivity.
  - intros r Hr. unfold new_fragment_data in *.
    rewrite (new_fragment_data_short_header (Some s) has_shell new_shell ShellBufs
               (completed_psrp_callback cb) cid frs r st Hfrs Hr).
    unfold Py.bind. rewrite Hprefix. reflexivity.
Qed.

Lemma C10_witness :
  new_fragment_data wired_callback (Some "S"%string) truncated_with_id_0 None PSRP.init
  = (with_objs ShellBufs (Some "S"%string)
       {[ 7 := {| last_fragment_id := -1; buffer := [Byte.x41; Byte.x42];
                  command_id := None |} ]} PSRP.init, Ok tt)
  /\ new_fragment_data wired_callback (Some "S"%string) [Byte.x00; Byte.x01] None PSRP.init
     = (PSRP.init, Raise StructError).
Proof.
  destruct (C10_truncated_payload_and_short_header wired_callback "S" None [] PSRP.init
              PSRP.init (List.Forall_nil _) eq_refl) as [Htrunc Hshort].
  split.
  - destruct (Htrunc (header_of_7 Byte.x00 Byte.x05) [Byte.x41; Byte.x42] eq_refl
                ltac:(vm_compute; lia)) as (Hno_end & _).
    exact (Hno_end eq_refl eq_refl).
  - exact (Hshort [Byte.x00; Byte.x01] ltac:(vm_compute; lia)).
Defined.

(** ** Promotion of a pending shell *)

Lemma stash_of_with_objs m sel identifier objs st :
  stash_of m (with_objs sel identifier objs st) = stash_of m st.
Proof. destruct sel; reflexivity. Qed.

Lemma stash_of_stash_message m m' entry st :
  stash_of m (stash_message m' entry st)
  = if decide (m' = m) then stash_of m st ++ [entry] else stash_of m st.
Proof.
  unfold stash_of, stash_message. cbn [pending_shell_completed_messages set_completed].
  destruct (decide (m' = m)) as [->|Hne].
  - rewrite lookup_insert_eq. reflexivity.
  - rewrite lookup_insert_ne by exact Hne. reflexivity.
Qed.

(** What was stashed stays stashed while the pending path runs. *)
Lemma stashed_append_tracked m e m' objs oid fid e_flag data cid st :
  e ∈ stash_of m st ->
  e ∈ stash_of m (fst (append_tracked PendingPath m' objs oid fid e_flag data cid st)).
Proof.
  intros He. unfold append_tracked. cbv zeta. cbn [path_bufs].
  destruct (_ =? fid); [destruct e_flag|]; cbn [deliver fst];
    rewrite stash_of_with_objs; try exact He.
  rewrite stash_of_stash_message. destruct (decide (m' = m)); [|exact He].
  apply elem_of_app. left. exact He.
Qed.

Lemma stashed_append_via m e m' oid fid s_flag e_flag data cid :
  preserves (fun st => e ∈ stash_of m st)
    (append_via PendingPath m' oid fid s_flag e_flag data cid).
Proof.
  intros st He.
  destruct (bufs_of (path_bufs PendingPath) st !! m') as [objs|] eqn:Hobjs.
  - rewrite (append_via_tracked PendingPath m' objs _ _ _ _ _ _ st Hobjs).
    apply stashed_append_tracked. exact He.
  - destruct m' as [i|].
    + rewrite (append_via_untracked PendingPath i _ _ _ _ _ _ st Hobjs).
      apply stashed_append_tracked. exact He.
    + rewrite (append_via_untracked_None PendingPath _ _ _ _ _ _ st Hobjs). exact He.
Qed.

Lemma stashed_loop m e m' data cid (fuel off : nat) :
  preserves (fun st => e ∈ stash_of m st)
    (_new_fragment_data_loop fuel off m' has_pending_shell new_pending_shell PendingShellBufs
       pending_shell_message_callback data cid).
Proof.
  revert off. induction fuel as [|fuel IH]; intros off; cbn [_new_fragment_data_loop].
  - destruct (off <? length data)%nat; apply preserves_ret.
  - destruct (off <? length data)%nat; [|apply preserves_ret].
    apply preserves_bind.
    + intros st Hst. unfold unpack_qqbI.
      destruct (length (slice off (off + FRAG_HEADER_LEN) data) =? 21)%nat; exact Hst.
    + intros [[[oid fid] e_s] len]. apply preserves_bind.
      * exact (stashed_append_via m e m' oid fid (_start_bit_set e_s) (_end_bit_set e_s) _ cid).
      * intros _. apply IH.
Qed.

Lemma stashed_pending_feeds cb m e m' (feeds : list (bytes * Ident)) :
  forall st, e ∈ stash_of m st -> e ∈ stash_of m (run_ops cb (pending_feeds m' feeds) st).
Proof.
  induction feeds as [|[data cid] feeds IH]; intros st He; cbn.
  - exact He.
  - apply IH. apply (stashed_loop m e m' data cid (length data) 0 st He).
Qed.

Section Promotion.
Variable cb : Callback.
Variables m s : Ident.

(** The messages on which the callback is known to return normally. *)
Variable accepted : list (Z * bytes * Ident).
Hypothesis cb_accepts : forall before e, e ∈ accepted -> cb before (relabel s e) = None.

Lemma promotes_to_append oid fid s_flag e_flag data cid stA stB :
  promotes_to m s stA stB ->
  (forall e, e ∈ stash_of m (fst (append_via PendingPath m oid fid s_flag e_flag data cid stA))
             -> e ∈ accepted) ->
  same_result (promotes_to m s)
    (append_via PendingPath m oid fid s_flag e_flag data cid stA)
    (append_via (ShellPath cb) s oid fid s_flag e_flag data cid stB).
Proof.
  intros ((objs & HA & HB) & Hp & Hs & Hc & Hd).
  rewrite (append_via_tracked PendingPath m objs _ _ _ _ _ _ stA HA),
    (append_via_tracked (ShellPath cb) s objs _ _ _ _ _ _ stB HB).
  intros Hacc.
  assert (Hkeep : forall o' tA tB,
             pending_shell_bufs tA = pending_shell_bufs stA ->
             shell_bufs tA = shell_bufs stA ->
             pending_shell_bufs tB = pending_shell_bufs stB ->
             shell_bufs tB = shell_bufs stB ->
             pending_shell_completed_messages tB
             = delete m (pending_shell_completed_messages tA) ->
             delivered tB
             = delivered tA
               ++ map (relabel s) (default [] (pending_shell_completed_messages tA !! m)) ->
             promotes_to m s (with_objs PendingShellBufs m o' tA) (with_objs ShellBufs s o' tB)).
  { intros o' tA tB H1 H2 H3 H4 H5 H6. unfold promotes_to, with_objs. cbn.
    rewrite H1, H2, H3, H4.
    split; [exists o'; split; apply lookup_insert_eq|].
    split; [rewrite delete_insert_eq; exact Hp|].
    split; [rewrite delete_insert_eq; exact Hs|].
    split; assumption. }
  revert Hacc. unfold append_tracked. cbv zeta. cbn [path_bufs].
  destruct (last_fragment_id (default fresh_buf (objs !! oid)) + 1 =? fid).
  - destruct e_flag.
    + cbn [deliver fst]. intros Hacc.
      assert (Hcb : cb (delivered stB)
                      (relabel s (oid, buffer (default fresh_buf (objs !! oid)) ++ data, cid))
                    = None).
      { apply cb_accepts. apply Hacc. rewrite stash_of_with_objs, stash_of_stash_message.
        rewrite decide_True by reflexivity. apply elem_of_app. right.
        apply list_elem_of_singleton. reflexivity. }
      cbn [relabel] in Hcb. rewrite Hcb.
      split; [|reflexivity]. cbn [fst].
      apply Hkeep; try reflexivity.
      * cbn. rewrite delete_insert_eq. exact Hc.
      * cbn. rewrite lookup_insert_eq. cbn [default from_option id].
        rewrite Hd, map_app, <- app_assoc. reflexivity.
    + intros _. split; [|reflexivity]. cbn [fst]. apply Hkeep; try reflexivity; assumption.
  - intros _. split; [|reflexivity]. cbn [fst]. apply Hkeep; try reflexivity; assumption.
Qed.

Lemma promotes_to_loop data cid (fuel : nat) :
  forall (off : nat) stA stB,
    promotes_to m s stA stB ->
    (forall e,
        e ∈ stash_of m
              (fst (_new_fragment_data_loop fuel off m has_pending_shell new_pending_shell
                      PendingShellBufs pending_shell_message_callback data cid stA))
        -> e ∈ accepted) ->
    same_result (promotes_to m s)
      (_new_fragment_data_loop fuel off m has_pending_shell new_pending_shell
         PendingShellBufs pending_shell_message_callback data cid stA)
      (_new_fragment_data_loop fuel off s has_shell new_shell ShellBufs
         (completed_psrp_callback cb) data cid stB).
Proof.
  induction fuel as [|fuel IH]; intros off stA stB HR; cbn [_new_fragment_data_loop].
  - intros _. destruct (off <? length data)%nat; (split; [exact HR|reflexivity]).
  - destruct (off <? length data)%nat; [|intros _; split; [exact HR|reflexivity]].
    unfold Py.bind, unpack_qqbI.
    destruct (length (slice off (off + FRAG_HEADER_LEN) data) =? 21)%nat;
      [|intros _; split; [exact HR|reflexivity]].
    unfold Py.ret. cbv beta iota.
    destruct (fields_qqbI (slice off (off + FRAG_HEADER_LEN) data)) as [[[oid fid] e_s] len].
    cbv beta iota.
    set (frag := slice (off + FRAG_HEADER_LEN) (off + FRAG_HEADER_LEN + Z.to_nat len) data).
    pose proof (promotes_to_append oid fid (_start_bit_set e_s) (_end_bit_set e_s) frag cid
                  stA stB HR) as Hstep.
    unfold append_via in Hstep. cbn [path_has path_new path_bufs path_callback] in Hstep.
    pose proof (stashed_loop m) as Hmono.
    destruct (_append_frag_data oid fid (_start_bit_set e_s) (_end_bit_set e_s) frag m
                has_pending_shell new_pending_shell PendingShellBufs
                pending_shell_message_callback cid stA) as [tA rA] eqn:HappA.
    destruct (_append_frag_data oid fid (_start_bit_set e_s) (_end_bit_set e_s) frag s
                has_shell new_shell ShellBufs (completed_psrp_callback cb) cid stB)
      as [tB rB] eqn:HappB.
    rewrite ?HappA, ?HappB in Hstep. unfold same_result in Hstep. cbn [fst snd] in Hstep.
    destruct rA as [[]|ex].
    + intros Hacc.
      destruct Hstep as [HR' Hr].
      { intros e He. apply Hacc.
        apply (Hmono e m data cid fuel (off + FRAG_HEADER_LEN + Z.to_nat len)%nat tA He). }
      subst rB. apply IH; [exact HR'|exact Hacc].
    + intros Hacc. cbn [fst] in Hacc.
      destruct Hstep as [HR' Hr]; [exact Hacc|].
      subst rB. split; [exact HR'|reflexivity].
Qed.

Lemma promotes_to_feeds (feeds : list (bytes * Ident)) :
  forall stA stB,
    promotes_to m s stA stB ->
    (forall e, e ∈ stash_of m (run_ops cb (pending_feeds m feeds) stA) -> e ∈ accepted) ->
    promotes_to m s (run_ops cb (pending_feeds m feeds) stA)
                    (run_ops cb (shell_feeds s feeds) stB).
Proof.
  induction feeds as [|[data cid] feeds IH]; intros stA stB HR Hacc;
    cbn [pending_feeds shell_feeds map run_ops fold_left] in *.
  - exact HR.
  - apply IH; [|exact Hacc].
    cbn [run_op]. unfold new_fragment_data_pending_shell, new_fragment_data, _new_fragment_data.
    apply (promotes_to_loop data cid (length data) 0 stA stB HR).
    intros e He. apply Hacc.
    apply (stashed_pending_feeds cb m e m feeds). exact He.
Qed.

(** Promotion turns the first state into the second. *)
Lemma promotes_to_promote stA stB :
  promotes_to m s stA stB ->
  (forall e, e ∈ stash_of m stA -> e ∈ accepted) ->
  fst (set_pending_shell_id cb m s stA) = stB.
Proof.
  intros ((objs & HA & HB) & Hp & Hs & Hc & Hd) Hacc.
  rewrite set_pending_shell_id_unfold, HA.
  assert (HsA : contains (shell_bufs stA) s = false)
    by (unfold contains; rewrite Hs, lookup_delete_eq; reflexivity).
  assert (Hflush : forall (l : list (Z * bytes * Ident)) (t : PSRPDefragmenter),
             (forall e, e ∈ l -> e ∈ accepted) ->
             for_each l
               (fun '(object_id, message, command_id) =>
                  completed_psrp_callback cb s object_id message command_id) t
             = ({| shell_bufs := shell_bufs t; pending_shell_bufs := pending_shell_bufs t;
                   pending_shell_completed_messages := pending_shell_completed_messages t;
                   delivered := delivered t ++ map (relabel s) l |}, Ok tt)).
  { induction l as [|[[oid msg] cid] l IH]; intros t Hl; cbn [for_each map].
    - rewrite app_nil_r. destruct t; reflexivity.
    - unfold Py.bind at 1.
      rewrite (path_callback_spec (ShellPath cb) s oid msg cid t
               : completed_psrp_callback _ _ _ _ _ _ = _).
      cbn [deliver].
      pose proof (cb_accepts (delivered t) (oid, msg, cid) ltac:(apply Hl; left)) as Hcb.
      cbn [relabel] in Hcb. rewrite Hcb.
      rewrite IH by (intros e He; apply Hl; right; exact He).
      cbn. rewrite <- app_assoc. reflexivity. }
  assert (Hshell : <[s := objs]> (shell_bufs stA) = shell_bufs stB)
    by (rewrite Hs, insert_delete_eq; apply insert_id; exact HB).
  set (st1 := set_shell_bufs (<[s := objs]> (shell_bufs stA))
                (set_pending_shell_bufs (delete m (pending_shell_bufs stA)) stA)).
  assert (Hmove :
            (modify (set_pending_shell_bufs (delete m (pending_shell_bufs stA))) ;;;
             modify (fun st =>
               if contains (shell_bufs st) s then st
               else set_shell_bufs (<[s := objs]> (shell_bufs st)) st) ;;;
             ret tt) stA = (st1, Ok tt)).
  { unfold Py.bind, modify, Py.ret. cbv beta iota.
    cbn [shell_bufs set_pending_shell_bufs]. rewrite HsA. reflexivity. }
  assert (Hst1 : pending_shell_completed_messages st1 = pending_shell_completed_messages stA)
    by reflexivity.
  assert (Hd1 : delivered st1 = delivered stA) by reflexivity.
  assert (Hgoal :
            fst ((let* stash := gets pending_shell_completed_messages in
                  (if contains stash m then
                     for_each (default [] (stash !! m))
                       (fun '(object_id, message, command_id) =>
                          completed_psrp_callback cb s object_id message command_id)
                   else ret tt) ;;;
                  let* stash := gets pending_shell_completed_messages in
                  let* _msgs := getitem stash m in
                  modify (set_completed (delete m stash))) st1) = stB).
  { unfold Py.bind at 1. unfold gets at 1. rewrite Hst1. unfold contains.
    unfold stash_of in Hacc.
    destruct (pending_shell_completed_messages stA !! m) as [l|] eqn:Hl.
    - cbn [default from_option id] in *.
      unfold Py.bind at 1. rewrite Hflush by exact Hacc.
      unfold Py.bind, gets, getitem, modify, Py.ret. cbv beta iota.
      cbn [pending_shell_completed_messages]. rewrite Hst1, Hl. cbn [fst].
      unfold set_completed. cbn [shell_bufs pending_shell_bufs delivered
                                 pending_shell_completed_messages].
      rewrite Hd1, <- Hd, <- Hc.
      subst st1. cbn [shell_bufs pending_shell_bufs set_shell_bufs set_pending_shell_bufs].
      rewrite Hshell, <- Hp. destruct stB; reflexivity.
    - unfold Py.bind, gets, getitem, modify, Py.ret, Py.raise. cbv beta iota.
      rewrite Hst1, Hl. cbn [fst].
      cbn [default from_option id map] in Hd. rewrite app_nil_r in Hd.
      rewrite (delete_id _ _ Hl) in Hc.
      subst st1. unfold set_shell_bufs, set_pending_shell_bufs.
      cbn [shell_bufs pending_shell_bufs delivered pending_shell_completed_messages].
      rewrite Hshell, <- Hp, <- Hc, <- Hd. destruct stB; reflexivity. }
  rewrite <- Hgoal.
  unfold Py.bind at 1 2. unfold Py.bind at 1 2 in Hmove.
  destruct (modify (set_pending_shell_bufs (delete m (pending_shell_bufs stA))) stA)
    as [t1 [[]|e1]]; [|discriminate Hmove].
  destruct (modify (fun st => if contains (shell_bufs st) s then st
                              else set_shell_bufs (<[s := objs]> (shell_bufs st)) st) t1)
    as [t2 [[]|e2]]; [|discriminate Hmove].
  unfold Py.ret in Hmove. injection Hmove as ->. reflexivity.
Qed.

End Promotion.

(** Promotion to a shell id that is tracked already keeps the buffers
    of that shell and drops those of the pending shell. *)
Lemma promotion_to_tracked_shell_drops (cb : Callback) (m s : Ident)
    (objs objs' : gmap Z ObjBuf) (st : PSRPDefragmenter) :
  pending_shell_bufs st !! m = Some objs ->
  shell_bufs st !! s = Some objs' ->
  shell_bufs (fst (set_pending_shell_id cb m s st)) = shell_bufs st
  /\ pending_shell_bufs (fst (set_pending_shell_id cb m s st)) = delete m (pending_shell_bufs st).
Proof.
  intros Hp Hs.
  assert (Hpres : preserves (fun t => shell_bufs t = shell_bufs st
                                      /\ pending_shell_bufs t = delete m (pending_shell_bufs st))
            (let* stash := gets pending_shell_completed_messages in
             (if contains stash m then
                for_each (default [] (stash !! m))
                  (fun '(object_id, message, command_id) =>
                     completed_psrp_callback cb s object_id message command_id)
              else ret tt) ;;;
             let* stash := gets pending_shell_completed_messages in
             let* _msgs := getitem stash m in
             modify (set_completed (delete m stash)))).
  { apply preserves_bind; [apply preserves_gets|]. intros stash.
    apply preserves_bind.
    - destruct (contains stash m); [|apply preserves_ret].
      apply preserves_for_each. intros [[oid msg] cid] t Ht.
      rewrite (path_callback_spec (ShellPath cb) s oid msg cid t
               : completed_psrp_callback _ _ _ _ _ _ = _).
      cbn [deliver]. destruct (cb _ _); exact Ht.
    - intros _. apply preserves_bind; [apply preserves_gets|]. intros stash'.
      apply preserves_bind; [apply preserves_getitem|]. intros _.
      apply preserves_modify. intros t Ht. exact Ht. }
  assert (Htracked : contains (shell_bufs st) s = true)
    by (unfold contains; rewrite Hs; reflexivity).
  match type of Hpres with
  | preserves _ ?rest =>
      assert (Hr : set_pending_shell_id cb m s st
                   = rest (set_pending_shell_bufs (delete m (pending_shell_bufs st)) st))
  end.
  { rewrite set_pending_shell_id_unfold, Hp.
    unfold Py.bind at 1. unfold modify at 1. cbv beta iota.
    unfold Py.bind at 1. unfold modify at 1. cbv beta iota.
    cbn [shell_bufs set_pending_shell_bufs]. rewrite Htracked. reflexivity. }
  rewrite Hr.
  exact (Hpres (set_pending_shell_bufs (delete m (pending_shell_bufs st)) st)
           (conj eq_refl eq_refl)).
Qed.

(** C2, amended.  For a pending shell newly created under [m]: when the
    shell id [s] is not tracked and the completion callback returns
    normally on the messages that completed while the shell was pending,
    [set_pending_shell_id m s] delivers those messages, relabelled with
    [s], in the order they were stashed, and leaves the defragmenter in
    exactly the state it would be in had shell [s] been registered at
    the start and every fragment stream been fed to it directly, so
    every later operation behaves the same in both; when [s] is tracked
    already, the buffers of [s] are kept and those of the pending shell
    are dropped. *)
Theorem C2_promotion_equals_direct_feeding (cb : Callback) (m s : string) :
  (forall (feeds : list (bytes * Ident)) (st0 : PSRPDefragmenter),
      shell_bufs st0 !! Some s = None ->
      pending_shell_bufs st0 !! Some m = None ->
      pending_shell_completed_messages st0 !! Some m = None ->
      let before := run_ops cb (OpNewPendingShell (Some m) :: pending_feeds (Some m) feeds) st0 in
      let promoted := fst (set_pending_shell_id cb (Some m) (Some s) before) in
      let direct := run_ops cb (OpNewShell (Some s) :: shell_feeds (Some s) feeds) st0 in
      (forall bef e, e ∈ stash_of (Some m) before -> cb bef (relabel (Some s) e) = None) ->
      delivered promoted
      = delivered before ++ map (relabel (Some s)) (stash_of (Some m) before)
      /\ promoted = direct
      /\ (forall ops : list Op, run_ops cb ops promoted = run_ops cb ops direct))
  /\
  (forall (st : PSRPDefragmenter) (objs objs' : gmap Z ObjBuf),
      pending_shell_bufs st !! Some m = Some objs ->
      shell_bufs st !! Some s = Some objs' ->
      let promoted := fst (set_pending_shell_id cb (Some m) (Some s) st) in
      shell_bufs promoted = shell_bufs st
      /\ pending_shell_bufs promoted = delete (Some m) (pending_shell_bufs st)).
Proof.
  split.
  - intros feeds st0 Hs Hp Hc before promoted direct Hcb.
    assert (H0 : promotes_to (Some m) (Some s)
                   (fst (new_pending_shell (Some m) st0)) (fst (new_shell (Some s) st0))).
    { unfold new_pending_shell, new_shell, modify, contains. rewrite Hs, Hp. cbn [fst].
      unfold promotes_to. cbn.
      split; [exists ∅; split; apply lookup_insert_eq|].
      split; [symmetry; apply delete_insert_id; exact Hp|].
      split; [symmetry; apply delete_insert_id; exact Hs|].
      split; [symmetry; apply delete_id; exact Hc|].
      rewrite Hc. cbn. rewrite app_nil_r. reflexivity. }
    assert (Hacc : forall bef e, e ∈ stash_of (Some m) before ->
                                 cb bef (relabel (Some s) e) = None) by exact Hcb.
    pose proof (promotes_to_feeds cb (Some m) (Some s) (stash_of (Some m) before) Hacc feeds
                  _ _ H0 (fun e He => He)) as HR.
    change (promotes_to (Some m) (Some s) before direct) in HR.
    pose proof (promotes_to_promote cb (Some m) (Some s) (stash_of (Some m) before) Hacc
                  before direct HR (fun e He => He)) as Heq.
    fold promoted in Heq.
    split; [|split].
    + rewrite Heq. apply HR.
    + exact Heq.
    + intros ops. rewrite Heq. reflexivity.
  - intros st objs objs' Hp Hs promoted. subst promoted.
    apply (promotion_to_tracked_shell_drops cb (Some m) (Some s) objs objs' st Hp Hs).
Qed.

Lemma C2_witness :
  let feeds := [(fragment_bytes capability_first, None);
                (fragment_bytes capability_last, None)] in
  fst (set_pending_shell_id wired_callback (Some "M"%string) (Some "S"%string)
         (run_ops wired_callback (OpNewPendingShell (Some "M"%string)
                                  :: pending_feeds (Some "M"%string) feeds) PSRP.init))
  = run_ops wired_callback (OpNewShell (Some "S"%string) :: shell_feeds (Some "S"%string) feeds)
      PSRP.init.
Proof.
  intros feeds.
  destruct (C2_promotion_equals_direct_feeding wired_callback "M" "S") as [Hpromote _].
  destruct (Hpromote feeds PSRP.init eq_refl eq_refl eq_refl) as (_ & Heq & _).
  - intros bef e He.
    assert (Hst : stash_of (Some "M"%string)
                    (run_ops wired_callback
                       (OpNewPendingShell (Some "M"%string)
                        :: pending_feeds (Some "M"%string) feeds) PSRP.init)
                  = [(7, session_capability_message, None)])
      by (vm_compute; reflexivity).
    rewrite Hst in He. apply list_elem_of_singleton in He. subst e. vm_compute. reflexivity.
  - exact Heq.
Defined.
